(** * UML / SQL bidirectional converter: a shallow embedding of [app.py]

    The four conversions of [app.py] are embedded function by function.
    Python text is [string]; its characters are the code points below 256.
    [isdigit] and [int] are the Python ones on such text, superscript
    digits and the limit on the number of digits included; [lower],
    [upper], the whitespace test of [strip] and [split] and the classes of
    the patterns are the ASCII restrictions of the Python ones.
    Dictionaries that are only
    looked up are [gmap]s, the insertion-ordered [classes] dictionary is an
    association list, element trees are the inductive [xml].  Exceptions are
    the [Raise] outcomes of the [result] monad.  The three libraries the
    program calls (the XML reader and writer, [sqlparse]) are Section
    variables; the regular expressions of the program are written out and
    run by the backtracking matcher of [Module Re]. *)

From Stdlib Require Import ZArith Ascii String DecimalString List Bool Lia.
From stdpp Require Import base option list gmap strings.

Set Warnings "-register-all".
Local Open Scope Z_scope.

(** ** Python text primitives *)

Module Py.

Definition nl : string := String "010"%char "".
Definition dquote : ascii := "034"%char.

Definition code (c : ascii) : nat := nat_of_ascii c.

Definition is_upper_char (c : ascii) : bool :=
  (Nat.leb 65 (code c)) && (Nat.leb (code c) 90).
Definition is_lower_char (c : ascii) : bool :=
  (Nat.leb 97 (code c)) && (Nat.leb (code c) 122).
Definition is_digit_char (c : ascii) : bool :=
  (Nat.leb 48 (code c)) && (Nat.leb (code c) 57).

(** ASCII characters for which [str.isspace] holds. *)
Definition is_space_char (c : ascii) : bool :=
  ((Nat.leb 9 (code c)) && (Nat.leb (code c) 13))
  || ((Nat.leb 28 (code c)) && (Nat.leb (code c) 32)).

Definition lower_char (c : ascii) : ascii :=
  if is_upper_char c then ascii_of_nat (code c + 32) else c.
Definition upper_char (c : ascii) : ascii :=
  if is_lower_char c then ascii_of_nat (code c - 32) else c.

Fixpoint smap (f : ascii -> ascii) (s : string) : string :=
  match s with
  | EmptyString => EmptyString
  | String c r => String (f c) (smap f r)
  end.

(** [s.lower()] and [s.upper()]. *)
Definition lower (s : string) : string := smap lower_char s.
Definition upper (s : string) : string := smap upper_char s.

(** [sub in s]. *)
Fixpoint contains (sub s : string) : bool :=
  String.prefix sub s ||
  match s with
  | EmptyString => false
  | String _ r => contains sub r
  end.

(** [s.endswith(suffix)]. *)
Fixpoint endswith (s suffix : string) : bool :=
  String.eqb s suffix ||
  match s with
  | EmptyString => false
  | String _ r => endswith r suffix
  end.

(** Truth value of a Python string, and of an optional one. *)
Definition truthy (s : string) : bool :=
  match s with EmptyString => false | _ => true end.
Definition otruthy (o : option string) : bool :=
  match o with Some s => truthy s | None => false end.

(** [a or b] on optional strings. *)
Definition por (a b : option string) : option string :=
  if otruthy a then a else b.

(** [sep.join(parts)]. *)
Fixpoint join (sep : string) (parts : list string) : string :=
  match parts with
  | [] => ""
  | [p] => p
  | p :: rest => p +:+ sep +:+ join sep rest
  end.

Fixpoint lstrip_by (f : ascii -> bool) (s : string) : string :=
  match s with
  | EmptyString => EmptyString
  | String c r => if f c then lstrip_by f r else s
  end.

Fixpoint rstrip_by (f : ascii -> bool) (s : string) : string :=
  match s with
  | EmptyString => EmptyString
  | String c r =>
      match rstrip_by f r with
      | EmptyString => if f c then EmptyString else String c EmptyString
      | r' => String c r'
      end
  end.

Definition strip_by (f : ascii -> bool) (s : string) : string :=
  rstrip_by f (lstrip_by f s).

(** [s.strip()] and [s.strip(chars)]. *)
Definition strip (s : string) : string := strip_by is_space_char s.

Fixpoint mem_char (c : ascii) (chars : string) : bool :=
  match chars with
  | EmptyString => false
  | String d r => Ascii.eqb c d || mem_char c r
  end.

Definition strip_chars (chars s : string) : string :=
  strip_by (fun c => mem_char c chars) s.

(** [s.split()]: the maximal runs of characters that are not whitespace. *)
Fixpoint split_go (cur : string) (s : string) : list string :=
  match s with
  | EmptyString => if truthy cur then [cur] else []
  | String c r =>
      if is_space_char c
      then (if truthy cur then cur :: split_go "" r else split_go "" r)
      else split_go (cur +:+ String c "") r
  end.

Definition split (s : string) : list string := split_go "" s.

(** The characters for which [str.isdigit] holds: the decimal digits and
    the superscripts two, three and one (code points 178, 179 and 185).
    [int] reads the decimal digits only. *)
Definition isdigit_char (c : ascii) : bool :=
  is_digit_char c
  || Nat.eqb (code c) 178 || Nat.eqb (code c) 179 || Nat.eqb (code c) 185.

(** [s.isdigit()]. *)
Fixpoint all_digits (s : string) : bool :=
  match s with
  | EmptyString => true
  | String c r => isdigit_char c && all_digits r
  end.

Definition isdigit (s : string) : bool := truthy s && all_digits s.

Definition digit_val (c : ascii) : Z := Z.of_nat (code c - 48).

(** The digits of an [int] literal: decimal digits, with single
    underscores allowed between two digits. *)
Fixpoint int_digits (acc : Z) (after_digit : bool) (s : string) : option Z :=
  match s with
  | EmptyString => if after_digit then Some acc else None
  | String c r =>
      if is_digit_char c then int_digits (10 * acc + digit_val c) true r
      else if Ascii.eqb c "_" && after_digit then int_digits acc false r
      else None
  end.

(** The whitespace [int] drops around a number: the six characters of C's
    [isspace], and the two whitespace characters above 127 (133 and 160),
    which [int] turns into spaces first.  The separators 28 to 31 are
    whitespace for [str.strip], not for [int]. *)
Definition is_int_space_char (c : ascii) : bool :=
  ((Nat.leb 9 (code c)) && (Nat.leb (code c) 13)) || Nat.eqb (code c) 32
  || Nat.eqb (code c) 133 || Nat.eqb (code c) 160.

(** [sys.int_info.default_max_str_digits]: [int] refuses a text of more
    decimal digits (CPython 3.11 and later; the program does not change the
    limit).  Underscores and the sign do not count, leading zeros do. *)
Definition int_max_str_digits : nat := 4300.

Fixpoint count_digits (s : string) : nat :=
  match s with
  | EmptyString => 0%nat
  | String c r => ((if is_digit_char c then 1 else 0) + count_digits r)%nat
  end.

(** The number after the sign. *)
Definition int_literal (s : string) : option Z :=
  if Nat.ltb int_max_str_digits (count_digits s) then None
  else int_digits 0 false s.

(** [int(s)] on text: surrounding whitespace is dropped, one sign is
    allowed; [None] stands for the [ValueError]. *)
Definition int (s : string) : option Z :=
  match strip_by is_int_space_char s with
  | String "-" r => Z.opp <$> int_literal r
  | String "+" r => int_literal r
  | t => int_literal t
  end.

(** [s * n]. *)
Fixpoint times (s : string) (n : nat) : string :=
  match n with
  | O => ""
  | S k => s +:+ times s k
  end.

End Py.

(** ** Exceptions *)

Inductive exn : Set :=
  | ParseError | ValueError | TypeError | AttributeError | IndexError.

Inductive result (A : Type) : Type :=
  | Return (a : A)
  | Raise (e : exn).
Arguments Return {A} a.
Arguments Raise {A} e.

Definition rbind {A B : Type} (m : result A) (k : A -> result B) : result B :=
  match m with
  | Return a => k a
  | Raise e => Raise e
  end.

Notation "'let*' x ':=' m 'in' k" := (rbind m (fun x => k))
  (at level 10, x pattern, m at level 100, k at level 200).

(** A [for] loop whose body may raise: the first exception ends it. *)
Fixpoint for_each {A S : Type} (body : S -> A -> result S) (l : list A) (s : S)
  : result S :=
  match l with
  | [] => Return s
  | x :: r => let* s' := body s x in for_each body r s'
  end.

Definition ok {A : Type} (r : result A) : bool :=
  match r with Return _ => true | Raise _ => false end.

(** ** Element trees *)

Module ET.

Inductive xml (V : Type) : Type :=
  | Elem (tag : string) (attrib : list (string * V)) (children : list (xml V)).
Arguments Elem {V} tag attrib children.

Definition tag {V} (e : xml V) : string := let 'Elem t _ _ := e in t.
Definition attrib {V} (e : xml V) : list (string * V) := let 'Elem _ a _ := e in a.
Definition children {V} (e : xml V) : list (xml V) := let 'Elem _ _ c := e in c.

(** A parsed element carries text attribute values. *)
Abbreviation elem := (xml string).

(** [d.get(key)] on an attribute dictionary. *)
Fixpoint dict_get {V} (key : string) (d : list (string * V)) : option V :=
  match d with
  | [] => None
  | (k, v) :: r => if String.eqb k key then Some v else dict_get key r
  end.

(** [e.get(key)]. *)
Definition get {V} (e : xml V) (key : string) : option V :=
  dict_get key (attrib e).

(** [e.iter()]: the element and its descendants in document order. *)
Fixpoint iter {V} (e : xml V) : list (xml V) :=
  match e with
  | Elem _ _ cs => e :: flat_map iter cs
  end.

(** [e.findall(name)] for a plain tag name: the children with that tag. *)
Definition findall {V} (e : xml V) (name : string) : list (xml V) :=
  List.filter (fun c => String.eqb (tag c) name) (children e).

(** [e.find(name)]. *)
Definition find {V} (e : xml V) (name : string) : option (xml V) :=
  head (findall e name).

(** [ET.SubElement(parent, ...)]: the new element becomes the last child. *)
Definition SubElement {V} (parent : xml V) (child : xml V) : xml V :=
  let 'Elem t a cs := parent in Elem t a (cs ++ [child]).

End ET.
Import ET.

(** ** Exchange markup to SQL script: [UMLParser] *)

Definition TYPE_MAPPING : list (string * string) :=
  [ ("String", "VARCHAR(255)");
    ("Integer", "INT");
    ("Boolean", "BOOLEAN");
    ("Float", "FLOAT");
    ("Double", "DOUBLE");
    ("Long", "BIGINT");
    ("Date", "DATE") ].

Definition XMI_NAMESPACE : string := "http://schema.omg.org/spec/XMI/2.1".
Definition UML_NAMESPACE : string := "http://www.eclipse.org/uml2/3.0.0/UML".

Definition get_attrib (e : elem) (attrib_name : string) : option string :=
  Py.por (get e ("{" +:+ XMI_NAMESPACE +:+ "}" +:+ attrib_name))
         (get e attrib_name).

(** The tuple appended to [self.associations]. *)
Record association : Type := Assoc {
  t1 : option string; n1 : string; l1 : Z; u1 : Z;
  t2 : option string; n2 : string; l2 : Z; u2 : Z }.

(** The rows of a class: (attribute name, SQL type). *)
Abbreviation attrs_t := (list (string * string)).

(** The mutable fields of a [UMLParser]. *)
Record UMLParser : Type := Parser {
  root : elem;
  class_ids : gmap string string;
  classes : list (string * attrs_t);
  associations : list association }.

(** [d[key] = v] on an insertion-ordered dictionary: a present key keeps its
    place and takes the new value, a new key goes last. *)
Fixpoint dict_set {V} (key : string) (v : V) (d : list (string * V))
  : list (string * V) :=
  match d with
  | [] => [(key, v)]
  | (k, w) :: r =>
      if String.eqb k key then (k, v) :: r else (k, w) :: dict_set key v r
  end.

Definition is_packaged (e : elem) : bool :=
  Py.endswith (tag e) "packagedElement".

Definition is_type (e : elem) (ty : string) : bool :=
  match get_attrib e "type" with
  | Some t => String.eqb t ty
  | None => false
  end.

(** Lines 48-50: the SQL type of one [ownedAttribute]. *)
Definition sql_type_of (attr_type : option string) : string :=
  match attr_type with
  | Some t =>
      if Py.truthy t
      then default "VARCHAR(255)" (dict_get t TYPE_MAPPING)
      else "VARCHAR(255)"
  | None => "VARCHAR(255)"
  end.

(** Lines 46-52: the rows read from the [ownedAttribute] children. *)
Definition read_attrs (e : elem) : attrs_t :=
  flat_map (fun attr =>
              let attr_name := get attr "name" in
              let sql_type := sql_type_of (get attr "type") in
              match attr_name with
              | Some n => if Py.truthy n then [(n, sql_type)] else []
              | None => []
              end)
           (findall e "ownedAttribute").

Definition is_id (a_name : string) : bool :=
  String.eqb (Py.lower a_name) "id".

Definition has_pk_marker (a_type : string) : bool :=
  Py.contains "primary key" (Py.lower a_type).

(** Lines 57-61: the body of the loop that marks the key. *)
Definition mark_id (a : string * string) : string * string :=
  let '(a_name, a_type) := a in
  if is_id a_name && negb (has_pk_marker a_type)
  then (a_name, a_type +:+ " PRIMARY KEY")
  else (a_name, a_type).

(** Lines 53-62: the primary key of the class. *)
Definition ensure_id (attrs : attrs_t) : attrs_t :=
  if negb (existsb (fun a => is_id (fst a)) attrs)
  then ("id", "INT PRIMARY KEY") :: attrs
  else map mark_id attrs.

(** The body of the loop of [parse_classes]. *)
Definition parse_class (p : UMLParser) (e : elem) : UMLParser :=
  if is_packaged e && is_type e "uml:Class" then
    match get_attrib e "id", get e "name" with
    | Some class_id, Some class_name =>
        if Py.truthy class_id && Py.truthy class_name then
          {| root := root p;
             class_ids := <[class_id := class_name]> (class_ids p);
             classes := dict_set class_name (ensure_id (read_attrs e)) (classes p);
             associations := associations p |}
        else p
    | _, _ => p
    end
  else p.

Definition parse_classes (p : UMLParser) : UMLParser :=
  fold_left parse_class (iter (root p)) p.

(** Lines 78 and 84: [int(e.attrib.get('lower', '0'))]. *)
Definition read_lower (e : elem) : result Z :=
  match Py.int (default "0" (get e "lower")) with
  | Some n => Return n
  | None => Raise ValueError
  end.

(** Lines 79-80 and 85-86. *)
Definition read_upper (e : elem) : result Z :=
  let upper_raw := default "1" (get e "upper") in
  if Py.isdigit upper_raw then
    match Py.int upper_raw with
    | Some n => Return n
    | None => Raise ValueError
    end
  else Return (-1).

(** Lines 77 and 83: [e.attrib.get('name') or dflt]. *)
Definition read_name (e : elem) (dflt : string) : string :=
  default dflt (Py.por (get e "name") (Some dflt)).

(** The body of the loop of [parse_associations]. *)
Definition parse_association (p : UMLParser) (e : elem) : result UMLParser :=
  if is_packaged e && is_type e "uml:Association" then
    match findall e "ownedEnd" with
    | [e1; e2] =>
        let type1 := get e1 "type" in
        let name1 := read_name e1 "ref1" in
        let* lower1 := read_lower e1 in
        let* upper1 := read_upper e1 in
        let type2 := get e2 "type" in
        let name2 := read_name e2 "ref2" in
        let* lower2 := read_lower e2 in
        let* upper2 := read_upper e2 in
        Return {| root := root p;
                  class_ids := class_ids p;
                  classes := classes p;
                  associations :=
                    associations p ++
                    [Assoc type1 name1 lower1 upper1 type2 name2 lower2 upper2] |}
    | _ => Return p
    end
  else Return p.

Definition parse_associations (p : UMLParser) : result UMLParser :=
  for_each parse_association (iter (root p)) p.

(** Both passes on a fresh parser for the tree [r] (lines 29-33, 148-149). *)
Definition parse_model (r : elem) : result UMLParser :=
  parse_associations (parse_classes (Parser r (empty : gmap string string) [] [])).

(** Lines 93-100: the [CREATE TABLE] statement of a class. *)
Definition attr_line (a : string * string) : string :=
  let '(attr_name, sql_type) := a in
  let not_null :=
    if negb (Py.contains "PRIMARY KEY" (Py.upper sql_type)) then " NOT NULL" else "" in
  "  `" +:+ attr_name +:+ "` " +:+ sql_type +:+ not_null.

Definition create_table (class_name : string) (attrs : attrs_t) : string :=
  Py.join Py.nl
    [ "CREATE TABLE `" +:+ class_name +:+ "` (";
      Py.join ("," +:+ Py.nl) (map attr_line attrs);
      ");" ].

(** Lines 108-109 (and 282-283): the two tests on the upper bounds. *)
Definition many_to_many (u1 u2 : Z) : bool :=
  ((u1 =? -1) && (u2 =? -1)) || ((u1 =? -1) && (1 <? u2)) || ((u2 =? -1) && (1 <? u1)).

Definition one_to_many (u1 u2 : Z) : bool :=
  ((u1 =? 1) && ((u2 =? -1) || (1 <? u2))) || ((u2 =? 1) && ((u1 =? -1) || (1 <? u1))).

(** The three branches of the [if] / [elif] / [else] on those tests. *)
Inductive bucket : Set := ManyToMany | OneToMany | DefaultBucket.

Definition classify (u1 u2 : Z) : bucket :=
  if many_to_many u1 u2 then ManyToMany
  else if one_to_many u1 u2 then OneToMany
  else DefaultBucket.

(** Lines 112-120: the join table of a many-to-many association. *)
Definition join_table_sql (c1 c2 : string) : string :=
  let join_table := c1 +:+ "_" +:+ c2 +:+ "_join" in
  Py.join Py.nl
    [ "CREATE TABLE `" +:+ join_table +:+ "` (";
      "  `" +:+ Py.lower c1 +:+ "_id` INT NOT NULL,";
      "  `" +:+ Py.lower c2 +:+ "_id` INT NOT NULL,";
      "  PRIMARY KEY (`" +:+ Py.lower c1 +:+ "_id`, `" +:+ Py.lower c2 +:+ "_id`),";
      "  FOREIGN KEY (`" +:+ Py.lower c1 +:+ "_id`) REFERENCES `" +:+ c1 +:+ "`(`id`),";
      "  FOREIGN KEY (`" +:+ Py.lower c2 +:+ "_id`) REFERENCES `" +:+ c2 +:+ "`(`id`)";
      ");" ].

(** [f'{n}_id' if n else f'{c.lower()}_id']. *)
Definition fk_col_name (n c : string) : string :=
  if Py.truthy n then n +:+ "_id" else Py.lower c +:+ "_id".

(** Where the foreign key of an association that is not many-to-many goes:
    (fk_table, fk_col, ref_table), lines 324-336. *)
Definition fk_placement (c1 n1 : string) (u1 : Z) (c2 n2 : string) (u2 : Z)
  : string * string * string :=
  if one_to_many u1 u2 then
    if u1 =? 1 then (c2, fk_col_name n1 c1, c1)
    else (c1, fk_col_name n2 c2, c2)
  else (c1, fk_col_name n2 c2, c2).

(** Lines 132-135 and 140-143. *)
Definition alter_sql (fk_table fk_col ref_table : string) : list string :=
  [ "ALTER TABLE `" +:+ fk_table +:+ "` ADD COLUMN `" +:+ fk_col +:+ "` INT;";
    "ALTER TABLE `" +:+ fk_table +:+ "` ADD FOREIGN KEY (`" +:+ fk_col
      +:+ "`) REFERENCES `" +:+ ref_table +:+ "`(`id`);" ].

(** [self.class_ids.get(t)] followed by the truth test of line 105. *)
Definition resolve (ids : gmap string string) (t : option string) : option string :=
  match t with
  | Some k => match ids !! k with
              | Some c => if Py.truthy c then Some c else None
              | None => None
              end
  | None => None
  end.

(** The statements one association adds (lines 103-143). *)
Definition assoc_sql (ids : gmap string string) (a : association) : list string :=
  match resolve ids (t1 a), resolve ids (t2 a) with
  | Some c1, Some c2 =>
      if many_to_many (u1 a) (u2 a) then [join_table_sql c1 c2]
      else if one_to_many (u1 a) (u2 a) then
        if u1 a =? 1 then alter_sql c2 (fk_col_name (n1 a) c1) c1
        else alter_sql c1 (fk_col_name (n2 a) c2) c2
      else alter_sql c1 (fk_col_name (n2 a) c2) c2
  | _, _ => []
  end.

Definition generate_sql (p : UMLParser) : list string :=
  map (fun '(class_name, attrs) => create_table class_name attrs) (classes p)
  ++ flat_map (assoc_sql (class_ids p)) (associations p).

(** ** Regular expressions

    The patterns of the program use literals, character classes,
    sequence, alternation, the greedy [?], [*] and [+], capture groups and
    one negative lookahead.  [run] is a backtracking matcher in
    continuation-passing style: it tries the alternatives in the order of
    Python's [re] and hands the rest of the input and the groups closed so
    far to the continuation.  The bodies of [*] and [+] in the program are
    single character classes, so an iteration always consumes input. *)

Module Re.

Inductive re : Type :=
  | Eps
  | Chr (c : ascii)
  | Cls (f : ascii -> bool)
  | Cat (r1 r2 : re)
  | Alt (r1 r2 : re)
  | Star (r : re)
  | Grp (r : re)
  | NotAhead (r : re).

Definition Opt (r : re) : re := Alt r Eps.
Definition Plus (r : re) : re := Cat r (Star r).

(** A literal word. *)
Fixpoint Lit (w : string) : re :=
  match w with
  | EmptyString => Eps
  | String c r => Cat (Chr c) (Lit r)
  end.

(** The classes [\s], [\w], and a set of listed characters. *)
Definition space : re := Cls Py.is_space_char.
Definition is_word_char (c : ascii) : bool :=
  Py.is_upper_char c || Py.is_lower_char c || Py.is_digit_char c || Ascii.eqb c "_".
Definition word : re := Cls is_word_char.
Definition one_of (chars : list ascii) : re :=
  Cls (fun c => existsb (Ascii.eqb c) chars).
Definition none_of (chars : list ascii) : re :=
  Cls (fun c => negb (existsb (Ascii.eqb c) chars)).

Definition chr_eq (ignorecase : bool) (c d : ascii) : bool :=
  if ignorecase then Ascii.eqb (Py.lower_char c) (Py.lower_char d)
  else Ascii.eqb c d.

(** The text consumed between input [s] and its suffix [s']. *)
Definition consumed (s s' : string) : string :=
  String.substring 0 (String.length s - String.length s') s.

(** Outcome of a match: the rest of the input and the groups. *)
Abbreviation outcome := (option (string * list string)).

Definition finish : string -> list string -> outcome :=
  fun s caps => Some (s, caps).

(** The greedy loop of [*]: one more iteration first, provided it consumed
    input, and the continuation when no further iteration leads to a
    match.  [n] bounds the iterations by the length of the input. *)
Fixpoint star_loop
  (step : string -> list string -> (string -> list string -> outcome) -> outcome)
  (k : string -> list string -> outcome) (n : nat) (s : string)
  (caps : list string) : outcome :=
  match n with
  | O => k s caps
  | S n' =>
      match step s caps
              (fun s' caps' =>
                 if Nat.ltb (String.length s') (String.length s)
                 then star_loop step k n' s' caps' else None) with
      | Some x => Some x
      | None => k s caps
      end
  end.

Fixpoint run (ic : bool) (r : re) (s : string) (caps : list string)
  (k : string -> list string -> outcome) {struct r} : outcome :=
  match r with
  | Eps => k s caps
  | Chr c =>
      match s with
      | String d t => if chr_eq ic c d then k t caps else None
      | EmptyString => None
      end
  | Cls f =>
      match s with
      | String d t => if f d then k t caps else None
      | EmptyString => None
      end
  | Cat r1 r2 => run ic r1 s caps (fun s' caps' => run ic r2 s' caps' k)
  | Alt r1 r2 =>
      match run ic r1 s caps k with
      | Some x => Some x
      | None => run ic r2 s caps k
      end
  | Star r1 => star_loop (run ic r1) k (String.length s) s caps
  | Grp r1 =>
      run ic r1 s caps (fun s' caps' => k s' (caps' ++ [consumed s s']))
  | NotAhead r1 =>
      match run ic r1 s caps finish with
      | Some _ => None
      | None => k s caps
      end
  end.

(** [re.match]: a match at the start of [s]. *)
Definition match_at (ic : bool) (r : re) (s : string) : outcome :=
  run ic r s [] finish.

(** [re.search(...).groups()]: the groups of the leftmost match. *)
Fixpoint search (ic : bool) (r : re) (s : string) : option (list string) :=
  match match_at ic r s with
  | Some (_, caps) => Some caps
  | None =>
      match s with
      | EmptyString => None
      | String _ t => search ic r t
      end
  end.

Definition cons_head (c : ascii) (l : list string) : list string :=
  match l with
  | [] => [String c ""]
  | h :: r => String c h :: r
  end.

(** [re.split] for a pattern without groups whose matches are not empty. *)
Fixpoint split_go (ic : bool) (r : re) (fuel : nat) (s : string) : list string :=
  match fuel, s with
  | S f, String c t =>
      match match_at ic r s with
      | Some (s', _) =>
          if Nat.ltb (String.length s') (String.length s)
          then "" :: split_go ic r f s'
          else cons_head c (split_go ic r f t)
      | None => cons_head c (split_go ic r f t)
      end
  | _, _ => [s]
  end.

Definition split (ic : bool) (r : re) (s : string) : list string :=
  split_go ic r (String.length s) s.

(** [re.sub(pattern, repl, s)] for a pattern whose matches are not empty. *)
Fixpoint sub_go (ic : bool) (r : re) (repl : string) (fuel : nat) (s : string)
  : string :=
  match fuel, s with
  | S f, String c t =>
      match match_at ic r s with
      | Some (s', _) =>
          if Nat.ltb (String.length s') (String.length s)
          then repl +:+ sub_go ic r repl f s'
          else String c (sub_go ic r repl f t)
      | None => String c (sub_go ic r repl f t)
      end
  | _, _ => s
  end.

Definition sub (ic : bool) (r : re) (repl s : string) : string :=
  sub_go ic r repl (String.length s) s.

End Re.

(** Line 266: [\sPRIMARY\s+KEY|\sNOT\s+NULL]. *)
Definition key_marks_re : Re.re :=
  Re.Alt
    (Re.Cat Re.space (Re.Cat (Re.Lit "PRIMARY") (Re.Cat (Re.Plus Re.space) (Re.Lit "KEY"))))
    (Re.Cat Re.space (Re.Cat (Re.Lit "NOT") (Re.Cat (Re.Plus Re.space) (Re.Lit "NULL")))).

(** Line 191: a comma, whitespace, and not ahead: text without parentheses
    closed by a right parenthesis. *)
Definition col_sep_re : Re.re :=
  Re.Cat (Re.Chr ",")
    (Re.Cat (Re.Star Re.space)
       (Re.NotAhead
          (Re.Cat (Re.Star (Re.none_of ["("%char; ")"%char])) (Re.Chr ")")))).

(** Line 221: the [ALTER TABLE ... ADD FOREIGN KEY ... REFERENCES] pattern. *)
Definition quote_opt : Re.re := Re.Opt (Re.one_of ["`"%char; Py.dquote]).
Definition quoted_name : Re.re :=
  Re.Cat quote_opt (Re.Cat (Re.Grp (Re.Plus Re.word)) quote_opt).

Definition fk_re : Re.re :=
  Re.Cat (Re.Lit "ALTER TABLE ")
 (Re.Cat quoted_name
 (Re.Cat (Re.Plus Re.space)
 (Re.Cat (Re.Lit "ADD FOREIGN KEY")
 (Re.Cat (Re.Plus Re.space)
 (Re.Cat (Re.Chr "(")
 (Re.Cat quoted_name
 (Re.Cat (Re.Chr ")")
 (Re.Cat (Re.Plus Re.space)
 (Re.Cat (Re.Lit "REFERENCES")
 (Re.Cat (Re.Plus Re.space)
 (Re.Cat quoted_name
 (Re.Cat (Re.Star Re.space)
 (Re.Cat (Re.Chr "(")
 (Re.Cat quoted_name
         (Re.Chr ")"))))))))))))))).

(** ** Exchange markup to schema markup: [UMLSchemaParser] *)

(** [str(b).lower()]. *)
Definition bool_text (b : bool) : string := if b then "true" else "false".

(** Lines 262-273: the [column] element of one row of a class. *)
Definition column_of_attr (a : string * string) : elem :=
  let '(attr_name, sql_type) := a in
  let is_primary := Py.contains "PRIMARY KEY" (Py.upper sql_type) in
  let is_nullable := negb (Py.contains "NOT NULL" (Py.upper sql_type)) && negb is_primary in
  let col_type := Re.sub true key_marks_re "" sql_type in
  Elem "column"
    [ ("name", attr_name); ("type", col_type);
      ("primaryKey", bool_text is_primary); ("nullable", bool_text is_nullable) ]
    [].

(** Lines 260-273. *)
Definition table_of_class (c : string * attrs_t) : elem :=
  let '(class_name, attrs) := c in
  Elem "table" [("name", class_name)] (map column_of_attr attrs).

Definition key_column (col_name : string) : elem :=
  Elem "column"
    [ ("name", col_name); ("type", "INT"); ("primaryKey", "true"); ("nullable", "false") ] [].

Definition fk_column (fk_col : string) : elem :=
  Elem "column"
    [ ("name", fk_col); ("type", "INT"); ("primaryKey", "false"); ("nullable", "true") ] [].

Definition foreign_key (target local_col : string) : elem :=
  Elem "foreignKey" [("targetTable", target)]
    [ Elem "reference" [("localColumn", local_col); ("foreignColumn", "id")] [] ].

(** Lines 287-320: the join table of a many-to-many association. *)
Definition join_table_xml (c1 c2 : string) : elem :=
  let col1_name := Py.lower c1 +:+ "_id" in
  let col2_name := Py.lower c2 +:+ "_id" in
  Elem "table" [("name", c1 +:+ "_" +:+ c2 +:+ "_join")]
    [ key_column col1_name; foreign_key c1 col1_name;
      key_column col2_name; foreign_key c2 col2_name ].

Definition is_table_named (fk_table : string) (t : elem) : bool :=
  String.eqb (tag t) "table" &&
  match get t "name" with
  | Some n => String.eqb n fk_table
  | None => false
  end.

(** Lines 339-355: the first table of that name takes the column and the
    foreign key; no table of that name, no change. *)
Fixpoint add_fk (tables : list elem) (fk_table fk_col ref_table : string)
  : list elem :=
  match tables with
  | [] => []
  | t :: r =>
      if is_table_named fk_table t
      then SubElement (SubElement t (fk_column fk_col)) (foreign_key ref_table fk_col) :: r
      else t :: add_fk r fk_table fk_col ref_table
  end.

(** The body of the loop over the associations (lines 277-355), on the
    children of the [database] element. *)
Definition assoc_xml (ids : gmap string string) (tables : list elem)
  (a : association) : list elem :=
  match resolve ids (t1 a), resolve ids (t2 a) with
  | Some c1, Some c2 =>
      if many_to_many (u1 a) (u2 a) then tables ++ [join_table_xml c1 c2]
      else
        let '(fk_table, fk_col, ref_table) :=
          fk_placement c1 (n1 a) (u1 a) c2 (n2 a) (u2 a) in
        add_fk tables fk_table fk_col ref_table
  | _, _ => tables
  end.

Definition generate_sql_xml (p : UMLParser) : elem :=
  Elem "database" []
    (fold_left (assoc_xml (class_ids p)) (associations p)
       (map table_of_class (classes p))).

(** ** The two readers of a relational schema *)

(** Lines 197-208, on the upper-cased type of a DDL column. *)
Definition uml_type_ddl (col_type : string) : string :=
  if Py.contains "INT" col_type then "Integer"
  else if Py.contains "CHAR" col_type || Py.contains "TEXT" col_type
          || Py.contains "VARCHAR" col_type then "String"
  else if Py.contains "FLOAT" col_type || Py.contains "DOUBLE" col_type
          || Py.contains "REAL" col_type then "Float"
  else if Py.contains "BOOLEAN" col_type then "Boolean"
  else if Py.contains "DATE" col_type then "Date"
  else "String".

(** Lines 406-417, on the [type] attribute of a [column] element as it is. *)
Definition uml_type_xml (col_type : string) : string :=
  if Py.contains "INT" col_type || Py.contains "BIGINT" col_type then "Integer"
  else if Py.contains "CHAR" col_type || Py.contains "TEXT" col_type
          || Py.contains "VARCHAR" col_type then "String"
  else if Py.contains "FLOAT" col_type || Py.contains "DOUBLE" col_type
          || Py.contains "REAL" col_type then "Float"
  else if Py.contains "BOOLEAN" col_type then "Boolean"
  else if Py.contains "DATE" col_type then "Date"
  else "String".

(** [str(n)] for a counter. *)
Definition str_nat (n : nat) : string :=
  DecimalString.NilEmpty.string_of_uint (Nat.to_uint n).

(** The root of a generated class model (lines 158-163 and 374-379). *)
Definition model_attrib : list (string * string) :=
  [ ("xmlns:xmi", XMI_NAMESPACE); ("xmlns:uml", UML_NAMESPACE);
    ("xmi:version", "2.1"); ("name", "SQLToUML") ].

(** *** SQL script to exchange markup *)

Inductive ttype : Set := DDL | Keyword | OtherToken.

(** What the program reads of a [sqlparse] token; [tok_name] is the result
    of [get_name()], [None] where the call raises or returns [None]. *)
Record token : Type := Token {
  tok_ttype : ttype;
  tok_value : string;
  tok_is_whitespace : bool;
  tok_is_group : bool;
  tok_name : option string }.

Definition is_ttype (t : token) (ty : ttype) : bool :=
  match tok_ttype t, ty with
  | DDL, DDL | Keyword, Keyword | OtherToken, OtherToken => true
  | _, _ => false
  end.

(** Lines 193-214: the [ownedAttribute] of one column definition, if any. *)
Definition attr_of_col_def (table_name col_def : string) : list elem :=
  match Py.split (Py.strip col_def) with
  | p0 :: p1 :: _ =>
      if negb (String.eqb (Py.upper p0) "FOREIGN") then
        let col_name := Py.strip_chars "`" p0 in
        let col_type := Py.upper p1 in
        [ Elem "ownedAttribute"
            [ ("xmi:id", "id_" +:+ table_name +:+ "_" +:+ col_name);
              ("name", col_name); ("type", uml_type_ddl col_type) ] [] ]
      else []
  | _ => []
  end.

(** Lines 190-191: the column definitions of a group token. *)
Definition col_defs_of (value : string) : list string :=
  Re.split false col_sep_re (Py.strip_chars "()" value).

(** Lines 188-214. *)
Definition attrs_of_tokens (table_name : string) (tokens : list token) : list elem :=
  flat_map (fun t =>
              if tok_is_group t
              then flat_map (attr_of_col_def table_name) (col_defs_of (tok_value t))
              else [])
           tokens.

(** Lines 175-176. *)
Definition is_create_table (tokens : list token) : bool :=
  match tokens with
  | k0 :: k1 :: _ =>
      is_ttype k0 DDL && String.eqb (Py.upper (tok_value k0)) "CREATE"
      && is_ttype k1 Keyword && String.eqb (Py.upper (tok_value k1)) "TABLE"
  | _ => false
  end.

(** The class model under construction: the children of the model element
    and the [class_map] dictionary. *)
Record uml_build (K : Type) `{Countable K} (V : Type) : Type := Build {
  members : list (xml V);
  class_map : gmap K string }.
Arguments Build {K _ _ V} members class_map.
Arguments members {K _ _ V} u.
Arguments class_map {K _ _ V} u.

(** The body of the first loop (lines 169-214) on the tokens of a statement. *)
Definition class_of_statement (b : uml_build string string) (parsed : list token)
  : result (uml_build string string) :=
  let tokens := List.filter (fun t => negb (tok_is_whitespace t)) parsed in
  if Nat.ltb (length tokens) 3 then Return b
  else if is_create_table tokens then
    match tokens !! 2%nat with
    | Some k2 =>
        match tok_name k2 with
        | Some nm =>
            let table_name := Py.strip_chars "`" nm in
            let class_id := "id_" +:+ table_name in
            Return
              (Build
                 (members b ++
                  [ Elem "packagedElement"
                      [ ("xmi:type", "uml:Class"); ("xmi:id", class_id);
                        ("name", table_name) ]
                      (attrs_of_tokens table_name parsed) ])
                 (<[table_name := class_id]> (class_map b)))
        | None => Raise AttributeError
        end
    | None => Return b
    end
  else Return b.

Definition is_known (m : gmap string string) (k : string) : bool :=
  bool_decide (is_Some (m !! k)).

(** Lines 232-246: the two ends of a recovered association. *)
Definition ends_ddl (m : gmap string string) (assoc_count : nat)
  (src_table ref_table : string) : list elem :=
  [ Elem "ownedEnd"
      [ ("xmi:id", "e" +:+ str_nat assoc_count +:+ "a");
        ("type", default "" (m !! ref_table));
        ("name", Py.lower ref_table); ("lower", "1"); ("upper", "1") ] [];
    Elem "ownedEnd"
      [ ("xmi:id", "e" +:+ str_nat assoc_count +:+ "b");
        ("type", default "" (m !! src_table));
        ("name", Py.lower src_table); ("lower", "0"); ("upper", "-1") ] [] ].

(** The body of the second loop (lines 219-246): the state is the children
    of the model and [assoc_count]. *)
Definition assoc_of_statement (m : gmap string string)
  (st : list elem * nat) (stmt : string) : list elem * nat :=
  let '(model, assoc_count) := st in
  let stmt_upper := Py.upper stmt in
  if Py.contains "FOREIGN KEY" stmt_upper && Py.contains "REFERENCES" stmt_upper then
    match Re.search true fk_re stmt with
    | Some [src_table; src_col; ref_table; ref_col] =>
        if is_known m src_table && is_known m ref_table then
          let assoc_id := "assoc_" +:+ str_nat assoc_count in
          let assoc_count := S assoc_count in
          (model ++
           [ Elem "packagedElement"
               [ ("xmi:type", "uml:Association"); ("xmi:id", assoc_id) ]
               (ends_ddl m assoc_count src_table ref_table) ],
           assoc_count)
        else st
    | _ => st
    end
  else st.

(** *** Schema markup to exchange markup *)

(** An element under construction: an attribute read with [.get] from the
    input may be [None] until the tree is written out. *)
Abbreviation draft := (xml (option string)).

(** An optional text inside an f-string. *)
Definition fstr (o : option string) : string := default "None" o.

(** Lines 401-423: the [ownedAttribute] of one [column] element. *)
Definition attr_of_column (class_id : string) (column : elem) : result draft :=
  let col_name := get column "name" in
  match get column "type" with
  | Some col_type =>
      Return
        (Elem "ownedAttribute"
           [ ("xmi:id", Some ("attr_" +:+ class_id +:+ "_" +:+ fstr col_name));
             ("name", col_name); ("type", Some (uml_type_xml col_type)) ] [])
  | None => Raise TypeError
  end.

(** A loop that collects one result per element. *)
Fixpoint collect {A B : Type} (f : A -> result B) (l : list A) : result (list B) :=
  match l with
  | [] => Return []
  | x :: r => let* y := f x in let* ys := collect f r in Return (y :: ys)
  end.

(** The body of the first loop (lines 387-423): the state is the model
    under construction and [class_count]. *)
Definition class_of_table (st : uml_build (option string) (option string) * nat)
  (table : elem) : result (uml_build (option string) (option string) * nat) :=
  let '(b, class_count) := st in
  let table_name := get table "name" in
  let class_id := "class_" +:+ str_nat class_count in
  let* attrs := collect (attr_of_column class_id) (findall table "column") in
  Return
    (Build
       (members b ++
        [ Elem "packagedElement"
            [ ("xmi:type", Some "uml:Class"); ("xmi:id", Some class_id);
              ("name", table_name) ]
            attrs ])
       (<[table_name := class_id]> (class_map b)),
     S class_count).

(** [o.lower()] on a value that may be [None]. *)
Definition lower_opt (o : option string) : result string :=
  match o with
  | Some s => Return (Py.lower s)
  | None => Raise AttributeError
  end.

(** Lines 451-465: the two ends of a recovered association. *)
Definition ends_xml (assoc_id target_class_id source_class_id : string)
  (target_table table_name : option string) : result (list draft) :=
  let* target_lower := lower_opt target_table in
  let* source_lower := lower_opt table_name in
  Return
    [ Elem "ownedEnd"
        [ ("xmi:id", Some (assoc_id +:+ "_end1")); ("type", Some target_class_id);
          ("name", Some (target_lower +:+ "_ref"));
          ("lower", Some "1"); ("upper", Some "1") ] [];
      Elem "ownedEnd"
        [ ("xmi:id", Some (assoc_id +:+ "_end2")); ("type", Some source_class_id);
          ("name", Some (source_lower +:+ "_ref"));
          ("lower", Some "0"); ("upper", Some "-1") ] [] ].

Definition lookup_truthy (m : gmap (option string) string) (k : option string)
  : option string :=
  match m !! k with
  | Some v => if Py.truthy v then Some v else None
  | None => None
  end.

(** The body of the inner loop of the second pass (lines 430-465): the
    state is the children of the model and [assoc_count]. *)
Definition assoc_of_fk (m : gmap (option string) string) (table_name : option string)
  (st : list draft * nat) (fk : elem) : result (list draft * nat) :=
  let '(model, assoc_count) := st in
  let target_table := get fk "targetTable" in
  match lookup_truthy m table_name, lookup_truthy m target_table with
  | Some source_class_id, Some target_class_id =>
      let assoc_id := "assoc_" +:+ str_nat assoc_count in
      let assoc_count := S assoc_count in
      let* ends :=
        match find fk "reference" with
        | Some _ => ends_xml assoc_id target_class_id source_class_id target_table table_name
        | None => Return []
        end in
      Return
        (model ++
         [ Elem "packagedElement"
             [ ("xmi:type", Some "uml:Association"); ("xmi:id", Some assoc_id) ]
             ends ],
         assoc_count)
  | _, _ => Return st
  end.

(** The body of the second loop (lines 426-465). *)
Definition assocs_of_table (m : gmap (option string) string)
  (st : list draft * nat) (table : elem) : result (list draft * nat) :=
  for_each (assoc_of_fk m (get table "name")) (findall table "foreignKey") st.

(** Writing a tree out raises [TypeError] on an attribute that is [None]. *)
Definition written_attrib (a : list (string * option string))
  : result (list (string * string)) :=
  collect (fun '(k, v) => match v with
                          | Some s => Return (k, s)
                          | None => Raise TypeError
                          end) a.

Fixpoint written (e : draft) : result elem :=
  match e with
  | Elem t a cs =>
      let* a' := written_attrib a in
      let* cs' :=
        (fix go (l : list draft) : result (list elem) :=
           match l with
           | [] => Return []
           | c :: r => let* c' := written c in let* r' := go r in Return (c' :: r')
           end) cs in
      Return (Elem t a' cs')
  end.

(** The test of lines 96 and 264: the row is a primary-key column. *)
Definition is_pk_col (a : string * string) : bool :=
  Py.contains "PRIMARY KEY" (Py.upper (snd a)).

(** How many times [sub] occurs in [s]. *)
Fixpoint count_sub (sub s : string) : nat :=
  ((if String.prefix sub s then 1 else 0) +
   match s with
   | EmptyString => 0
   | String _ r => count_sub sub r
   end)%nat.

(** The SQL types [sql_type_of] can return. *)
Definition sql_types : list string :=
  "VARCHAR(255)" :: map snd TYPE_MAPPING.

(** ** The four conversions

    The XML reader ([ET.fromstring]; [None] is its [ParseError]), the XML
    writer ([ET.tostring] followed by [toprettyxml]) and the three calls
    into [sqlparse] are the libraries of the program. *)

Section Conversions.

Variable fromstring : string -> option elem.
Variable toprettyxml : elem -> string.
Variable sqlparse_format : string -> string.
Variable sqlparse_split : string -> list string.
Variable sqlparse_parse : string -> list (list token).

(** Lines 27-33. *)
Definition UMLParser_init (xml_content : string) : result UMLParser :=
  match fromstring xml_content with
  | Some r => Return (Parser r (empty : gmap string string) [] [])
  | None => Raise ParseError
  end.

(** The parser state after both passes (lines 147-149). *)
Definition parsed_model (xml_content : string) : result UMLParser :=
  let* parser := UMLParser_init xml_content in
  parse_associations (parse_classes parser).

(** Lines 146-151. *)
Definition generate_sql_from_uml_content (xml_content : string) : result string :=
  let* parser := parsed_model xml_content in
  Return (Py.join (Py.nl +:+ Py.nl) (generate_sql parser)).

(** Lines 362-366. *)
Definition generate_sql_xml_from_uml_content (xml_content : string) : result string :=
  let* parser := parsed_model xml_content in
  Return (toprettyxml (generate_sql_xml parser)).

(** [sqlparse.parse(stmt)[0].tokens]. *)
Definition parse_first (stmt : string) : result (list token) :=
  match sqlparse_parse stmt with
  | parsed :: _ => Return parsed
  | [] => Raise IndexError
  end.

(** Lines 154-251; the tree before it is written out. *)
Definition uml_of_sql (sql_input : string) : result elem :=
  let sql := Py.strip (sqlparse_format sql_input) in
  let statements := sqlparse_split sql in
  let* b := for_each (fun b stmt => let* parsed := parse_first stmt in
                                   class_of_statement b parsed)
                     statements (Build [] (empty : gmap string string)) in
  let '(model, _) :=
    fold_left (assoc_of_statement (class_map b)) statements (members b, 1%nat) in
  Return (Elem "uml:Model" model_attrib model).

Definition generate_uml_from_sql (sql_input : string) : result string :=
  let* model := uml_of_sql sql_input in
  Return (toprettyxml model).

(** Lines 369-470; the tree before it is written out. *)
Definition uml_of_sql_xml (sql_xml_content : string) : result draft :=
  match fromstring sql_xml_content with
  | None => Raise ParseError
  | Some root =>
      let tables := findall root "table" in
      let* st1 :=
        for_each class_of_table tables
          (Build [] (empty : gmap (option string) string), 1%nat) in
      let b := fst st1 in
      let* st2 :=
        for_each (assocs_of_table (class_map b)) tables (members b, 1%nat) in
      Return (Elem "uml:Model" (map (fun '(k, v) => (k, Some v)) model_attrib)
                (fst st2))
  end.

Definition generate_uml_from_sql_xml (sql_xml_content : string) : result string :=
  let* model := uml_of_sql_xml sql_xml_content in
  let* tree := written model in
  Return (toprettyxml tree).

End Conversions.

(** ** The separator of column definitions, read directly *)

(** The lookahead of the pattern of line 191. *)
Definition ahead_re : Re.re :=
  Re.Cat (Re.Star (Re.none_of ["("%char; ")"%char])) (Re.Chr ")").

(** The first parenthesis of [s], if any, is a closing one. *)
Fixpoint closes_first (s : string) : bool :=
  match s with
  | EmptyString => false
  | String c r =>
      if Ascii.eqb c ")" then true
      else if Ascii.eqb c "(" then false
      else closes_first r
  end.

(** A comma separates when the first parenthesis after it does not close;
    the separator then takes the whitespace that follows the comma. *)
Definition separator_at (s : string) : option string :=
  match s with
  | String c r =>
      if Ascii.eqb c "," && negb (closes_first r)
      then Some (Py.lstrip_by Py.is_space_char r)
      else None
  | EmptyString => None
  end.

(** ** Invariants of the conversion to schema markup *)

(** Every class name a class id resolves to is a key of [classes]. *)
Definition names_known (p : UMLParser) : Prop :=
  forall k c, class_ids p !! k = Some c -> is_Some (dict_get c (classes p)).

(** Among the tables there is one of that name. *)
Definition has_table (n : string) (tables : list elem) : Prop :=
  existsb (is_table_named n) tables = true.

(** ** A reader for the examples

    The conversions are stated for any XML reader.  The examples run them on
    text with this small reader: one root element, elements with quoted
    attributes and no namespace prefix, nested elements, text between the
    tags skipped.  It returns [None] on anything else, an
    unterminated tag included. *)

Module Reader.

Definition is_name_char (c : ascii) : bool :=
  Re.is_word_char c || Ascii.eqb c "-" || Ascii.eqb c ".".

Definition is_quote (c : ascii) : bool :=
  Ascii.eqb c Py.dquote || Ascii.eqb c "'".

Definition is_value_char (q c : ascii) : bool :=
  negb (Ascii.eqb c q || Ascii.eqb c "<" || Ascii.eqb c "&").

Fixpoint take_while (f : ascii -> bool) (s : string) : string * string :=
  match s with
  | String c r =>
      if f c then let '(a, b) := take_while f r in (String c a, b) else ("", s)
  | EmptyString => ("", "")
  end.

Definition read_name (s : string) : option (string * string) :=
  let '(n, r) := take_while is_name_char s in
  if Py.truthy n then Some (n, r) else None.

(** The attributes of a start tag, up to its [>] or [/>]. *)
Fixpoint read_attribs (fuel : nat) (acc : list (string * string)) (s : string)
  : option (list (string * string) * string) :=
  match fuel with
  | O => None
  | S f =>
      let s1 := Py.lstrip_by Py.is_space_char s in
      match s1 with
      | String ">" _ | String "/" _ => Some (acc, s1)
      | _ =>
          if String.eqb s1 s then None
          else
            match read_name s1 with
            | Some (n, r1) =>
                match Py.lstrip_by Py.is_space_char r1 with
                | String "=" r2 =>
                    match Py.lstrip_by Py.is_space_char r2 with
                    | String q r3 =>
                        let '(v, r4) := take_while (is_value_char q) r3 in
                        match r4 with
                        | String q' r5 =>
                            if is_quote q && Ascii.eqb q' q
                               && negb (bool_decide (is_Some (dict_get n acc)))
                            then read_attribs f (acc ++ [(n, v)]) r5
                            else None
                        | EmptyString => None
                        end
                    | EmptyString => None
                    end
                | _ => None
                end
            | None => None
            end
      end
  end.

(** An element from its [<]; the content of an element up to and including
    the [</] of its end tag. *)
Fixpoint read_elem (fuel : nat) (s : string) : option (elem * string) :=
  match fuel, s with
  | S f, String "<" r0 =>
      match read_name r0 with
      | Some (n, r1) =>
          match read_attribs (S (String.length r1)) [] r1 with
          | Some (a, String "/" (String ">" r2)) => Some (Elem n a [], r2)
          | Some (a, String ">" r2) =>
              match read_content f r2 with
              | Some (cs, r3) =>
                  match read_name r3 with
                  | Some (n', r4) =>
                      match Py.lstrip_by Py.is_space_char r4 with
                      | String ">" r5 =>
                          if String.eqb n n' then Some (Elem n a cs, r5) else None
                      | _ => None
                      end
                  | None => None
                  end
              | None => None
              end
          | _ => None
          end
      | None => None
      end
  | _, _ => None
  end
with read_content (fuel : nat) (s : string) : option (list elem * string) :=
  match fuel with
  | O => None
  | S f =>
      match snd (take_while (fun c => negb (Ascii.eqb c "<")) s) with
      | String "<" (String "/" r) => Some ([], r)
      | String "<" r =>
          match read_elem f (String "<" r) with
          | Some (e, r1) =>
              match read_content f r1 with
              | Some (cs, r2) => Some (e :: cs, r2)
              | None => None
              end
          | None => None
          end
      | _ => None
      end
  end.

Definition fromstring (s : string) : option elem :=
  match read_elem (S (String.length s)) (Py.lstrip_by Py.is_space_char s) with
  | Some (e, rest) => if Py.truthy (Py.strip rest) then None else Some e
  | None => None
  end.

(** A writer for the examples keeps the tag names: the theorems do not
    depend on the text a tree is written to. *)
Fixpoint tags (e : elem) : string :=
  match e with
  | Elem t _ cs => "<" +:+ t +:+ ">" +:+ Py.join "" (map tags cs) +:+ "</" +:+ t +:+ ">"
  end.

End Reader.

(** ** The classification in the words of the specification *)

Definition unbounded (u : Z) : Prop := u = -1.

(** Both unbounded, or one unbounded and the other above one. *)
Definition spec_many_to_many (U1 U2 : Z) : Prop :=
  (unbounded U1 /\ unbounded U2) \/ (unbounded U1 /\ U2 > 1) \/ (unbounded U2 /\ U1 > 1).

(** Exactly one side has upper bound one and the other is unbounded or
    above one. *)
Definition spec_one_to_many (U1 U2 : Z) : Prop :=
  (U1 = 1 /\ U2 <> 1 /\ (unbounded U2 \/ U2 > 1))
  \/ (U2 = 1 /\ U1 <> 1 /\ (unbounded U1 \/ U1 > 1)).

(** ** Sample data *)

Definition sample_ids : gmap string string :=
  <["B" := "Book"]> (<["A" := "Author"]> (empty : gmap string string)).

Definition sample_assoc (U1 U2 : Z) : association :=
  Assoc (Some "A") "ref1" 0 U1 (Some "B") "ref2" 0 U2.

Definition xmi (attrib_name : string) : string :=
  "{" +:+ XMI_NAMESPACE +:+ "}" +:+ attrib_name.

Definition sample_class (id name : string) (attrs : list (string * string)) : elem :=
  Elem "packagedElement"
    [ (xmi "type", "uml:Class"); (xmi "id", id); ("name", name) ]
    (map (fun '(n, t) => Elem "ownedAttribute" [("name", n); ("type", t)] []) attrs).

(** The Author / Book model: the ends carry a type and the given upper
    bounds, and no role name. *)
Definition author_book (upper_a upper_b : string) : elem :=
  Elem ("{" +:+ UML_NAMESPACE +:+ "}Model") [("name", "Library")]
    [ sample_class "A" "Author" [("id", "Integer"); ("name", "String")];
      sample_class "B" "Book" [("id", "Integer"); ("title", "String")];
      Elem "packagedElement" [ (xmi "type", "uml:Association"); (xmi "id", "AB") ]
        [ Elem "ownedEnd" [("type", "A"); ("upper", upper_a)] [];
          Elem "ownedEnd" [("type", "B"); ("upper", upper_b)] [] ] ].

(** A model of one class without an "id" attribute. *)
Definition keyword_model : elem :=
  Elem ("{" +:+ UML_NAMESPACE +:+ "}Model") [("name", "Index")]
    [ sample_class "K" "Keyword" [("word", "String")] ].

(** The same model as text, with the given [lower] attribute on the Book
    end. *)
Definition author_book_text (lower_b : string) : string :=
  "<Model name='Library'>"
  +:+ "<packagedElement type='uml:Class' id='A' name='Author'>"
  +:+ "<ownedAttribute name='id' type='Integer'/>"
  +:+ "<ownedAttribute name='name' type='String'/></packagedElement>"
  +:+ "<packagedElement type='uml:Class' id='B' name='Book'>"
  +:+ "<ownedAttribute name='id' type='Integer'/>"
  +:+ "<ownedAttribute name='title' type='String'/></packagedElement>"
  +:+ "<packagedElement type='uml:Association' id='AB'>"
  +:+ "<ownedEnd type='A' upper='1'/>"
  +:+ "<ownedEnd type='B' lower='" +:+ lower_b +:+ "' upper='*'/></packagedElement>"
  +:+ "</Model>".

(** The tree the example reader gives for a text. *)
Definition sample_tree (txt : string) : elem :=
  default (Elem "" [] []) (Reader.fromstring txt).

(** The [class_map] of a script and of a schema with the tables Author
    and Book. *)
Definition sample_class_map : gmap string string :=
  <["Book" := "id_Book"]> (<["Author" := "id_Author"]> (empty : gmap string string)).


(** The tokens of [CREATE TABLE t (body);] as the program reads them: the
    table name and the parenthesised body are the two group tokens. *)
Definition create_table_tokens (table body : string) : list token :=
  let blank := Token OtherToken " " true false None in
  [ Token DDL "CREATE" false false None; blank;
    Token Keyword "TABLE" false false None; blank;
    Token OtherToken table false true (Some table); blank;
    Token OtherToken ("(" +:+ body +:+ ")") false true None;
    Token OtherToken ";" false false None ].

(** The class elements a statement adds to an empty model. *)
Definition classes_of_tokens (parsed : list token) : list elem :=
  match class_of_statement (Build [] (empty : gmap string string)) parsed with
  | Return b => members b
  | Raise _ => []
  end.

(** The parser state a tree leads to, for the samples that parse. *)
Definition parser_of (r : elem) : UMLParser :=
  match parse_model r with
  | Return p => p
  | Raise _ => Parser r (empty : gmap string string) [] []
  end.

(** ** Predicates of the further properties *)

(** The name under which [parse_class] stores the rows of an element, if it
    stores any (lines 37-44). *)
Definition stored_name (e : elem) : option string :=
  if is_packaged e && is_type e "uml:Class" then
    match get_attrib e "id", get e "name" with
    | Some class_id, Some class_name =>
        if Py.truthy class_id && Py.truthy class_name then Some class_name else None
    | _, _ => None
    end
  else None.

(** The elements [parse_association] reads the ends of (lines 67-72). *)
Definition is_binary_assoc (e : elem) : bool :=
  is_packaged e && is_type e "uml:Association"
  && Nat.eqb (length (findall e "ownedEnd")) 2.

(** The [type] attributes of the ends of such an element. *)
Definition end_types (e : elem) : option string * option string :=
  match findall e "ownedEnd" with
  | [e1; e2] => (get e1 "type", get e2 "type")
  | _ => (None, None)
  end.

(** A document in which two class elements share the name Keyword. *)
Definition twice_model : elem :=
  Elem ("{" +:+ UML_NAMESPACE +:+ "}Model") [("name", "Index")]
    [ sample_class "K1" "Keyword" [("word", "String")];
      sample_class "K2" "Keyword" [("stem", "String")] ].

(** What holds of every tuple of [self.associations]. *)
Definition assoc_in_range (a : association) : Prop :=
  Py.truthy (n1 a) = true /\ Py.truthy (n2 a) = true
  /\ (u1 a = -1 \/ 0 <= u1 a) /\ (u2 a = -1 \/ 0 <= u2 a).

(** A [column] element of the schema markup: its four attributes in the
    order the program writes them, a plain SQL type of the mapping, and
    exactly one of the two flags set. *)
Definition col_ok (c : elem) : bool :=
  match c with
  | Elem _ [(k1, _); (k2, ty); (k3, pk); (k4, nl)] [] =>
      String.eqb k1 "name" && String.eqb k2 "type"
      && String.eqb k3 "primaryKey" && String.eqb k4 "nullable"
      && existsb (String.eqb ty) sql_types
      && ((String.eqb pk "true" && String.eqb nl "false")
          || (String.eqb pk "false" && String.eqb nl "true"))
  | _ => false
  end.

(** The table [t] has a column of that name. *)
Definition has_column (t : elem) (col_name : string) : bool :=
  existsb (fun c => match get c "name" with
                    | Some n => String.eqb n col_name
                    | None => false
                    end)
          (findall t "column").

(** A [foreignKey] element of table [t]: one [reference] child, on the
    column "id" of a table that is among [tables], from a column of [t]. *)
Definition fk_ok (tables : list elem) (t fk : elem) : bool :=
  match fk with
  | Elem _ [(k, target)] [Elem tg [(k1, lc); (k2, fc)] []] =>
      String.eqb k "targetTable" && String.eqb tg "reference"
      && String.eqb k1 "localColumn" && String.eqb k2 "foreignColumn"
      && String.eqb fc "id"
      && existsb (is_table_named target) tables && has_column t lc
  | _ => false
  end.

(** The invariant of the loop over the associations: the foreign keys of
    every table are well formed with respect to the tables so far. *)
Definition fks_closed (T : list elem) : Prop :=
  Forall (fun t => Forall (fun fk => fk_ok T t fk = true) (findall t "foreignKey")) T.

(** Lines 373-465 on the tree of a schema: [uml_of_sql_xml] after the
    reader. *)
Definition uml_of_schema (root : elem) : result draft :=
  let tables := findall root "table" in
  let* st1 :=
    for_each class_of_table tables
      (Build [] (empty : gmap (option string) string), 1%nat) in
  let b := fst st1 in
  let* st2 :=
    for_each (assocs_of_table (class_map b)) tables (members b, 1%nat) in
  Return (Elem "uml:Model" (map (fun '(k, v) => (k, Some v)) model_attrib)
            (fst st2)).

Definition is_Some_b {A} (o : option A) : bool :=
  match o with Some _ => true | None => false end.

(** What the reader of a schema needs: a name on every table, a name and a
    type on every column. *)
Definition column_readable (c : elem) : bool :=
  is_Some_b (get c "name") && is_Some_b (get c "type").

Definition table_readable (t : elem) : bool :=
  is_Some_b (get t "name") && forallb column_readable (findall t "column").

Definition schema_readable (root : elem) : bool :=
  forallb table_readable (findall root "table").

(** The attribute read from a column, and the class read from a table. *)
Definition attr_reads (col : elem) (a : draft) : Prop :=
  tag a = "ownedAttribute" /\ children a = []
  /\ get a "name" = Some (get col "name")
  /\ get a "type" = Some (uml_type_xml <$> get col "type")
  /\ ok (written a) = is_Some_b (get col "name").

Definition class_reads (t : elem) (c : draft) : Prop :=
  tag c = "packagedElement"
  /\ get c "xmi:type" = Some (Some "uml:Class")
  /\ get c "name" = Some (get t "name")
  /\ Forall2 attr_reads (findall t "column") (children c)
  /\ ok (written c) =
     is_Some_b (get t "name")
     && forallb (fun col => is_Some_b (get col "name")) (findall t "column").

(** An association element of a class model under construction: it can be
    written out. *)
Definition assoc_reads (a : draft) : Prop :=
  tag a = "packagedElement"
  /\ get a "xmi:type" = Some (Some "uml:Association")
  /\ ok (written a) = true.

(** The names of the join tables the associations add, in order
    (lines 285-288). *)
Definition join_table_names (ids : gmap string string) (l : list association)
  : list string :=
  flat_map (fun a =>
              match resolve ids (t1 a), resolve ids (t2 a) with
              | Some c1, Some c2 =>
                  if many_to_many (u1 a) (u2 a)
                  then [c1 +:+ "_" +:+ c2 +:+ "_join"] else []
              | _, _ => []
              end) l.

(** The schema markup of the model with the one class Keyword. *)
Definition keyword_schema_text : string :=
  "<database><table name='Keyword'>"
  +:+ "<column name='id' type='INT' primaryKey='true' nullable='false'/>"
  +:+ "<column name='word' type='VARCHAR(255)' primaryKey='false' nullable='true'/>"
  +:+ "</table></database>".

(** A schema with a foreign key from Book to Author. *)
Definition library_schema_text : string :=
  "<database><table name='Author'/><table name='Book'>"
  +:+ "<foreignKey targetTable='Author'>"
  +:+ "<reference localColumn='author_id' foreignColumn='id'/></foreignKey>"
  +:+ "</table></database>".

(** The class model the example reader leads to, for the samples that are
    read. *)
Definition model_of_text (txt : string) : draft :=
  match uml_of_sql_xml Reader.fromstring txt with
  | Return m => m
  | Raise _ => Elem "" [] []
  end.

(** The tag and the name of a table element. *)
Definition tag_name (t : elem) : string * option string := (tag t, get t "name").

(** ** Column definitions with parentheses that are not nested *)

(** From depth [d], the parentheses of [s] are closed and never nested. *)
Fixpoint shallow (d : nat) (s : string) : bool :=
  match s with
  | EmptyString => Nat.eqb d 0
  | String c r =>
      if Ascii.eqb c "(" then Nat.eqb d 0 && shallow 1 r
      else if Ascii.eqb c ")" then Nat.eqb d 1 && shallow 0 r
      else shallow d r
  end.

Definition depth_after (d : nat) (c : ascii) : nat :=
  if Ascii.eqb c "(" then S d else if Ascii.eqb c ")" then Nat.pred d else d.

(** Splitting at the commas outside parentheses, read directly: such a
    comma ends the current piece and the whitespace after it is dropped. *)
Fixpoint top_level_split (d : nat) (skipping : bool) (s : string) : list string :=
  match s with
  | EmptyString => [""]
  | String c r =>
      if skipping && Py.is_space_char c then top_level_split d true r
      else if Ascii.eqb c "," && Nat.eqb d 0 then "" :: top_level_split d true r
      else Re.cons_head c (top_level_split (depth_after d c) false r)
  end.

(** ** Names that the patterns of the script reader read as one word *)

Fixpoint all_chars (f : ascii -> bool) (s : string) : bool :=
  match s with
  | EmptyString => true
  | String c r => f c && all_chars f r
  end.

(** Not empty and made of letters, digits and underscores. *)
Definition is_word (s : string) : bool :=
  Py.truthy s && all_chars Re.is_word_char s.

(** [s] is empty or starts with a character outside the class [f]. *)
Definition starts_outside (f : ascii -> bool) (s : string) : bool :=
  match s with
  | String c _ => negb (f c)
  | EmptyString => true
  end.

(** ** Statements of the script *)

(** The statement starts as the [CREATE TABLE] of a table of that name
    (lines 92 and 113). *)
Definition creates (stmt table_name : string) : bool :=
  String.prefix ("CREATE TABLE `" +:+ table_name +:+ "` (" +:+ Py.nl) stmt.

Definition is_create (stmt : string) : bool := String.prefix "CREATE TABLE `" stmt.

Definition is_alter (stmt : string) : bool := String.prefix "ALTER TABLE `" stmt.

(** ** Class models read from a script *)

Definition is_class_elem (x : elem) : Prop :=
  tag x = "packagedElement" /\ get x "xmi:type" = Some "uml:Class".

(** An end of an association carries the [xmi:id] of a class element among
    [classes]. *)
Definition end_resolves (classes : list elem) (e : elem) : Prop :=
  tag e = "ownedEnd" /\
  exists c id, In c classes /\ get c "xmi:id" = Some id /\ get e "type" = Some id.

Definition is_assoc_elem (classes : list elem) (x : elem) : Prop :=
  tag x = "packagedElement" /\ get x "xmi:type" = Some "uml:Association"
  /\ length (children x) = 2%nat /\ Forall (end_resolves classes) (children x).

(** A script of two tables and a foreign key, statement by statement, and
    the tokens of each statement as the program reads them. *)
Definition library_statements : list string :=
  [ "CREATE TABLE `Author` (`id` INT PRIMARY KEY);";
    "CREATE TABLE `Book` (`id` INT PRIMARY KEY);" ]
  ++ alter_sql "Book" "ref1_id" "Author".

Definition library_tokens (stmt : string) : list (list token) :=
  let blank := Token OtherToken " " true false None in
  if String.prefix "CREATE TABLE `Author`" stmt
  then [create_table_tokens "`Author`" "`id` INT PRIMARY KEY"]
  else if String.prefix "CREATE TABLE `Book`" stmt
  then [create_table_tokens "`Book`" "`id` INT PRIMARY KEY"]
  else [[ Token DDL "ALTER" false false None; blank;
          Token Keyword "TABLE" false false None; blank;
          Token OtherToken (Re.sub true (Re.Lit "ALTER TABLE ") "" stmt) false true None ]].

Definition library_model : elem :=
  match uml_of_sql (fun s => s) (fun _ => library_statements) library_tokens
          (Py.join (Py.nl +:+ Py.nl) library_statements) with
  | Return m => m
  | Raise _ => Elem "" [] []
  end.

(** ** Columns written by the script writer, read by the script reader *)

(** A column to write: its name, the [type] of the [ownedAttribute] it
    comes from, and whether it carries the key marker of lines 53-61. *)
Definition column_spec : Type := string * option string * bool.

Definition spec_name (s : column_spec) : string := fst (fst s).

Definition row_of_spec (s : column_spec) : string * string :=
  let '(n, o, key) := s in
  (n, sql_type_of o +:+ (if key then " PRIMARY KEY" else "")).

(** The type the script reader gives a column of SQL type [sql_type_of o]:
    the five types that come back, Long and Double that do not, and String
    for anything else. *)
Definition read_back_type (attr_type : option string) : string :=
  match attr_type with
  | Some t =>
      if String.eqb "Integer" t || String.eqb "Long" t then "Integer"
      else if String.eqb "Float" t || String.eqb "Double" t then "Float"
      else if String.eqb "Boolean" t then "Boolean"
      else if String.eqb "Date" t then "Date"
      else "String"
  | None => "String"
  end.

Definition attr_read_back (table_name : string) (s : column_spec) : elem :=
  let '(n, o, _) := s in
  Elem "ownedAttribute"
    [ ("xmi:id", "id_" +:+ table_name +:+ "_" +:+ n); ("name", n);
      ("type", read_back_type o) ] [].

(** The parenthesis of a [CREATE TABLE] statement (lines 92-99). *)
Definition columns_text (rows : attrs_t) : string :=
  "(" +:+ Py.nl +:+ Py.join ("," +:+ Py.nl) (map attr_line rows) +:+ Py.nl +:+ ")".

(** A column definition without its indentation. *)
Definition line_core (n tail : string) : string := "`" +:+ n +:+ "` " +:+ tail.

Definition prepend (a : string) (l : list string) : list string :=
  match l with
  | [] => [a]
  | h :: t => (a +:+ h) :: t
  end.

Definition not_comma (c : ascii) : bool := negb (Ascii.eqb c ",").

Definition not_paren (c : ascii) : bool :=
  negb (Ascii.eqb c "(") && negb (Ascii.eqb c ")").

Definition not_backquote (c : ascii) : bool := negb (Py.mem_char c "`").

Definition not_space (c : ascii) : bool := negb (Py.is_space_char c).

(** What follows the name in a column definition (lines 96-97). *)
Definition line_tail (sql_type : string) : string :=
  sql_type +:+
  (if negb (Py.contains "PRIMARY KEY" (Py.upper sql_type)) then " NOT NULL" else "").

(** What the reader needs of a column definition [line_core n tail]. *)
Definition line_ok (l : string * string) : Prop :=
  is_word (fst l) = true
  /\ shallow 0 (snd l) = true /\ all_chars not_comma (snd l) = true
  /\ Py.rstrip_by Py.is_space_char (snd l) = snd l /\ snd l <> ""
  /\ exists w1 ws, Py.split (snd l) = w1 :: ws.

(** The columns of the witness: a key, a Double and a type outside the
    mapping. *)
Definition sample_specs : list column_spec :=
  [ ("id", Some "Integer", true); ("price", Some "Double", false);
    ("note", Some "Memo", false) ].

(** ** Bounds the program reads or refuses *)

(** [int] reads the [lower] attribute of the end, or its default. *)
Definition lower_readable (e : elem) : bool :=
  match Py.int (default "0" (get e "lower")) with
  | Some _ => true
  | None => false
  end.

(** The [upper] attribute of the end, or its default, is not made of digit
    characters, or [int] reads it. *)
Definition upper_readable (e : elem) : bool :=
  let upper_raw := default "1" (get e "upper") in
  negb (Py.isdigit upper_raw)
  || match Py.int upper_raw with
     | Some _ => true
     | None => false
     end.

(** A decimal integer string in the plain sense of the words: decimal
    digits, after at most one sign. *)
Definition decimal_integer_string (s : string) : bool :=
  let digits r := Py.truthy r && all_chars Py.is_digit_char r in
  match s with
  | String "-" r => digits r
  | String "+" r => digits r
  | _ => digits s
  end.

(** The superscript two: a digit character for [isdigit] that [int] does
    not read. *)
Definition superscript_two : string := String "178"%char "".

(** The Author / Book model as text, with the given bounds on the Book
    end. *)
Definition author_book_bounds_text (lower_b upper_b : string) : string :=
  "<Model name='Library'>"
  +:+ "<packagedElement type='uml:Class' id='A' name='Author'>"
  +:+ "<ownedAttribute name='id' type='Integer'/>"
  +:+ "<ownedAttribute name='name' type='String'/></packagedElement>"
  +:+ "<packagedElement type='uml:Class' id='B' name='Book'>"
  +:+ "<ownedAttribute name='id' type='Integer'/>"
  +:+ "<ownedAttribute name='title' type='String'/></packagedElement>"
  +:+ "<packagedElement type='uml:Association' id='AB'>"
  +:+ "<ownedEnd type='A' upper='1'/>"
  +:+ "<ownedEnd type='B' lower='" +:+ lower_b +:+ "' upper='" +:+ upper_b
  +:+ "'/></packagedElement>"
  +:+ "</Model>".

(** * Properties *)

(** ** Text *)

Lemma app_cons (c : ascii) (a b : string) : String c a +:+ b = String c (a +:+ b).
Proof. reflexivity. Qed.

Lemma smap_app (f : ascii -> ascii) (a b : string) :
  Py.smap f (a +:+ b) = Py.smap f a +:+ Py.smap f b.
Proof.
  induction a as [|c a IH]; [reflexivity|].
  rewrite app_cons. cbn [Py.smap]. rewrite IH. reflexivity.
Qed.

Lemma contains_app_r (sub a b : string) :
  Py.contains sub b = true -> Py.contains sub (a +:+ b) = true.
Proof.
  intros Hb. induction a as [|c a IH]; [exact Hb|].
  rewrite app_cons. cbn [Py.contains]. rewrite IH. apply orb_true_r.
Qed.

Lemma upper_lower_char (c : ascii) : Py.upper_char (Py.lower_char c) = Py.upper_char c.
Proof. destruct c as [[] [] [] [] [] [] [] []]; reflexivity. Qed.

Lemma upper_lower (s : string) : Py.upper (Py.lower s) = Py.upper s.
Proof.
  induction s as [|c s IH]; [reflexivity|].
  unfold Py.upper, Py.lower in *. cbn [Py.smap]. rewrite upper_lower_char, IH.
  reflexivity.
Qed.

Lemma upper_upper_char (c : ascii) : Py.upper_char (Py.upper_char c) = Py.upper_char c.
Proof. destruct c as [[] [] [] [] [] [] [] []]; reflexivity. Qed.

Lemma upper_upper (s : string) : Py.upper (Py.upper s) = Py.upper s.
Proof.
  induction s as [|c s IH]; [reflexivity|].
  unfold Py.upper in *. cbn [Py.smap]. rewrite upper_upper_char, IH.
  reflexivity.
Qed.

(** ** The primary key of a class *)

Lemma has_pk_marker_appended (t : string) :
  has_pk_marker (t +:+ " PRIMARY KEY") = true.
Proof.
  unfold has_pk_marker, Py.lower. rewrite smap_app.
  apply contains_app_r. reflexivity.
Qed.

Lemma sql_type_of_in (o : option string) : In (sql_type_of o) sql_types.
Proof.
  unfold sql_type_of. destruct o as [t|]; [|left; reflexivity].
  destruct (Py.truthy t); [|left; reflexivity].
  destruct (dict_get t TYPE_MAPPING) as [v|] eqn:E; [|left; reflexivity].
  right. cbn [default]. revert E. unfold TYPE_MAPPING.
  cbn [dict_get map snd].
  repeat (destruct (String.eqb _ t);
          [intros [= <-]; cbn; tauto|]).
  discriminate.
Qed.

Lemma read_attrs_types (e : elem) :
  Forall (fun a => In (snd a) sql_types) (read_attrs e).
Proof.
  unfold read_attrs. induction (findall e "ownedAttribute") as [|x l IH].
  - constructor.
  - cbn [flat_map]. apply Forall_app; split; [|exact IH].
    destruct (get x "name") as [n|]; [|constructor].
    destruct (Py.truthy n); [|constructor].
    constructor; [|constructor]. apply sql_type_of_in.
Qed.

(** None of the mapped SQL types carries a primary-key marker, in either
    spelling; once the marker is appended it occurs exactly once. *)
Lemma sql_types_plain (t : string) :
  In t sql_types ->
  has_pk_marker t = false /\ is_pk_col ("", t) = false
  /\ count_sub "primary key" (Py.lower (t +:+ " PRIMARY KEY")) = 1%nat.
Proof.
  unfold sql_types, TYPE_MAPPING. cbn [map snd In].
  intros H. repeat (destruct H as [<- | H]; [vm_compute; auto|]). destruct H.
Qed.

Lemma ensure_id_unfold (attrs : attrs_t) :
  ensure_id attrs =
  if negb (existsb (fun a => is_id (fst a)) attrs)
  then ("id", "INT PRIMARY KEY") :: attrs
  else map mark_id attrs.
Proof. reflexivity. Qed.

Lemma mark_id_fst (a : string * string) : fst (mark_id a) = fst a.
Proof. destruct a as [n t]. unfold mark_id. destruct (_ && _); reflexivity. Qed.

Lemma mark_id_idem (a : string * string) : mark_id (mark_id a) = mark_id a.
Proof.
  destruct a as [n t]. cbn [mark_id].
  destruct (is_id n && negb (has_pk_marker t)) eqn:E; cbn [mark_id].
  - rewrite has_pk_marker_appended, andb_false_r. reflexivity.
  - rewrite E. reflexivity.
Qed.

Lemma existsb_mark_id (attrs : attrs_t) :
  existsb (fun a => is_id (fst a)) (map mark_id attrs)
  = existsb (fun a => is_id (fst a)) attrs.
Proof.
  induction attrs as [|a l IH]; [reflexivity|].
  cbn [map existsb]. rewrite mark_id_fst, IH. reflexivity.
Qed.

Lemma mark_id_no_id (attrs : attrs_t) :
  existsb (fun a => is_id (fst a)) attrs = false -> map mark_id attrs = attrs.
Proof.
  induction attrs as [|[n t] l IH]; [reflexivity|].
  cbn [existsb map fst]. intros H. apply orb_false_elim in H as [Hn Hl].
  rewrite (IH Hl). unfold mark_id. rewrite Hn. reflexivity.
Qed.

Lemma ensure_id_idem (attrs : attrs_t) : ensure_id (ensure_id attrs) = ensure_id attrs.
Proof.
  rewrite (ensure_id_unfold attrs).
  destruct (existsb (fun a => is_id (fst a)) attrs) eqn:E; cbn [negb].
  - rewrite ensure_id_unfold, existsb_mark_id, E. cbn [negb].
    rewrite map_map. apply map_ext. apply mark_id_idem.
  - rewrite ensure_id_unfold. cbn [existsb fst negb].
    replace (is_id "id") with true by reflexivity. cbn [orb negb map].
    rewrite (mark_id_no_id _ E). reflexivity.
Qed.

Lemma filter_pk_plain (attrs : attrs_t) :
  Forall (fun a => In (snd a) sql_types) attrs -> List.filter is_pk_col attrs = [].
Proof.
  induction 1 as [|[n t] l Ht _ IH]; [reflexivity|].
  cbn [List.filter]. rewrite IH.
  destruct (sql_types_plain t Ht) as (_ & H & _).
  unfold is_pk_col in *. cbn [snd] in *. rewrite H. reflexivity.
Qed.

Lemma parse_class_classes (p : UMLParser) (e : elem) :
  classes (parse_class p e) = classes p \/
  exists class_name,
    classes (parse_class p e) = dict_set class_name (ensure_id (read_attrs e)) (classes p).
Proof.
  unfold parse_class.
  destruct (is_packaged e && is_type e "uml:Class"); [|left; reflexivity].
  destruct (get_attrib e "id") as [cid|]; [|left; reflexivity].
  destruct (get e "name") as [cn|]; [|left; reflexivity].
  destruct (Py.truthy cid && Py.truthy cn); [|left; reflexivity].
  right. exists cn. reflexivity.
Qed.

(** The second pass leaves the classes as the first pass made them. *)
Lemma parse_association_keeps (p q : UMLParser) (e : elem) :
  parse_association p e = Return q ->
  class_ids q = class_ids p /\ classes q = classes p /\ root q = root p.
Proof.
  unfold parse_association.
  destruct (is_packaged e && is_type e "uml:Association"); [|intros [= <-]; auto].
  destruct (findall e "ownedEnd") as [|e1 [|e2 [|? ?]]]; try (intros [= <-]; auto).
  destruct (read_lower e1); [|discriminate]. cbn [rbind].
  destruct (read_upper e1); [|discriminate]. cbn [rbind].
  destruct (read_lower e2); [|discriminate]. cbn [rbind].
  destruct (read_upper e2); [|discriminate]. cbn [rbind].
  intros [= <-]. auto.
Qed.

Lemma for_each_parse_association_keeps (l : list elem) (p q : UMLParser) :
  for_each parse_association l p = Return q ->
  class_ids q = class_ids p /\ classes q = classes p /\ root q = root p.
Proof.
  revert p. induction l as [|e l IH]; intros p; cbn [for_each].
  - intros [= <-]. auto.
  - destruct (parse_association p e) as [p'|] eqn:E; [|discriminate].
    cbn [rbind]. intros H. apply IH in H as (-> & -> & ->).
    exact (parse_association_keeps p p' e E).
Qed.

Lemma dict_set_In {V} (k n : string) (v x : V) (d : list (string * V)) :
  In (n, x) (dict_set k v d) -> x = v \/ In (n, x) d.
Proof.
  induction d as [|[k' w] d IH]; cbn [dict_set].
  - intros [[= _ <-] | []]. left. reflexivity.
  - destruct (String.eqb k' k).
    + intros [[= _ <-] | H]; [left; reflexivity|right; right; exact H].
    + intros [H | H]; [right; left; exact H|].
      destruct (IH H) as [-> | H']; [left; reflexivity|right; right; exact H'].
Qed.

(** Every row list the first pass stores is [ensure_id] of the rows read
    from an element of the scan. *)
Lemma fold_parse_class_rows (l : list elem) (p0 : UMLParser)
  (n : string) (rows : attrs_t) :
  In (n, rows) (classes (fold_left parse_class l p0)) ->
  In (n, rows) (classes p0)
  \/ exists e : elem, In e l /\ rows = ensure_id (read_attrs e).
Proof.
  revert p0. induction l as [|e l IH]; intros p0; cbn [fold_left]; [auto|].
  intros H. destruct (IH _ H) as [H0 | (e' & He' & ->)].
  - destruct (parse_class_classes p0 e) as [Hc | (cn & Hc)]; rewrite Hc in H0.
    + left. exact H0.
    + destruct (dict_set_In _ _ _ _ _ H0) as [-> | H1]; [|left; exact H1].
      right. exists e. split; [left; reflexivity|reflexivity].
  - right. exists e'. split; [right; exact He'|reflexivity].
Qed.

Lemma parsed_class_rows (r : elem) (p : UMLParser) (n : string) (rows : attrs_t) :
  parse_model r = Return p -> In (n, rows) (classes p) ->
  exists e : elem, In e (iter r) /\ rows = ensure_id (read_attrs e).
Proof.
  unfold parse_model, parse_associations. intros Hp Hin.
  apply for_each_parse_association_keeps in Hp as (_ & Hc & _).
  rewrite Hc in Hin. unfold parse_classes in Hin. cbn [root] in Hin.
  destruct (fold_parse_class_rows _ _ _ _ Hin) as [[] | H]. exact H.
Qed.

(** C4: the rows of every class of a parsed model are [ensure_id] of the
    rows read from the attributes of an element of the document.  When no
    attribute is named "id" in any letter case, the row
    ("id", "INT PRIMARY KEY") is put first and is the only primary-key
    column of the derived table, in the script and in the schema markup.
    When such an attribute exists, each one gets " PRIMARY KEY" appended to
    its type, which then holds the marker exactly once, the other rows stay
    as they are, and applying the step again changes nothing. *)
Theorem class_primary_key (r : elem) (p : UMLParser) (class_name : string)
  (rows : attrs_t) :
  parse_model r = Return p ->
  In (class_name, rows) (classes p) ->
  exists e : elem,
    In e (iter r) /\
    let attrs := read_attrs e in
    rows = ensure_id attrs
    /\ (existsb (fun a => is_id (fst a)) attrs = false ->
        rows = ("id", "INT PRIMARY KEY") :: attrs
        /\ List.filter is_pk_col rows = [("id", "INT PRIMARY KEY")]
        /\ map attr_line rows = "  `id` INT PRIMARY KEY" :: map attr_line attrs
        /\ map column_of_attr rows =
           Elem "column" [ ("name", "id"); ("type", "INT");
                           ("primaryKey", "true"); ("nullable", "false") ] []
           :: map column_of_attr attrs)
    /\ (existsb (fun a => is_id (fst a)) attrs = true ->
        length rows = length attrs
        /\ forall (i : nat) (a_name a_type : string),
             attrs !! i = Some (a_name, a_type) ->
             has_pk_marker a_type = false
             /\ if is_id a_name
                then rows !! i = Some (a_name, a_type +:+ " PRIMARY KEY")
                     /\ count_sub "primary key"
                          (Py.lower (a_type +:+ " PRIMARY KEY")) = 1%nat
                else rows !! i = Some (a_name, a_type))
    /\ ensure_id rows = rows.
Proof.
  intros Hp Hin. destruct (parsed_class_rows r p class_name rows Hp Hin) as (e & He & ->).
  exists e. split; [exact He|]. cbv zeta. split; [reflexivity|].
  pose proof (read_attrs_types e) as Hty.
  split; [|split; [|apply ensure_id_idem]].
  - intros Hno. rewrite ensure_id_unfold, Hno. cbn [negb].
    split; [reflexivity|]. split; [|split; reflexivity].
    cbn [List.filter]. replace (is_pk_col ("id", "INT PRIMARY KEY")) with true by reflexivity.
    rewrite (filter_pk_plain _ Hty). reflexivity.
  - intros Hyes. rewrite ensure_id_unfold, Hyes. cbn [negb].
    split; [apply length_map|].
    intros i n t Hi.
    assert (In t sql_types) as Ht.
    { rewrite Forall_lookup in Hty. exact (Hty i (n, t) Hi). }
    destruct (sql_types_plain t Ht) as (Hm & _ & Hc).
    split; [exact Hm|].
    rewrite list_lookup_fmap, Hi. cbn. rewrite Hm.
    destruct (is_id n); cbn; auto.
Qed.

Lemma class_primary_key_witness :
  exists e : elem,
    In e (iter keyword_model)
    /\ [("id", "INT PRIMARY KEY"); ("word", "VARCHAR(255)")] = ensure_id (read_attrs e).
Proof.
  destruct (class_primary_key keyword_model (parser_of keyword_model) "Keyword"
              [("id", "INT PRIMARY KEY"); ("word", "VARCHAR(255)")])
    as (e & He & Hrows & _).
  - vm_compute. reflexivity.
  - vm_compute. left. reflexivity.
  - exists e. split; [exact He|exact Hrows].
Defined.

(** ** The cardinality resolver *)

Ltac zcases :=
  repeat match goal with
         | |- context [Z.eqb ?x ?y] => destruct (Z.eqb_spec x y)
         | |- context [Z.ltb ?x ?y] => destruct (Z.ltb_spec x y)
         end.

Lemma many_to_many_spec (U1 U2 : Z) :
  many_to_many U1 U2 = true <-> spec_many_to_many U1 U2.
Proof.
  unfold many_to_many, spec_many_to_many, unbounded.
  zcases; cbn; intuition (try lia; try discriminate).
Qed.

Lemma one_to_many_spec (U1 U2 : Z) :
  one_to_many U1 U2 = true <-> spec_one_to_many U1 U2.
Proof.
  unfold one_to_many, spec_one_to_many, unbounded.
  zcases; cbn; intuition (try lia; try discriminate).
Qed.

Lemma buckets_disjoint (U1 U2 : Z) :
  many_to_many U1 U2 = true -> one_to_many U1 U2 = false.
Proof.
  unfold many_to_many, one_to_many.
  zcases; cbn; intuition (try lia; try discriminate).
Qed.

Lemma classify_many (U1 U2 : Z) :
  classify U1 U2 = ManyToMany <-> many_to_many U1 U2 = true.
Proof.
  unfold classify. destruct (many_to_many U1 U2), (one_to_many U1 U2);
    split; intros; (reflexivity || discriminate).
Qed.

Lemma classify_one (U1 U2 : Z) :
  classify U1 U2 = OneToMany <-> one_to_many U1 U2 = true.
Proof.
  unfold classify. pose proof (buckets_disjoint U1 U2) as D.
  destruct (many_to_many U1 U2), (one_to_many U1 U2);
    split; intros; try (reflexivity || discriminate).
  discriminate (D eq_refl).
Qed.

Lemma classify_default (U1 U2 : Z) :
  classify U1 U2 = DefaultBucket <->
  many_to_many U1 U2 = false /\ one_to_many U1 U2 = false.
Proof.
  unfold classify. destruct (many_to_many U1 U2), (one_to_many U1 U2);
    split; try intros [? ?]; intros; try (reflexivity || discriminate); auto.
Qed.

(** What an association between two resolved classes adds, by bucket. *)
Lemma assoc_by_bucket (ids : gmap string string) (a : association)
  (c1 c2 : string) (tables : list elem) :
  resolve ids (t1 a) = Some c1 -> resolve ids (t2 a) = Some c2 ->
  match classify (u1 a) (u2 a) with
  | ManyToMany =>
      assoc_sql ids a = [join_table_sql c1 c2]
      /\ assoc_xml ids tables a = tables ++ [join_table_xml c1 c2]
  | OneToMany =>
      if u1 a =? 1
      then assoc_sql ids a = alter_sql c2 (fk_col_name (n1 a) c1) c1
           /\ assoc_xml ids tables a = add_fk tables c2 (fk_col_name (n1 a) c1) c1
      else assoc_sql ids a = alter_sql c1 (fk_col_name (n2 a) c2) c2
           /\ assoc_xml ids tables a = add_fk tables c1 (fk_col_name (n2 a) c2) c2
  | DefaultBucket =>
      assoc_sql ids a = alter_sql c1 (fk_col_name (n2 a) c2) c2
      /\ assoc_xml ids tables a = add_fk tables c1 (fk_col_name (n2 a) c2) c2
  end.
Proof.
  intros H1 H2. unfold assoc_sql, assoc_xml, fk_placement, classify.
  rewrite H1, H2.
  destruct (many_to_many (u1 a) (u2 a)); [split; reflexivity|].
  destruct (one_to_many (u1 a) (u2 a)); [|split; reflexivity].
  destruct (u1 a =? 1); split; reflexivity.
Qed.

(** C1: for an association between two resolved classes, the branch taken
    is the many-to-many one exactly when both upper bounds are unbounded or
    one is unbounded and the other above one; the one-to-many one exactly
    when one upper bound is 1 and the other is unbounded or above one; every
    other pair, 1-1 included, takes the default branch, where the table of
    class 1 gets the foreign key that references the table of class 2, in
    the script and in the schema markup. *)
Theorem cardinality_buckets (ids : gmap string string) (a : association)
  (c1 c2 : string) (tables : list elem) :
  resolve ids (t1 a) = Some c1 -> resolve ids (t2 a) = Some c2 ->
  (classify (u1 a) (u2 a) = ManyToMany <-> spec_many_to_many (u1 a) (u2 a))
  /\ (classify (u1 a) (u2 a) = OneToMany <-> spec_one_to_many (u1 a) (u2 a))
  /\ (classify (u1 a) (u2 a) = DefaultBucket <->
      ~ spec_many_to_many (u1 a) (u2 a) /\ ~ spec_one_to_many (u1 a) (u2 a))
  /\ classify 1 1 = DefaultBucket
  /\ (classify (u1 a) (u2 a) = ManyToMany ->
      assoc_sql ids a = [join_table_sql c1 c2]
      /\ assoc_xml ids tables a = tables ++ [join_table_xml c1 c2])
  /\ (classify (u1 a) (u2 a) = DefaultBucket ->
      assoc_sql ids a =
        [ "ALTER TABLE `" +:+ c1 +:+ "` ADD COLUMN `" +:+ fk_col_name (n2 a) c2 +:+ "` INT;";
          "ALTER TABLE `" +:+ c1 +:+ "` ADD FOREIGN KEY (`" +:+ fk_col_name (n2 a) c2
            +:+ "`) REFERENCES `" +:+ c2 +:+ "`(`id`);" ]
      /\ assoc_xml ids tables a = add_fk tables c1 (fk_col_name (n2 a) c2) c2).
Proof.
  intros H1 H2.
  pose proof (assoc_by_bucket ids a c1 c2 tables H1 H2) as Hb.
  split; [|split; [|split; [|split; [reflexivity|split]]]].
  - rewrite classify_many. apply many_to_many_spec.
  - rewrite classify_one. apply one_to_many_spec.
  - rewrite classify_default, <- many_to_many_spec, <- one_to_many_spec.
    destruct (many_to_many (u1 a) (u2 a)), (one_to_many (u1 a) (u2 a));
      intuition congruence.
  - intros H. rewrite H in Hb. exact Hb.
  - intros H. rewrite H in Hb. exact Hb.
Qed.

Lemma cardinality_buckets_witness :
  classify 1 1 = DefaultBucket
  /\ assoc_sql sample_ids (sample_assoc 1 1) =
     [ "ALTER TABLE `Author` ADD COLUMN `ref2_id` INT;";
       "ALTER TABLE `Author` ADD FOREIGN KEY (`ref2_id`) REFERENCES `Book`(`id`);" ].
Proof.
  destruct (cardinality_buckets sample_ids (sample_assoc 1 1) "Author" "Book" [])
    as (_ & _ & _ & Hd & _ & Hs).
  - vm_compute. reflexivity.
  - vm_compute. reflexivity.
  - split; [exact Hd|]. exact (proj1 (Hs Hd)).
Defined.

(** ** Where the foreign key of an association goes *)

Lemma dict_get_set_eq {V} (k : string) (v : V) (d : list (string * V)) :
  dict_get k (dict_set k v d) = Some v.
Proof.
  induction d as [|[k' w] d IH]; cbn [dict_set dict_get].
  - rewrite String.eqb_refl. reflexivity.
  - destruct (String.eqb k' k) eqn:E; cbn [dict_get]; rewrite E; auto.
Qed.

Lemma dict_get_set_is_Some {V} (k k' : string) (v : V) (d : list (string * V)) :
  is_Some (dict_get k' d) -> is_Some (dict_get k' (dict_set k v d)).
Proof.
  induction d as [|[k0 w] d IH]; cbn [dict_set dict_get].
  - intros [? [=]].
  - destruct (String.eqb k0 k) eqn:E; cbn [dict_get].
    + destruct (String.eqb k0 k'); eauto.
    + destruct (String.eqb k0 k'); eauto.
Qed.

Lemma parse_class_names_known (p : UMLParser) (e : elem) :
  names_known p -> names_known (parse_class p e).
Proof.
  intros Hp. unfold parse_class.
  destruct (is_packaged e && is_type e "uml:Class"); [|exact Hp].
  destruct (get_attrib e "id") as [cid|]; [|exact Hp].
  destruct (get e "name") as [cn|]; [|exact Hp].
  destruct (Py.truthy cid && Py.truthy cn); [|exact Hp].
  intros k c. cbn [class_ids classes]. rewrite lookup_insert.
  case_decide as Hk.
  - intros [= <-]. rewrite dict_get_set_eq. eauto.
  - intros Hc. apply dict_get_set_is_Some, (Hp k c Hc).
Qed.

Lemma parse_classes_names_known (p : UMLParser) :
  names_known p -> names_known (parse_classes p).
Proof.
  unfold parse_classes. generalize (iter (root p)). intros l. revert p.
  induction l as [|e l IH]; intros p Hp; [exact Hp|].
  cbn [fold_left]. exact (IH _ (parse_class_names_known p e Hp)).
Qed.

Lemma parse_model_names_known (r : elem) (p : UMLParser) :
  parse_model r = Return p -> names_known p.
Proof.
  unfold parse_model, parse_associations. intros H.
  apply for_each_parse_association_keeps in H as (Hi & Hc & _).
  intros k c. rewrite Hi, Hc. apply parse_classes_names_known.
  intros k' c'. cbn [class_ids]. rewrite lookup_empty. discriminate.
Qed.

Lemma class_tables_present (c : string) (cls : list (string * attrs_t)) :
  is_Some (dict_get c cls) -> has_table c (map table_of_class cls).
Proof.
  unfold has_table. induction cls as [|[k rows] cls IH]; cbn [dict_get map existsb].
  - intros [? [=]].
  - destruct (String.eqb k c) eqn:E.
    + intros _. unfold is_table_named. cbn. rewrite E. reflexivity.
    + intros H. rewrite (IH H). apply orb_true_r.
Qed.

Lemma is_table_named_SubElement (n : string) (t x : elem) :
  is_table_named n (SubElement t x) = is_table_named n t.
Proof. destruct t. reflexivity. Qed.

Lemma add_fk_has_table (n fk_table fk_col ref_table : string) (tables : list elem) :
  has_table n tables -> has_table n (add_fk tables fk_table fk_col ref_table).
Proof.
  unfold has_table. induction tables as [|t l IH]; [auto|].
  cbn [add_fk existsb]. destruct (is_table_named fk_table t); cbn [existsb].
  - rewrite !is_table_named_SubElement. auto.
  - intros H. apply orb_true_iff in H as [H|H]; [rewrite H; reflexivity|].
    rewrite (IH H). apply orb_true_r.
Qed.

Lemma assoc_xml_has_table (ids : gmap string string) (n : string)
  (tables : list elem) (a : association) :
  has_table n tables -> has_table n (assoc_xml ids tables a).
Proof.
  intros H. unfold assoc_xml.
  destruct (resolve ids (t1 a)) as [c1|]; [|exact H].
  destruct (resolve ids (t2 a)) as [c2|]; [|exact H].
  destruct (many_to_many (u1 a) (u2 a)).
  - unfold has_table in *. rewrite existsb_app, H. reflexivity.
  - destruct (fk_placement _ _ _ _ _ _) as [[ft fc] rt].
    apply add_fk_has_table, H.
Qed.







(** ** The name of the foreign-key column *)

Lemma read_name_truthy (e : elem) (dflt : string) :
  Py.truthy dflt = true -> Py.truthy (read_name e dflt) = true.
Proof.
  intros Hd. unfold read_name, Py.por. destruct (get e "name") as [n|]; cbn.
  - destruct (Py.truthy n) eqn:E; cbn; [exact E|exact Hd].
  - exact Hd.
Qed.

(** C5: on the Author / Book model whose ends carry no role name, with
    upper bounds 1 and unbounded, the script names the added column ref1_id,
    not author_id: the reader of the ends replaces a missing role name by
    "ref1" or "ref2", so the name that [fk_col_name] gets is never empty and
    its branch on the lower-cased table name is never taken. *)
Theorem author_book_column_name :
  generate_sql_from_uml_content Reader.fromstring (author_book_text "0") =
    Return
      (Py.join (Py.nl +:+ Py.nl)
         [ create_table "Author" [("id", "INT PRIMARY KEY"); ("name", "VARCHAR(255)")];
           create_table "Book" [("id", "INT PRIMARY KEY"); ("title", "VARCHAR(255)")];
           "ALTER TABLE `Book` ADD COLUMN `ref1_id` INT;";
           "ALTER TABLE `Book` ADD FOREIGN KEY (`ref1_id`) REFERENCES `Author`(`id`);" ])
  /\ (forall (e : elem) (dflt c : string),
        Py.truthy dflt = true ->
        fk_col_name (read_name e dflt) c = read_name e dflt +:+ "_id").
Proof.
  split; [vm_compute; reflexivity|].
  intros e dflt c Hd. unfold fk_col_name. rewrite (read_name_truthy e dflt Hd).
  reflexivity.
Qed.

(** ** The type of a column *)

Lemma uml_type_ddl_any_case (s : string) :
  uml_type_ddl (Py.upper (Py.lower s)) = uml_type_ddl (Py.upper s)
  /\ uml_type_ddl (Py.upper (Py.upper s)) = uml_type_ddl (Py.upper s).
Proof. rewrite upper_lower, upper_upper. split; reflexivity. Qed.

(** C7: the reader of schema markup tests the type as it is written, so a
    column of type "int" becomes a String attribute while "INT" becomes an
    Integer one; the reader of the SQL script upper-cases the type first and
    gives Integer for both spellings. *)
Theorem schema_markup_type_case_sensitive :
  uml_of_sql_xml Reader.fromstring
    "<database><table name='t'><column name='n' type='int'/></table></database>" =
    Return
      (Elem "uml:Model" (map (fun '(k, v) => (k, Some v)) model_attrib)
         [ Elem "packagedElement"
             [ ("xmi:type", Some "uml:Class"); ("xmi:id", Some "class_1");
               ("name", Some "t") ]
             [ Elem "ownedAttribute"
                 [ ("xmi:id", Some "attr_class_1_n"); ("name", Some "n");
                   ("type", Some "String") ] [] ] ])
  /\ attr_of_column "class_1" (Elem "column" [("name", "n"); ("type", "int")] []) =
    Return (Elem "ownedAttribute"
              [ ("xmi:id", Some "attr_class_1_n"); ("name", Some "n");
                ("type", Some "String") ] [])
  /\ attr_of_column "class_1" (Elem "column" [("name", "n"); ("type", "INT")] []) =
    Return (Elem "ownedAttribute"
              [ ("xmi:id", Some "attr_class_1_n"); ("name", Some "n");
                ("type", Some "Integer") ] [])
  /\ attr_of_col_def "t" "`n` int" =
    [ Elem "ownedAttribute"
        [ ("xmi:id", "id_t_n"); ("name", "n"); ("type", "Integer") ] [] ]
  /\ attr_of_col_def "t" "`n` INT" =
    [ Elem "ownedAttribute"
        [ ("xmi:id", "id_t_n"); ("name", "n"); ("type", "Integer") ] [] ].
Proof. repeat split; vm_compute; reflexivity. Qed.

(** ** The column definitions of a table body *)

(** C8: the body of the two-column example splits into its two column
    definitions, but a comma inside parentheses that is followed by an
    opening parenthesis does split: the body with the nested check yields
    three pieces, and the middle one becomes an attribute named "(2" of the
    class read from the statement. *)
Theorem nested_parenthesis_comma_splits :
  col_defs_of "(`name` VARCHAR(255), `age` INT)" =
    [ "`name` VARCHAR(255)"; "`age` INT" ]
  /\ col_defs_of "(`c` INT CHECK (`c` IN (1, (2 + 3))), `d` INT)" =
    [ "`c` INT CHECK (`c` IN (1"; "(2 + 3)))"; "`d` INT" ]
  /\ classes_of_tokens
       (create_table_tokens "t" "`c` INT CHECK (`c` IN (1, (2 + 3))), `d` INT") =
    [ Elem "packagedElement"
        [ ("xmi:type", "uml:Class"); ("xmi:id", "id_t"); ("name", "t") ]
        [ Elem "ownedAttribute"
            [ ("xmi:id", "id_t_c"); ("name", "c"); ("type", "Integer") ] [];
          Elem "ownedAttribute"
            [ ("xmi:id", "id_t_(2"); ("name", "(2"); ("type", "String") ] [];
          Elem "ownedAttribute"
            [ ("xmi:id", "id_t_d"); ("name", "d"); ("type", "Integer") ] [] ] ].
Proof. repeat split; vm_compute; reflexivity. Qed.

(** The pattern of line 191 against its direct reading [separator_at]. *)

Lemma ahead_closes_loop (caps : list string) (n : nat) (s : string) :
  (String.length s <= n)%nat ->
  is_Some
    (Re.star_loop (Re.run false (Re.none_of ["("%char; ")"%char]))
       (fun s' caps' => Re.run false (Re.Chr ")") s' caps' Re.finish) n s caps)
  <-> closes_first s = true.
Proof.
  revert s. induction n as [|n IH]; intros s Hn.
  - destruct s; [|cbn in Hn; lia]. cbn. split; [intros [? [=]]|discriminate].
  - destruct s as [|d t].
    + cbn. split; [intros [? [=]]|discriminate].
    + cbn [Re.star_loop Re.run Re.none_of closes_first existsb String.length].
      assert (String.length t <= n)%nat as Ht by (cbn in Hn; lia).
      specialize (IH t Ht).
      replace (Nat.ltb (String.length t) (S (String.length t))) with true
        by (symmetry; apply Nat.ltb_lt; lia).
      unfold Re.chr_eq. rewrite (Ascii.eqb_sym ")" d).
      destruct (Ascii.eqb_spec d ")") as [->|Hc]; [cbn; split; eauto|].
      destruct (Ascii.eqb_spec d "(") as [->|Ho];
        [cbn; split; [intros [? [=]]|discriminate]|].
      cbn [orb negb].
      destruct (Re.star_loop _ _ n t caps) as [x|]; [|].
      * rewrite <- IH. split; eauto.
      * rewrite <- IH. split; intros [? [=]].
Qed.

Lemma ahead_closes (s : string) (caps : list string) :
  is_Some (Re.run false ahead_re s caps Re.finish) <-> closes_first s = true.
Proof. apply ahead_closes_loop. lia. Qed.

Lemma space_not_paren (d : ascii) (t : string) :
  Py.is_space_char d = true -> closes_first (String d t) = closes_first t.
Proof.
  intros H. cbn [closes_first].
  destruct (Ascii.eqb_spec d ")") as [->|_]; [discriminate H|].
  destruct (Ascii.eqb_spec d "(") as [->|_]; [discriminate H|]. reflexivity.
Qed.

Lemma closes_first_lstrip (s : string) :
  closes_first (Py.lstrip_by Py.is_space_char s) = closes_first s.
Proof.
  induction s as [|d t IH]; [reflexivity|]. cbn [Py.lstrip_by].
  destruct (Py.is_space_char d) eqn:E; [|reflexivity].
  rewrite IH. symmetry. apply space_not_paren, E.
Qed.

Lemma not_ahead_finish (s : string) (caps : list string) :
  Re.run false (Re.NotAhead ahead_re) s caps Re.finish =
  if closes_first s then None else Some (s, caps).
Proof.
  cbn [Re.run]. pose proof (ahead_closes s caps) as H.
  destruct (Re.run false ahead_re s caps Re.finish) as [x|].
  - rewrite (proj1 H); eauto.
  - destruct (closes_first s); [|reflexivity].
    destruct (proj2 H eq_refl) as [? [=]].
Qed.

Lemma run_space (s : string) (caps : list string)
  (k : string -> list string -> Re.outcome) :
  Re.run false Re.space s caps k =
  match s with
  | String d t => if Py.is_space_char d then k t caps else None
  | EmptyString => None
  end.
Proof. reflexivity. Qed.

Lemma space_loop (k : string -> list string -> Re.outcome) (n : nat) (s : string) :
  (forall s' caps', k s' caps' = if closes_first s' then None else Some (s', caps')) ->
  (String.length s <= n)%nat ->
  Re.star_loop (Re.run false Re.space) k n s [] =
  if closes_first s then None else Some (Py.lstrip_by Py.is_space_char s, []).
Proof.
  intros Hk. revert s. induction n as [|n IH]; intros s Hn.
  - destruct s; [|cbn in Hn; lia]. cbn [Re.star_loop]. rewrite Hk. reflexivity.
  - destruct s as [|d t].
    { cbn [Re.star_loop]. rewrite run_space, Hk. reflexivity. }
    assert (String.length t <= n)%nat as Ht by (cbn in Hn; lia).
    cbn [Re.star_loop]. rewrite run_space, Hk.
    cbn [String.length Py.lstrip_by].
    replace (Nat.ltb (String.length t) (S (String.length t))) with true
      by (symmetry; apply Nat.ltb_lt; lia).
    destruct (Py.is_space_char d) eqn:E; [|destruct (closes_first _); reflexivity].
    rewrite (IH t Ht), (space_not_paren d t E).
    destruct (closes_first t); reflexivity.
Qed.

(** The pattern matches at [s] exactly when [s] starts with a separator. *)
Lemma col_sep_match (s : string) :
  Re.match_at false col_sep_re s = (fun r => (r, [])) <$> separator_at s.
Proof.
  unfold Re.match_at, col_sep_re, separator_at.
  destruct s as [|c r]; [reflexivity|].
  change (Re.Cat (Re.Star (Re.none_of ["("%char; ")"%char])) (Re.Chr ")"))
    with ahead_re.
  cbn [Re.run]. unfold Re.chr_eq. rewrite (Ascii.eqb_sym "," c).
  destruct (Ascii.eqb c ","); [|reflexivity]. cbn [andb].
  rewrite (space_loop _ (String.length r) r); [|exact (not_ahead_finish)|lia].
  destruct (closes_first r); reflexivity.
Qed.

Lemma lstrip_length (f : ascii -> bool) (s : string) :
  (String.length (Py.lstrip_by f s) <= String.length s)%nat.
Proof.
  induction s as [|c r IH]; [cbn; lia|].
  cbn [Py.lstrip_by]. destruct (f c); cbn [String.length]; lia.
Qed.

(** The splitting of a body, one character at a time: a separator ends the
    current definition, any other character, a comma that is no separator
    included, goes into it. *)
Lemma col_split_step (fuel : nat) (c : ascii) (r : string) :
  Re.split_go false col_sep_re (S fuel) (String c r) =
  match separator_at (String c r) with
  | Some r' => "" :: Re.split_go false col_sep_re fuel r'
  | None => Re.cons_head c (Re.split_go false col_sep_re fuel r)
  end.
Proof.
  cbn [Re.split_go]. rewrite col_sep_match.
  destruct (separator_at (String c r)) as [r'|] eqn:E; [|reflexivity].
  cbn [fmap option_fmap option_map].
  replace (Nat.ltb (String.length r') (String.length (String c r))) with true;
    [reflexivity|].
  symmetry. apply Nat.ltb_lt. cbn [separator_at] in E.
  destruct (Ascii.eqb c "," && negb (closes_first r)); [|discriminate].
  injection E as <-. pose proof (lstrip_length Py.is_space_char r).
  cbn [String.length]. lia.
Qed.

(** A comma whose next parenthesis is a closing one stays inside its
    column definition. *)
Lemma comma_before_closing_kept (fuel : nat) (r : string) :
  closes_first r = true ->
  Re.split_go false col_sep_re (S fuel) (String "," r) =
  Re.cons_head "," (Re.split_go false col_sep_re fuel r).
Proof.
  intros H. rewrite col_split_step. cbn [separator_at]. rewrite H.
  rewrite andb_false_r. reflexivity.
Qed.

(** ** Malformed markup *)

(** C9: when the reader rejects the text, each of the three conversions
    that read markup raises the parse error: there is no parser state and no
    output text. *)
Theorem malformed_markup_fails (fromstring : string -> option elem)
  (toprettyxml : elem -> string) (txt : string) :
  fromstring txt = None ->
  parsed_model fromstring txt = Raise ParseError
  /\ generate_sql_from_uml_content fromstring txt = Raise ParseError
  /\ generate_sql_xml_from_uml_content fromstring toprettyxml txt = Raise ParseError
  /\ uml_of_sql_xml fromstring txt = Raise ParseError
  /\ generate_uml_from_sql_xml fromstring toprettyxml txt = Raise ParseError.
Proof.
  intros H.
  unfold generate_sql_from_uml_content, generate_sql_xml_from_uml_content,
    generate_uml_from_sql_xml, uml_of_sql_xml, parsed_model, UMLParser_init.
  rewrite H. repeat split.
Qed.

Lemma malformed_markup_fails_witness :
  Reader.fromstring "<Model><packagedElement" = None
  /\ generate_sql_from_uml_content Reader.fromstring "<Model><packagedElement"
     = Raise ParseError
  /\ generate_uml_from_sql_xml Reader.fromstring Reader.tags "<Model><packagedElement"
     = Raise ParseError.
Proof.
  assert (Reader.fromstring "<Model><packagedElement" = None) as H
    by (vm_compute; reflexivity).
  destruct (malformed_markup_fails Reader.fromstring Reader.tags _ H)
    as (_ & H1 & _ & _ & H2).
  exact (conj H (conj H1 H2)).
Defined.

(** ** Bounds that are not numbers *)

Lemma isdigit_char_not_space (c : ascii) :
  Py.isdigit_char c = true -> Py.is_int_space_char c = false.
Proof. destruct c as [[] [] [] [] [] [] [] []]; vm_compute; congruence. Qed.

Lemma all_digits_rstrip (s : string) :
  Py.all_digits s = true -> Py.rstrip_by Py.is_int_space_char s = s.
Proof.
  induction s as [|c s IH]; [reflexivity|].
  cbn [Py.all_digits Py.rstrip_by]. intros H.
  apply andb_true_iff in H as [Hc Hs]. rewrite (IH Hs).
  destruct s; [|reflexivity]. rewrite (isdigit_char_not_space c Hc). reflexivity.
Qed.

Lemma isdigit_strip (s : string) :
  Py.isdigit s = true -> Py.strip_by Py.is_int_space_char s = s.
Proof.
  unfold Py.isdigit, Py.strip_by. intros H.
  apply andb_true_iff in H as [Hne Hd].
  destruct s as [|c s]; [discriminate|].
  pose proof Hd as Hd'. cbn [Py.all_digits] in Hd'.
  apply andb_true_iff in Hd' as [Hc _].
  cbn [Py.lstrip_by]. rewrite (isdigit_char_not_space c Hc).
  apply all_digits_rstrip, Hd.
Qed.

Lemma digit_val_nonneg (c : ascii) : 0 <= Py.digit_val c.
Proof. unfold Py.digit_val. lia. Qed.

Lemma int_digits_nonneg (s : string) :
  forall (acc : Z) (b : bool) (n : Z),
    0 <= acc -> Py.int_digits acc b s = Some n -> 0 <= n.
Proof.
  induction s as [|c s IH]; intros acc b n Hacc; cbn [Py.int_digits].
  - destruct b; [intros [= <-]; exact Hacc|discriminate].
  - destruct (Py.is_digit_char c).
    + apply IH. pose proof (digit_val_nonneg c). lia.
    + destruct (Ascii.eqb c "_" && b); [apply IH; exact Hacc|discriminate].
Qed.

Lemma int_literal_nonneg (s : string) (n : Z) :
  Py.int_literal s = Some n -> 0 <= n.
Proof.
  unfold Py.int_literal. destruct (Nat.ltb _ _); [discriminate|].
  apply int_digits_nonneg. lia.
Qed.

Lemma int_of_digit_head (c : ascii) (s : string) :
  Py.isdigit_char c = true ->
  match String c s with
  | String "-" r => Z.opp <$> Py.int_literal r
  | String "+" r => Py.int_literal r
  | t => Py.int_literal t
  end = Py.int_literal (String c s).
Proof.
  intros H. destruct c as [[] [] [] [] [] [] [] []];
    vm_compute in H; first [discriminate H | reflexivity].
Qed.

(** A text of digit characters that [int] reads is a number that is not
    negative. *)
Lemma isdigit_int (s : string) (n : Z) :
  Py.isdigit s = true -> Py.int s = Some n -> 0 <= n.
Proof.
  intros H. unfold Py.int. rewrite (isdigit_strip s H).
  unfold Py.isdigit in H. apply andb_true_iff in H as [Hne Hd].
  destruct s as [|c s]; [discriminate|].
  cbn [Py.all_digits] in Hd. apply andb_true_iff in Hd as [Hc _].
  rewrite (int_of_digit_head c s Hc). apply int_literal_nonneg.
Qed.

(** An upper bound that is read is -1 or not negative. *)
Lemma read_upper_range (e : elem) (n : Z) :
  read_upper e = Return n -> n = -1 \/ 0 <= n.
Proof.
  unfold read_upper.
  destruct (Py.isdigit (default "1" (get e "upper"))) eqn:E.
  - destruct (Py.int (default "1" (get e "upper"))) eqn:E2; [|discriminate].
    intros [= <-]. right. exact (isdigit_int _ _ E E2).
  - intros [= <-]. left. reflexivity.
Qed.

Lemma read_upper_exn (e : elem) (x : exn) : read_upper e = Raise x -> x = ValueError.
Proof.
  unfold read_upper. destruct (Py.isdigit _); [|discriminate].
  destruct (Py.int _); [discriminate|]. congruence.
Qed.

Lemma read_lower_exn (e : elem) (x : exn) : read_lower e = Raise x -> x = ValueError.
Proof. unfold read_lower. destruct (Py.int _); [discriminate|]. congruence. Qed.

Lemma ok_read_lower (e : elem) : ok (read_lower e) = lower_readable e.
Proof. unfold read_lower, lower_readable. destruct (Py.int _); reflexivity. Qed.

Lemma ok_read_upper (e : elem) : ok (read_upper e) = upper_readable e.
Proof.
  unfold read_upper, upper_readable.
  destruct (Py.isdigit _); cbn [negb orb]; [|reflexivity].
  destruct (Py.int _); reflexivity.
Qed.

Lemma parse_association_exn (p : UMLParser) (e : elem) (x : exn) :
  parse_association p e = Raise x -> x = ValueError.
Proof.
  unfold parse_association.
  destruct (is_packaged e && is_type e "uml:Association"); [|discriminate].
  destruct (findall e "ownedEnd") as [|e1 [|e2 [|? ?]]]; try discriminate.
  destruct (read_lower e1) eqn:L1; cbn [rbind];
    [|intros [= <-]; exact (read_lower_exn _ _ L1)].
  destruct (read_upper e1) eqn:U1; cbn [rbind];
    [|intros [= <-]; exact (read_upper_exn _ _ U1)].
  destruct (read_lower e2) eqn:L2; cbn [rbind];
    [|intros [= <-]; exact (read_lower_exn _ _ L2)].
  destruct (read_upper e2) eqn:U2; cbn [rbind];
    [discriminate|intros [= <-]; exact (read_upper_exn _ _ U2)].
Qed.

(** The loop body returns exactly when the element is skipped or the four
    bounds of its two ends are read. *)
Lemma ok_parse_association (p : UMLParser) (a : elem) :
  ok (parse_association p a) =
  if is_packaged a && is_type a "uml:Association" then
    match findall a "ownedEnd" with
    | [e1; e2] =>
        lower_readable e1 && upper_readable e1
        && lower_readable e2 && upper_readable e2
    | _ => true
    end
  else true.
Proof.
  unfold parse_association.
  destruct (is_packaged a && is_type a "uml:Association"); [|reflexivity].
  destruct (findall a "ownedEnd") as [|e1 [|e2 [|? ?]]]; try reflexivity.
  rewrite <- !ok_read_lower, <- !ok_read_upper.
  destruct (read_lower e1); cbn [rbind ok andb]; [|reflexivity].
  destruct (read_upper e1); cbn [rbind ok andb]; [|reflexivity].
  destruct (read_lower e2); cbn [rbind ok andb]; [|reflexivity].
  destruct (read_upper e2); reflexivity.
Qed.

Lemma parse_association_raises (p : UMLParser) (a e1 e2 e : elem) :
  is_packaged a && is_type a "uml:Association" = true ->
  findall a "ownedEnd" = [e1; e2] ->
  e = e1 \/ e = e2 ->
  lower_readable e && upper_readable e = false ->
  parse_association p a = Raise ValueError.
Proof.
  intros Ha Hends He Hbad.
  pose proof (ok_parse_association p a) as Hok. rewrite Ha, Hends in Hok.
  destruct (parse_association p a) as [q|x] eqn:E.
  - exfalso. cbn [ok] in Hok. symmetry in Hok.
    apply andb_true_iff in Hok as [Hok Hu2].
    apply andb_true_iff in Hok as [Hok Hl2].
    apply andb_true_iff in Hok as [Hl1 Hu1].
    destruct He as [-> | ->].
    + rewrite Hl1, Hu1 in Hbad. discriminate.
    + rewrite Hl2, Hu2 in Hbad. discriminate.
  - f_equal. exact (parse_association_exn _ _ _ E).
Qed.

Lemma parse_association_returns (p : UMLParser) (a : elem) :
  (is_packaged a && is_type a "uml:Association" = true ->
   length (findall a "ownedEnd") = 2%nat ->
   forall x : elem, In x (findall a "ownedEnd") ->
                    lower_readable x && upper_readable x = true) ->
  exists q : UMLParser, parse_association p a = Return q.
Proof.
  intros H. pose proof (ok_parse_association p a) as Hok.
  destruct (parse_association p a) as [q|x] eqn:E; [eauto|]. exfalso.
  clear E. cbn [ok] in Hok. revert Hok H.
  destruct (is_packaged a && is_type a "uml:Association"); [|discriminate].
  destruct (findall a "ownedEnd") as [|e1 [|e2 [|? ?]]]; try discriminate.
  intros Hok H.
  pose proof (H eq_refl eq_refl e1 (or_introl eq_refl)) as H1.
  pose proof (H eq_refl eq_refl e2 (or_intror (or_introl eq_refl))) as H2.
  apply andb_true_iff in H1 as [A1 B1]. apply andb_true_iff in H2 as [A2 B2].
  rewrite A1, B1, A2, B2 in Hok. discriminate.
Qed.

Lemma for_each_raises {A S : Type} (body : S -> A -> result S) (E : exn)
  (l : list A) (x : A) :
  (forall s y e', body s y = Raise e' -> e' = E) ->
  In x l -> (forall s, body s x = Raise E) ->
  forall s, for_each body l s = Raise E.
Proof.
  intros Hexn Hin Hx. induction l as [|y l IH]; [destruct Hin|].
  intros s. cbn [for_each]. destruct Hin as [-> | Hin].
  - rewrite Hx. reflexivity.
  - destruct (body s y) as [s'|e'] eqn:Ey; cbn [rbind].
    + apply (IH Hin).
    + f_equal. apply (Hexn s y), Ey.
Qed.

Lemma for_each_returns {A S : Type} (body : S -> A -> result S) (l : list A) :
  (forall x, In x l -> forall s, exists s', body s x = Return s') ->
  forall s, exists s', for_each body l s = Return s'.
Proof.
  induction l as [|y l IH]; intros H s; cbn [for_each]; [eauto|].
  destruct (H y (or_introl eq_refl) s) as (s' & ->). cbn [rbind].
  apply IH. intros x Hx. apply H. right. exact Hx.
Qed.

Lemma parse_classes_root (p : UMLParser) : root (parse_classes p) = root p.
Proof.
  unfold parse_classes. generalize (iter (root p)). intros l. revert p.
  induction l as [|e l IH]; intros p; [reflexivity|].
  cbn [fold_left]. rewrite IH. unfold parse_class.
  destruct (is_packaged e && is_type e "uml:Class"); [|reflexivity].
  destruct (get_attrib e "id"); [|reflexivity].
  destruct (get e "name"); [|reflexivity].
  destruct (Py.truthy _ && Py.truthy _); reflexivity.
Qed.

Lemma parse_model_raises (r a e1 e2 e : elem) :
  In a (iter r) ->
  is_packaged a && is_type a "uml:Association" = true ->
  findall a "ownedEnd" = [e1; e2] ->
  e = e1 \/ e = e2 ->
  lower_readable e && upper_readable e = false ->
  parse_model r = Raise ValueError.
Proof.
  intros Ha Hty Hends He Hbad.
  unfold parse_model, parse_associations. rewrite parse_classes_root.
  cbn [root]. apply (for_each_raises parse_association ValueError _ a).
  - intros s y e'. apply parse_association_exn.
  - exact Ha.
  - intros s. exact (parse_association_raises s a e1 e2 e Hty Hends He Hbad).
Qed.

Lemma parse_model_returns (r : elem) :
  (forall a x : elem,
      In a (iter r) ->
      is_packaged a && is_type a "uml:Association" = true ->
      length (findall a "ownedEnd") = 2%nat ->
      In x (findall a "ownedEnd") ->
      lower_readable x && upper_readable x = true) ->
  exists p : UMLParser, parse_model r = Return p.
Proof.
  intros H. unfold parse_model, parse_associations.
  rewrite parse_classes_root. cbn [root].
  apply for_each_returns. intros a Ha s.
  apply parse_association_returns. intros Hty Hlen x Hx.
  exact (H a x Ha Hty Hlen Hx).
Qed.

(** C10: when an end of a two-ended association of the document has a
    [lower] attribute that [int] refuses, or an [upper] attribute made of
    digit characters that [int] refuses, both conversions from exchange
    markup raise [ValueError] and give no text.  An [upper] attribute that
    is not made of digit characters is read as -1 without an exception.  A
    document is parsed exactly when, on every end of every two-ended
    association, [int] reads the [lower] attribute and the [upper]
    attribute is not made of digit characters or is read by [int]. *)
Theorem lower_bound_not_integer_aborts (fromstring : string -> option elem)
  (toprettyxml : elem -> string) (txt : string) (r a e1 e2 e : elem)
  (raw : string) :
  fromstring txt = Some r ->
  In a (iter r) ->
  is_packaged a && is_type a "uml:Association" = true ->
  findall a "ownedEnd" = [e1; e2] ->
  e = e1 \/ e = e2 ->
  (get e "lower" = Some raw /\ Py.int raw = None)
  \/ (get e "upper" = Some raw /\ Py.isdigit raw = true /\ Py.int raw = None) ->
  generate_sql_from_uml_content fromstring txt = Raise ValueError
  /\ generate_sql_xml_from_uml_content fromstring toprettyxml txt = Raise ValueError
  /\ (forall x : elem,
        Py.isdigit (default "1" (get x "upper")) = false ->
        read_upper x = Return (-1))
  /\ (forall r' : elem,
        (exists p : UMLParser, parse_model r' = Return p)
        <-> (forall a' x : elem,
                In a' (iter r') ->
                is_packaged a' && is_type a' "uml:Association" = true ->
                length (findall a' "ownedEnd") = 2%nat ->
                In x (findall a' "ownedEnd") ->
                lower_readable x && upper_readable x = true)).
Proof.
  intros Hr Ha Hty Hends He Hbad.
  assert (lower_readable e && upper_readable e = false) as Hunread.
  { unfold lower_readable, upper_readable.
    destruct Hbad as [[Hg Hint] | (Hg & Hdig & Hint)]; rewrite Hg.
    - change (default "0" (Some raw)) with raw. rewrite Hint. reflexivity.
    - change (default "1" (Some raw)) with raw. rewrite Hdig, Hint.
      apply andb_false_r. }
  assert (parsed_model fromstring txt = Raise ValueError) as Hp.
  { unfold parsed_model, UMLParser_init. rewrite Hr.
    exact (parse_model_raises r a e1 e2 e Ha Hty Hends He Hunread). }
  unfold generate_sql_from_uml_content, generate_sql_xml_from_uml_content.
  rewrite Hp. split; [reflexivity|]. split; [reflexivity|]. split.
  - intros x Hx. unfold read_upper. rewrite Hx. reflexivity.
  - intros r'. split; [|apply parse_model_returns].
    intros [p Hret] a' x Ha' Hty' Hlen Hx.
    destruct (lower_readable x && upper_readable x) eqn:E; [reflexivity|].
    exfalso. revert Hlen Hx.
    destruct (findall a' "ownedEnd") as [|x1 [|x2 [|? ?]]] eqn:Hf;
      try discriminate.
    intros _ Hx.
    assert (x = x1 \/ x = x2) as Hx'
      by (destruct Hx as [<- | [<- | []]]; auto).
    rewrite (parse_model_raises r' a' x1 x2 x Ha' Hty' Hf Hx' E) in Hret.
    discriminate.
Qed.

Lemma lower_bound_not_integer_aborts_witness :
  generate_sql_from_uml_content Reader.fromstring (author_book_text "many")
  = Raise ValueError.
Proof.
  refine (proj1
    (lower_bound_not_integer_aborts Reader.fromstring Reader.tags
       (author_book_text "many") (sample_tree (author_book_text "many"))
       (Elem "packagedElement" [("type", "uml:Association"); ("id", "AB")]
          [ Elem "ownedEnd" [("type", "A"); ("upper", "1")] [];
            Elem "ownedEnd" [("type", "B"); ("lower", "many"); ("upper", "*")] [] ])
       (Elem "ownedEnd" [("type", "A"); ("upper", "1")] [])
       (Elem "ownedEnd" [("type", "B"); ("lower", "many"); ("upper", "*")] [])
       (Elem "ownedEnd" [("type", "B"); ("lower", "many"); ("upper", "*")] [])
       "many" _ _ _ _ _ (or_introl (conj _ _)))).
  - vm_compute. reflexivity.
  - vm_compute. repeat (first [left; reflexivity | right]).
  - vm_compute. reflexivity.
  - vm_compute. reflexivity.
  - right. reflexivity.
  - vm_compute. reflexivity.
  - vm_compute. reflexivity.
Defined.

(** C10, the sentence as it was written does not hold.  A [lower]
    attribute that is no decimal integer string can still be read: "1_0" is
    read as 10 and " 7 " as 7, and the conversion gives the script it gives
    for "10".  An [upper] attribute that is no decimal integer string can
    still abort the conversion: the superscript two is a digit for
    [isdigit] and is refused by [int], so both conversions raise
    [ValueError] where the sentence has them go on with -1. *)
Theorem bounds_outside_the_sentence :
  (decimal_integer_string "1_0" = false
   /\ decimal_integer_string " 7 " = false
   /\ generate_sql_from_uml_content Reader.fromstring
        (author_book_bounds_text "1_0" "*")
      = generate_sql_from_uml_content Reader.fromstring
          (author_book_bounds_text "10" "*")
   /\ ok (generate_sql_from_uml_content Reader.fromstring
            (author_book_bounds_text "1_0" "*")) = true
   /\ associations (parser_of (sample_tree (author_book_bounds_text "1_0" "*")))
      = [Assoc (Some "A") "ref1" 0 1 (Some "B") "ref2" 10 (-1)]
   /\ associations (parser_of (sample_tree (author_book_bounds_text " 7 " "*")))
      = [Assoc (Some "A") "ref1" 0 1 (Some "B") "ref2" 7 (-1)])
  /\ (decimal_integer_string superscript_two = false
      /\ generate_sql_from_uml_content Reader.fromstring
           (author_book_bounds_text "0" superscript_two)
         = Raise ValueError
      /\ generate_sql_xml_from_uml_content Reader.fromstring Reader.tags
           (author_book_bounds_text "0" superscript_two)
         = Raise ValueError).
Proof. repeat split; vm_compute; reflexivity. Qed.

(** The limit on the number of digits: an upper bound of 4301 nines aborts
    the parsing, and the separators 28 to 31, which [strip] drops, are not
    dropped by [int]. *)
Example long_upper_aborts :
  parse_model (author_book "1" (Py.times "9" 4301)) = Raise ValueError
  /\ Py.int (String "028"%char "5") = None
  /\ Py.strip (String "028"%char "5") = "5".
Proof. repeat split; vm_compute; reflexivity. Qed.

(** ** Associations recovered from foreign keys *)

Lemma is_known_true (m : gmap string string) (k v : string) :
  m !! k = Some v -> is_known m k = true.
Proof. intros H. unfold is_known. apply bool_decide_eq_true. eauto. Qed.



(** The same on a whole schema: the association comes after the classes,
    with the canonical bounds. *)
Example schema_with_foreign_key :
  uml_of_sql_xml Reader.fromstring
    ("<database><table name='Author'/><table name='Book'>"
     +:+ "<foreignKey targetTable='Author'>"
     +:+ "<reference localColumn='author_id' foreignColumn='id'/></foreignKey>"
     +:+ "</table></database>") =
  Return
    (Elem "uml:Model" (map (fun '(k, v) => (k, Some v)) model_attrib)
       [ Elem "packagedElement"
           [ ("xmi:type", Some "uml:Class"); ("xmi:id", Some "class_1");
             ("name", Some "Author") ] [];
         Elem "packagedElement"
           [ ("xmi:type", Some "uml:Class"); ("xmi:id", Some "class_2");
             ("name", Some "Book") ] [];
         Elem "packagedElement"
           [ ("xmi:type", Some "uml:Association"); ("xmi:id", Some "assoc_1") ]
           [ Elem "ownedEnd"
               [ ("xmi:id", Some "assoc_1_end1"); ("type", Some "class_1");
                 ("name", Some "author_ref");
                 ("lower", Some "1"); ("upper", Some "1") ] [];
             Elem "ownedEnd"
               [ ("xmi:id", Some "assoc_1_end2"); ("type", Some "class_2");
                 ("name", Some "book_ref");
                 ("lower", Some "0"); ("upper", Some "-1") ] [] ] ]).
Proof. vm_compute. reflexivity. Qed.

(** * Further properties *)
(** ** Further properties of the class model *)

Lemma dict_set_keys_In {V} (k x : string) (v : V) (d : list (string * V)) :
  In x (map fst (dict_set k v d)) -> x = k \/ In x (map fst d).
Proof.
  induction d as [|[k' w] d IH]; cbn [dict_set map fst In].
  - intros [<- | []]. left. reflexivity.
  - destruct (String.eqb k' k); cbn [map fst In].
    + intros [<- | H]; auto.
    + intros [<- | H]; [auto|]. destruct (IH H); auto.
Qed.

Lemma dict_set_keys_nodup {V} (k : string) (v : V) (d : list (string * V)) :
  List.NoDup (map fst d) -> List.NoDup (map fst (dict_set k v d)).
Proof.
  induction d as [|[k' w] d IH]; cbn [dict_set map fst]; intros H.
  - constructor; [intros []|constructor].
  - destruct (String.eqb k' k) eqn:E; cbn [map fst]; [exact H|].
    inversion H as [|? ? Hn Hd]; subst. constructor; [|exact (IH Hd)].
    intros Hin. apply dict_set_keys_In in Hin as [-> | Hin]; [|contradiction].
    rewrite String.eqb_refl in E. discriminate.
Qed.

Lemma dict_get_set_ne {V} (k k' : string) (v : V) (d : list (string * V)) :
  k <> k' -> dict_get k' (dict_set k v d) = dict_get k' d.
Proof.
  intros Hne. induction d as [|[k0 w] d IH]; cbn [dict_set dict_get].
  - destruct (String.eqb_spec k k'); [contradiction|reflexivity].
  - destruct (String.eqb_spec k0 k) as [->|Hk]; cbn [dict_get].
    + destruct (String.eqb_spec k k'); [contradiction|reflexivity].
    + rewrite IH. reflexivity.
Qed.

Lemma parse_class_stored (p : UMLParser) (e : elem) :
  classes (parse_class p e) =
  match stored_name e with
  | Some cn => dict_set cn (ensure_id (read_attrs e)) (classes p)
  | None => classes p
  end.
Proof.
  unfold parse_class, stored_name.
  destruct (is_packaged e && is_type e "uml:Class"); [|reflexivity].
  destruct (get_attrib e "id") as [cid|]; [|reflexivity].
  destruct (get e "name") as [cn|]; [|reflexivity].
  destruct (Py.truthy cid && Py.truthy cn); reflexivity.
Qed.

Lemma fold_parse_class_nodup (l : list elem) (p : UMLParser) :
  List.NoDup (map fst (classes p)) ->
  List.NoDup (map fst (classes (fold_left parse_class l p))).
Proof.
  revert p. induction l as [|e l IH]; intros p H; [exact H|].
  cbn [fold_left]. apply IH. rewrite parse_class_stored.
  destruct (stored_name e); [apply dict_set_keys_nodup, H|exact H].
Qed.

Lemma fold_parse_class_keeps (l : list elem) (p : UMLParser) (cn : string) :
  (forall e', In e' l -> stored_name e' <> Some cn) ->
  dict_get cn (classes (fold_left parse_class l p)) = dict_get cn (classes p).
Proof.
  revert p. induction l as [|e l IH]; intros p H; [reflexivity|].
  cbn [fold_left]. rewrite IH by (intros e' He'; apply H; right; exact He').
  rewrite parse_class_stored.
  destruct (stored_name e) as [k|] eqn:E; [|reflexivity].
  apply dict_get_set_ne. intros ->. apply (H e); [left; reflexivity|exact E].
Qed.

Lemma fold_left_app_cons {A B} (f : A -> B -> A) (l1 : list B) (x : B)
  (l2 : list B) (a : A) :
  fold_left f (l1 ++ x :: l2) a = fold_left f l2 (f (fold_left f l1 a) x).
Proof. rewrite fold_left_app. reflexivity. Qed.

(** X1: in a parsed model no two classes have the same name, and when
    several class elements of the document share a name the rows kept under
    it are those of the last one in document order. *)
Theorem class_names_unique_last_wins (r : elem) (p : UMLParser) :
  parse_model r = Return p ->
  List.NoDup (map fst (classes p))
  /\ forall (pre post : list elem) (e : elem) (cn : string),
       iter r = pre ++ e :: post ->
       stored_name e = Some cn ->
       (forall e' : elem, In e' post -> stored_name e' <> Some cn) ->
       dict_get cn (classes p) = Some (ensure_id (read_attrs e)).
Proof.
  unfold parse_model, parse_associations. intros Hp.
  apply for_each_parse_association_keeps in Hp as (_ & Hc & _).
  rewrite Hc. unfold parse_classes. cbn [root]. split.
  - apply fold_parse_class_nodup. constructor.
  - intros pre post e cn Hl He Hpost. rewrite Hl, fold_left_app_cons.
    rewrite (fold_parse_class_keeps _ _ cn Hpost), parse_class_stored, He.
    apply dict_get_set_eq.
Qed.

Lemma class_names_unique_last_wins_witness :
  dict_get "Keyword" (classes (parser_of twice_model)) =
  Some [("id", "INT PRIMARY KEY"); ("stem", "VARCHAR(255)")].
Proof.
  refine (proj2 (class_names_unique_last_wins twice_model (parser_of twice_model) _)
            [ twice_model;
              sample_class "K1" "Keyword" [("word", "String")];
              Elem "ownedAttribute" [("name", "word"); ("type", "String")] [] ]
            [ Elem "ownedAttribute" [("name", "stem"); ("type", "String")] [] ]
            (sample_class "K2" "Keyword" [("stem", "String")]) "Keyword" _ _ _).
  - vm_compute. reflexivity.
  - vm_compute. reflexivity.
  - vm_compute. reflexivity.
  - intros e' [<- | []]. vm_compute. discriminate.
Defined.

Lemma dict_get_In_keys {V} (k : string) (d : list (string * V)) :
  is_Some (dict_get k d) -> In k (map fst d).
Proof.
  induction d as [|[k' w] d IH]; cbn [dict_get map fst In].
  - intros [? [=]].
  - destruct (String.eqb_spec k' k) as [->|_]; [left; reflexivity|].
    intros H. right. exact (IH H).
Qed.

Lemma resolve_known (p : UMLParser) (t : option string) (c : string) :
  names_known p -> resolve (class_ids p) t = Some c -> In c (map fst (classes p)).
Proof.
  intros Hk. unfold resolve. destruct t as [k|]; [|discriminate].
  destruct (class_ids p !! k) as [x|] eqn:E; [|discriminate].
  destruct (Py.truthy x); [|discriminate]. intros [= <-].
  apply dict_get_In_keys, (Hk k x E).
Qed.

(** X2: in a parsed model an association adds something only when both of
    its end types resolve to classes; the two class names are then names of
    created tables, and the statements are the join table of the two or an
    ALTER TABLE pair on one of them referencing the other.  An association
    with an end that does not resolve adds no statement and changes no
    table. *)
Theorem association_names_created_tables (r : elem) (p : UMLParser)
  (a : association) (tables : list elem) :
  parse_model r = Return p ->
  match resolve (class_ids p) (t1 a), resolve (class_ids p) (t2 a) with
  | Some c1, Some c2 =>
      In c1 (map fst (classes p)) /\ In c2 (map fst (classes p))
      /\ (assoc_sql (class_ids p) a = [join_table_sql c1 c2]
          \/ (exists col, assoc_sql (class_ids p) a = alter_sql c2 col c1)
          \/ (exists col, assoc_sql (class_ids p) a = alter_sql c1 col c2))
  | _, _ =>
      assoc_sql (class_ids p) a = []
      /\ assoc_xml (class_ids p) tables a = tables
  end.
Proof.
  intros Hp. pose proof (parse_model_names_known r p Hp) as Hk.
  unfold assoc_sql, assoc_xml.
  destruct (resolve (class_ids p) (t1 a)) as [c1|] eqn:E1; [|split; reflexivity].
  destruct (resolve (class_ids p) (t2 a)) as [c2|] eqn:E2; [|split; reflexivity].
  split; [exact (resolve_known p _ c1 Hk E1)|].
  split; [exact (resolve_known p _ c2 Hk E2)|].
  destruct (many_to_many (u1 a) (u2 a)); [left; reflexivity|right].
  destruct (one_to_many (u1 a) (u2 a)); [|right; eauto].
  destruct (u1 a =? 1); [left|right]; eauto.
Qed.

Lemma association_names_created_tables_witness :
  In "Author" (map fst (classes (parser_of (author_book "1" "*"))))
  /\ In "Book" (map fst (classes (parser_of (author_book "1" "*")))).
Proof.
  pose proof (association_names_created_tables (author_book "1" "*")
                (parser_of (author_book "1" "*")) (sample_assoc 1 (-1)) []) as H.
  assert (parse_model (author_book "1" "*") = Return (parser_of (author_book "1" "*")))
    as Hp by (vm_compute; reflexivity).
  specialize (H Hp).
  replace (resolve (class_ids (parser_of (author_book "1" "*"))) (t1 (sample_assoc 1 (-1))))
    with (Some "Author") in H by (vm_compute; reflexivity).
  replace (resolve (class_ids (parser_of (author_book "1" "*"))) (t2 (sample_assoc 1 (-1))))
    with (Some "Book") in H by (vm_compute; reflexivity).
  exact (conj (proj1 H) (proj1 (proj2 H))).
Defined.

Lemma parse_association_adds (p q : UMLParser) (e : elem) :
  parse_association p e = Return q ->
  exists new : list association,
    associations q = associations p ++ new
    /\ map (fun a => (t1 a, t2 a)) new
       = (if is_binary_assoc e then [end_types e] else [])
    /\ Forall assoc_in_range new.
Proof.
  unfold parse_association, is_binary_assoc, end_types.
  destruct (is_packaged e && is_type e "uml:Association"); cbn [andb];
    [|intros [= <-]; exists []; rewrite app_nil_r; auto].
  destruct (findall e "ownedEnd") as [|e1 [|e2 [|? ?]]];
    try (intros [= <-]; exists []; rewrite app_nil_r; auto).
  destruct (read_lower e1) as [l1|]; [|discriminate]. cbn [rbind].
  destruct (read_upper e1) as [v1|] eqn:U1; [|discriminate]. cbn [rbind].
  destruct (read_lower e2) as [l2|]; [|discriminate]. cbn [rbind].
  destruct (read_upper e2) as [v2|] eqn:U2; [|discriminate]. cbn [rbind].
  pose proof (read_upper_range _ _ U1) as Hv1.
  pose proof (read_upper_range _ _ U2) as Hv2.
  intros [= <-]. cbn [associations]. eexists. split; [reflexivity|].
  split; [reflexivity|]. constructor; [|constructor].
  unfold assoc_in_range. cbn.
  repeat split; try assumption; apply read_name_truthy; reflexivity.
Qed.

Lemma for_each_parse_association_adds (l : list elem) (p q : UMLParser) :
  for_each parse_association l p = Return q ->
  exists new : list association,
    associations q = associations p ++ new
    /\ map (fun a => (t1 a, t2 a)) new = map end_types (List.filter is_binary_assoc l)
    /\ Forall assoc_in_range new.
Proof.
  revert p. induction l as [|e l IH]; intros p; cbn [for_each].
  - intros [= <-]. exists []. rewrite app_nil_r. auto.
  - destruct (parse_association p e) as [p'|] eqn:E; [|discriminate].
    cbn [rbind]. intros H.
    destruct (parse_association_adds p p' e E) as (n1 & Ha1 & Ht1 & Hr1).
    destruct (IH p' H) as (n2 & Ha2 & Ht2 & Hr2).
    exists (n1 ++ n2). rewrite Ha2, Ha1, <- app_assoc. split; [reflexivity|].
    split; [|apply Forall_app; auto].
    rewrite map_app, Ht1, Ht2. cbn [List.filter].
    destruct (is_binary_assoc e); reflexivity.
Qed.

Lemma parse_classes_associations (p : UMLParser) :
  associations (parse_classes p) = associations p.
Proof.
  unfold parse_classes. generalize (iter (root p)). intros l. revert p.
  induction l as [|e l IH]; intros p; [reflexivity|].
  cbn [fold_left]. rewrite IH. unfold parse_class.
  destruct (is_packaged e && is_type e "uml:Class"); [|reflexivity].
  destruct (get_attrib e "id"); [|reflexivity].
  destruct (get e "name"); [|reflexivity].
  destruct (Py.truthy _ && Py.truthy _); reflexivity.
Qed.

(** X3: a parsed model has one association tuple for each association
    element with exactly two ends, in document order and with the types of
    its two ends; elements with another number of ends give none.  Every
    tuple has non-empty role names and upper bounds that are -1 or not
    negative. *)
Theorem associations_of_document (r : elem) (p : UMLParser) :
  parse_model r = Return p ->
  map (fun a => (t1 a, t2 a)) (associations p)
  = map end_types (List.filter is_binary_assoc (iter r))
  /\ Forall assoc_in_range (associations p).
Proof.
  unfold parse_model, parse_associations. intros Hp.
  apply for_each_parse_association_adds in Hp as (new & Ha & Ht & Hr).
  rewrite parse_classes_root in Ht. cbn [root] in Ht.
  rewrite Ha, parse_classes_associations. auto.
Qed.

Lemma associations_of_document_witness :
  map (fun a => (t1 a, t2 a)) (associations (parser_of (author_book "1" "*")))
  = [(Some "A", Some "B")].
Proof.
  refine (proj1 (associations_of_document (author_book "1" "*")
                   (parser_of (author_book "1" "*")) _)).
  vm_compute. reflexivity.
Defined.

(** ** Further properties of the schema markup *)

Lemma findall_SubElement (t x : elem) (name : string) :
  findall (SubElement t x) name =
  findall t name ++ (if String.eqb (tag x) name then [x] else []).
Proof.
  destruct t as [tg a cs]. unfold findall. cbn [SubElement children].
  rewrite List.filter_app. reflexivity.
Qed.

Lemma add_fk_Forall (Q : elem -> Prop) (tables : list elem)
  (n col ref : string) :
  Forall Q tables ->
  (forall t, is_table_named n t = true -> Q t ->
             Q (SubElement (SubElement t (fk_column col)) (foreign_key ref col))) ->
  Forall Q (add_fk tables n col ref).
Proof.
  intros H Hstep. induction H as [|t l Ht Hl IH]; cbn [add_fk]; [constructor|].
  destruct (is_table_named n t) eqn:E; constructor; auto.
Qed.

Lemma fold_left_keeps {A B} (P : A -> Prop) (f : A -> B -> A) (l : list B) (a : A) :
  P a -> (forall x b, P x -> P (f x b)) -> P (fold_left f l a).
Proof.
  intros Ha Hstep. revert a Ha. induction l as [|b l IH]; intros a Ha; [exact Ha|].
  cbn [fold_left]. apply IH, Hstep, Ha.
Qed.

(** The rows of a parsed class carry a plain SQL type, with or without the
    key marker. *)
Lemma ensure_id_types (attrs : attrs_t) :
  Forall (fun a => In (snd a) sql_types) attrs ->
  Forall (fun a => In (snd a) sql_types
                   \/ exists t, In t sql_types /\ snd a = t +:+ " PRIMARY KEY")
         (ensure_id attrs).
Proof.
  intros H. rewrite ensure_id_unfold. destruct (negb _).
  - constructor.
    + right. exists "INT". split; [right; right; left; reflexivity|reflexivity].
    + eapply Forall_impl; [exact H|]. intros a Ha. left. exact Ha.
  - induction H as [|[n t] l Ht _ IH]; cbn [map]; constructor; [|exact IH].
    cbn [mark_id]. destruct (is_id n && negb (has_pk_marker t)); cbn [snd]; eauto.
Qed.

Lemma column_of_attr_ok (n t : string) :
  In t sql_types \/ (exists t0, In t0 sql_types /\ t = t0 +:+ " PRIMARY KEY") ->
  col_ok (column_of_attr (n, t)) = true
  /\ tag (column_of_attr (n, t)) = "column"
  /\ get (column_of_attr (n, t)) "name" = Some n.
Proof.
  intros H. split; [|split; reflexivity].
  unfold sql_types, TYPE_MAPPING in H. cbn [map snd In] in H.
  destruct H as [H | (t0 & H & ->)];
    repeat (destruct H as [<- | H]; [vm_compute; reflexivity|]); destruct H.
Qed.

Lemma findall_columns_of_attrs (cn : string) (rows : attrs_t) :
  findall (table_of_class (cn, rows)) "column" = map column_of_attr rows
  /\ findall (table_of_class (cn, rows)) "foreignKey" = [].
Proof.
  unfold findall, table_of_class. cbn [children].
  induction rows as [|[n t] rows [IH1 IH2]]; [split; reflexivity|].
  cbn [map List.filter]. 
  replace (tag (column_of_attr (n, t))) with "column" by reflexivity.
  cbn [String.eqb Ascii.eqb Bool.eqb andb]. rewrite IH1, IH2. split; reflexivity.
Qed.

Lemma Forall_map_intro {A B} (f : A -> B) (P : B -> Prop) (l : list A) :
  Forall (fun x => P (f x)) l -> Forall P (map f l).
Proof. induction 1; cbn [map]; constructor; assumption. Qed.

Lemma class_tables_cols_ok (r : elem) (p : UMLParser) :
  parse_model r = Return p ->
  Forall (fun t => Forall (fun c => col_ok c = true) (findall t "column"))
         (map table_of_class (classes p)).
Proof.
  intros Hp. apply Forall_forall. intros t Ht.
  apply list_elem_of_In, in_map_iff in Ht as ([cn rows] & <- & Hin).
  destruct (parsed_class_rows r p cn rows Hp Hin) as (e & _ & ->).
  rewrite (proj1 (findall_columns_of_attrs _ _)).
  pose proof (ensure_id_types _ (read_attrs_types e)) as Hty.
  apply Forall_map_intro. eapply Forall_impl; [exact Hty|].
  intros [n t] Ha. apply column_of_attr_ok, Ha.
Qed.

Lemma generated_columns_ok (r : elem) (p : UMLParser) :
  parse_model r = Return p ->
  Forall (fun t => Forall (fun c => col_ok c = true) (findall t "column"))
         (children (generate_sql_xml p)).
Proof.
  intros Hp. unfold generate_sql_xml. cbn [children].
  apply fold_left_keeps; [exact (class_tables_cols_ok r p Hp)|].
  intros T a HT. unfold assoc_xml.
  destruct (resolve (class_ids p) (t1 a)) as [c1|]; [|exact HT].
  destruct (resolve (class_ids p) (t2 a)) as [c2|]; [|exact HT].
  destruct (many_to_many (u1 a) (u2 a)).
  - apply Forall_app. split; [exact HT|]. constructor; [|constructor].
    unfold findall, join_table_xml. cbn.
    constructor; [reflexivity|]. constructor; [reflexivity|constructor].
  - destruct (fk_placement _ _ _ _ _ _) as [[ft fc] rt].
    apply add_fk_Forall; [exact HT|]. intros t0 _ Ht0.
    rewrite !findall_SubElement. cbn. rewrite app_nil_r.
    apply Forall_app. split; [exact Ht0|]. constructor; [reflexivity|constructor].
Qed.

(** X4: in the schema markup of a parsed model every column element, of a
    class table or of a join table, has the attributes name, type,
    primaryKey and nullable, its type is one of the plain SQL types of the
    mapping (the key marker never stays in it), and exactly one of its two
    flags is "true": a primary-key column is not nullable and every other
    column is. *)
Theorem schema_columns_well_formed (r : elem) (p : UMLParser) (t c : elem) :
  parse_model r = Return p ->
  In t (children (generate_sql_xml p)) ->
  In c (findall t "column") ->
  col_ok c = true.
Proof.
  intros Hp Ht Hc. pose proof (generated_columns_ok r p Hp) as H.
  rewrite Forall_forall in H. specialize (H t (proj2 (list_elem_of_In _ _) Ht)).
  rewrite Forall_forall in H. apply H, list_elem_of_In, Hc.
Qed.

Lemma schema_columns_well_formed_witness :
  col_ok (Elem "column"
            [ ("name", "ref1_id"); ("type", "INT");
              ("primaryKey", "false"); ("nullable", "true") ] []) = true.
Proof.
  refine (schema_columns_well_formed (author_book "1" "*")
            (parser_of (author_book "1" "*"))
            (Elem "table" [("name", "Book")]
               [ Elem "column" [ ("name", "id"); ("type", "INT");
                                 ("primaryKey", "true"); ("nullable", "false") ] [];
                 Elem "column" [ ("name", "title"); ("type", "VARCHAR(255)");
                                 ("primaryKey", "false"); ("nullable", "true") ] [];
                 Elem "column" [ ("name", "ref1_id"); ("type", "INT");
                                 ("primaryKey", "false"); ("nullable", "true") ] [];
                 Elem "foreignKey" [("targetTable", "Author")]
                   [ Elem "reference"
                       [("localColumn", "ref1_id"); ("foreignColumn", "id")] [] ] ])
            _ _ _ _).
  - vm_compute. reflexivity.
  - vm_compute. right. left. reflexivity.
  - vm_compute. right. right. left. reflexivity.
Defined.

Lemma fk_ok_mono (T T' : list elem) (t t' fk : elem) :
  (forall n, has_table n T -> has_table n T') ->
  (forall c, has_column t c = true -> has_column t' c = true) ->
  fk_ok T t fk = true -> fk_ok T' t' fk = true.
Proof.
  intros HT Hc. unfold fk_ok.
  destruct fk as [tg [|[k target] [|? ?]] [|[tg' [|[k1 lc] [|[k2 fc] [|? ?]]] [|? ?]] [|? ?]]];
    try discriminate.
  intros H. repeat (apply andb_true_iff in H as [H ?]).
  repeat (apply andb_true_iff; split); try assumption.
  - apply (HT target). assumption.
  - apply Hc. assumption.
Qed.

Lemma has_column_grows (t x : elem) (c : string) :
  has_column t c = true -> has_column (SubElement t x) c = true.
Proof.
  unfold has_column. rewrite findall_SubElement, existsb_app.
  intros ->. reflexivity.
Qed.

Lemma fks_closed_weaken (T T' : list elem) :
  (forall n, has_table n T -> has_table n T') ->
  fks_closed T ->
  Forall (fun t => Forall (fun fk => fk_ok T' t fk = true) (findall t "foreignKey")) T.
Proof.
  intros HT H. eapply Forall_impl; [exact H|]. intros t Ht.
  eapply Forall_impl; [exact Ht|]. intros fk Hfk.
  exact (fk_ok_mono T T' t t fk HT (fun c Hc => Hc) Hfk).
Qed.

Lemma has_table_app (n : string) (T T' : list elem) :
  has_table n T -> has_table n (T ++ T').
Proof. unfold has_table. rewrite existsb_app. intros ->. reflexivity. Qed.

Lemma assoc_xml_fks_closed (p : UMLParser) (T : list elem) (a : association) :
  names_known p ->
  (forall c, In c (map fst (classes p)) -> has_table c T) ->
  fks_closed T -> fks_closed (assoc_xml (class_ids p) T a).
Proof.
  intros Hk Hcls HT. unfold assoc_xml.
  destruct (resolve (class_ids p) (t1 a)) as [c1|] eqn:E1; [|exact HT].
  destruct (resolve (class_ids p) (t2 a)) as [c2|] eqn:E2; [|exact HT].
  pose proof (Hcls c1 (resolve_known p _ c1 Hk E1)) as H1.
  pose proof (Hcls c2 (resolve_known p _ c2 Hk E2)) as H2.
  destruct (many_to_many (u1 a) (u2 a)).
  - unfold fks_closed. apply Forall_app. split.
    + apply (fks_closed_weaken T); [intros n; apply has_table_app|exact HT].
    + constructor; [|constructor].
      unfold findall, join_table_xml. cbn [children List.filter tag key_column foreign_key].
      cbn [String.eqb Ascii.eqb Bool.eqb andb].
      apply (has_table_app _ _ [join_table_xml c1 c2]) in H1, H2.
      unfold has_table in H1, H2.
      constructor; [|constructor; [|constructor]];
        unfold fk_ok, has_column, findall; cbn;
        fold (join_table_xml c1 c2); rewrite ?H1, ?H2, ?String.eqb_refl;
        cbn; rewrite ?orb_true_r; reflexivity.
  - assert (has_table (if one_to_many (u1 a) (u2 a)
                       then if u1 a =? 1 then c1 else c2 else c2) T) as Href.
    { destruct (one_to_many _ _); [destruct (u1 a =? 1)|]; assumption. }
    unfold fk_placement.
    set (ft := if one_to_many (u1 a) (u2 a)
               then if u1 a =? 1 then c2 else c1 else c1).
    set (rt := if one_to_many (u1 a) (u2 a)
               then if u1 a =? 1 then c1 else c2 else c2) in *.
    set (fc := if one_to_many (u1 a) (u2 a)
               then if u1 a =? 1 then fk_col_name (n1 a) c1 else fk_col_name (n2 a) c2
               else fk_col_name (n2 a) c2).
    replace (if one_to_many (u1 a) (u2 a)
             then if u1 a =? 1 then (c2, fk_col_name (n1 a) c1, c1)
                  else (c1, fk_col_name (n2 a) c2, c2)
             else (c1, fk_col_name (n2 a) c2, c2)) with (ft, fc, rt)
      by (subst ft fc rt; destruct (one_to_many _ _); [destruct (u1 a =? 1)|]; reflexivity).
    set (T' := add_fk T ft fc rt).
    assert (forall n, has_table n T -> has_table n T') as Hmono
      by (intros n; apply add_fk_has_table).
    unfold fks_closed. fold T'. apply add_fk_Forall.
    + apply fks_closed_weaken; assumption.
    + intros t _ Ht. rewrite !findall_SubElement. cbn. rewrite app_nil_r.
      apply Forall_app. split.
      * eapply Forall_impl; [exact Ht|]. intros fk Hfk.
        refine (fk_ok_mono T' T' t _ fk (fun n H => H) _ Hfk).
        intros c Hc. apply has_column_grows, has_column_grows, Hc.
      * constructor; [|constructor]. unfold fk_ok. cbn.
        pose proof (Hmono rt Href) as Hrt. unfold has_table in Hrt. rewrite Hrt.
        unfold has_column. rewrite !findall_SubElement. cbn.
        rewrite app_nil_r, existsb_app. cbn. rewrite String.eqb_refl.
        cbn. rewrite orb_true_r. reflexivity.
Qed.

(** X5: in the schema markup of a parsed model every foreignKey element
    has exactly one reference child, references the column "id" of a table
    that is in the database, and has as local column a column of the table
    it belongs to. *)
Theorem schema_foreign_keys_closed (r : elem) (p : UMLParser) (t fk : elem) :
  parse_model r = Return p ->
  In t (children (generate_sql_xml p)) ->
  In fk (findall t "foreignKey") ->
  fk_ok (children (generate_sql_xml p)) t fk = true.
Proof.
  intros Hp Ht Hfk. pose proof (parse_model_names_known r p Hp) as Hk.
  unfold generate_sql_xml in *. cbn [children] in *.
  assert ((forall c, In c (map fst (classes p)) ->
                     has_table c (fold_left (assoc_xml (class_ids p)) (associations p)
                                    (map table_of_class (classes p))))
          /\ fks_closed (fold_left (assoc_xml (class_ids p)) (associations p)
                           (map table_of_class (classes p)))) as [_ H].
  { apply (fold_left_keeps
             (fun T => (forall c, In c (map fst (classes p)) -> has_table c T)
                       /\ fks_closed T)).
    - split.
      + intros c Hc. apply class_tables_present.
        clear -Hc. induction (classes p) as [|[k v] l IH]; [destruct Hc|].
        cbn [map fst In dict_get] in *.
        destruct (String.eqb_spec k c); [eauto|].
        destruct Hc as [Hc | Hc]; [contradiction|auto].
      + apply Forall_forall. intros t0 Ht0.
        apply list_elem_of_In, in_map_iff in Ht0 as ([cn rows] & <- & _).
        rewrite (proj2 (findall_columns_of_attrs _ _)). constructor.
    - intros T a [Hc HT]. split.
      + intros c Hin. apply assoc_xml_has_table, Hc, Hin.
      + apply assoc_xml_fks_closed; assumption. }
  unfold fks_closed in H. rewrite Forall_forall in H.
  specialize (H t (proj2 (list_elem_of_In _ _) Ht)).
  rewrite Forall_forall in H. apply H, list_elem_of_In, Hfk.
Qed.

Lemma schema_foreign_keys_closed_witness :
  fk_ok (children (generate_sql_xml (parser_of (author_book "1" "*"))))
    (Elem "table" [("name", "Book")]
       [ Elem "column" [ ("name", "id"); ("type", "INT");
                         ("primaryKey", "true"); ("nullable", "false") ] [];
         Elem "column" [ ("name", "title"); ("type", "VARCHAR(255)");
                         ("primaryKey", "false"); ("nullable", "true") ] [];
         Elem "column" [ ("name", "ref1_id"); ("type", "INT");
                         ("primaryKey", "false"); ("nullable", "true") ] [];
         Elem "foreignKey" [("targetTable", "Author")]
           [ Elem "reference"
               [("localColumn", "ref1_id"); ("foreignColumn", "id")] [] ] ])
    (Elem "foreignKey" [("targetTable", "Author")]
       [ Elem "reference" [("localColumn", "ref1_id"); ("foreignColumn", "id")] [] ])
  = true.
Proof.
  refine (schema_foreign_keys_closed (author_book "1" "*")
            (parser_of (author_book "1" "*")) _ _ _ _ _).
  - vm_compute. reflexivity.
  - vm_compute. right. left. reflexivity.
  - vm_compute. left. reflexivity.
Defined.

(** ** Further properties of the reader of schema markup *)

Lemma uml_of_sql_xml_tree (fromstring : string -> option elem) (txt : string) :
  uml_of_sql_xml fromstring txt =
  match fromstring txt with
  | Some root => uml_of_schema root
  | None => Raise ParseError
  end.
Proof. reflexivity. Qed.

Lemma ok_rbind {A B} (m : result A) (k : A -> result B) :
  ok (rbind m k) = match m with Return a => ok (k a) | Raise _ => false end.
Proof. destruct m; reflexivity. Qed.

Lemma ok_collect {A B} (f : A -> result B) (l : list A) :
  ok (collect f l) = forallb (fun x => ok (f x)) l.
Proof.
  induction l as [|x l IH]; [reflexivity|]. cbn [collect forallb].
  destruct (f x) as [y|]; cbn [rbind ok andb]; [|reflexivity].
  rewrite <- IH. destruct (collect f l); reflexivity.
Qed.

Lemma ok_for_each {A S} (body : S -> A -> result S) (g : A -> bool) (l : list A) :
  (forall s x, ok (body s x) = g x) ->
  forall s, ok (for_each body l s) = forallb g l.
Proof.
  intros H. induction l as [|x l IH]; intros s; [reflexivity|].
  cbn [for_each forallb]. rewrite <- (H s x).
  destruct (body s x) as [s'|]; cbn [rbind ok andb]; [apply IH|reflexivity].
Qed.

Lemma forallb_eq {A} (f g : A -> bool) (l : list A) :
  (forall x, f x = g x) -> forallb f l = forallb g l.
Proof.
  intros H. induction l as [|x l IH]; [reflexivity|].
  cbn [forallb]. rewrite H, IH. reflexivity.
Qed.

Lemma ok_written (t : string) (a : list (string * option string)) (cs : list draft) :
  ok (written (Elem t a cs)) =
  forallb (fun kv => is_Some_b (snd kv)) a && forallb (fun c => ok (written c)) cs.
Proof.
  cbn [written]. 
  assert (ok (written_attrib a) = forallb (fun kv => is_Some_b (snd kv)) a) as Ha.
  { unfold written_attrib. rewrite ok_collect. apply forallb_eq.
    intros [k [v|]]; reflexivity. }
  rewrite <- Ha. destruct (written_attrib a) as [a'|]; cbn [rbind ok andb]; [|reflexivity].
  induction cs as [|c cs IH]; [reflexivity|].
  cbn [forallb]. destruct (written c) as [c'|]; cbn [rbind ok andb]; [|reflexivity].
  revert IH.
  match goal with
  | |- context [rbind ?g _] => destruct g; cbn [rbind ok]; intros IH; exact IH
  end.
Qed.

Lemma attr_of_column_reads (cid : string) (col : elem) (a : draft) :
  attr_of_column cid col = Return a -> attr_reads col a.
Proof.
  unfold attr_of_column, attr_reads.
  destruct (get col "type") as [ty|]; [|discriminate].
  intros [= <-]. rewrite ok_written.
  cbn [tag children get attrib dict_get String.eqb Ascii.eqb Bool.eqb forallb snd
       is_Some_b andb fmap option_fmap option_map].
  destruct (get col "name"); repeat split; reflexivity.
Qed.

Lemma ok_attr_of_column (cid : string) (col : elem) :
  ok (attr_of_column cid col) = is_Some_b (get col "type").
Proof. unfold attr_of_column. destruct (get col "type"); reflexivity. Qed.

Lemma collect_Forall2 {A B} (f : A -> result B) (R : A -> B -> Prop)
  (l : list A) (ys : list B) :
  (forall x y, f x = Return y -> R x y) ->
  collect f l = Return ys -> Forall2 R l ys.
Proof.
  intros H. revert ys. induction l as [|x l IH]; intros ys; cbn [collect].
  - intros [= <-]. constructor.
  - destruct (f x) as [y|] eqn:E; [|discriminate]. cbn [rbind].
    destruct (collect f l) as [ys'|]; [|discriminate]. cbn [rbind].
    intros [= <-]. constructor; auto.
Qed.

Lemma attrs_written (cols : list elem) (attrs : list draft) :
  Forall2 attr_reads cols attrs ->
  forallb (fun c => ok (written c)) attrs
  = forallb (fun col => is_Some_b (get col "name")) cols.
Proof.
  induction 1 as [|col a cols attrs Ha _ IH]; [reflexivity|].
  cbn [forallb]. rewrite IH. destruct Ha as (_ & _ & _ & _ & ->). reflexivity.
Qed.

Lemma class_of_table_reads (b b' : uml_build (option string) (option string))
  (k k' : nat) (t : elem) :
  class_of_table (b, k) t = Return (b', k') ->
  exists c : draft,
    members b' = members b ++ [c] /\ class_reads t c
    /\ class_map b' = <[get t "name" := "class_" +:+ str_nat k]> (class_map b)
    /\ k' = S k.
Proof.
  unfold class_of_table.
  destruct (collect _ (findall t "column")) as [attrs|] eqn:E; [|discriminate].
  cbn [rbind]. intros [= <- <-]. eexists. split; [reflexivity|].
  split; [|split; reflexivity].
  pose proof (collect_Forall2 _ attr_reads _ _ (attr_of_column_reads _) E) as HF.
  unfold class_reads. rewrite ok_written, (attrs_written _ _ HF).
  cbn. destruct (get t "name"); auto.
Qed.

Lemma ok_class_of_table (st : uml_build (option string) (option string) * nat)
  (t : elem) :
  ok (class_of_table st t)
  = forallb (fun c => is_Some_b (get c "type")) (findall t "column").
Proof.
  destruct st as [b k]. unfold class_of_table. rewrite ok_rbind.
  rewrite <- (forallb_eq _ _ _ (ok_attr_of_column ("class_" +:+ str_nat k))).
  rewrite <- ok_collect. destruct (collect _ _); reflexivity.
Qed.

Lemma first_pass_reads (tables : list elem)
  (st st' : uml_build (option string) (option string) * nat) :
  for_each class_of_table tables st = Return st' ->
  exists new : list draft,
    members (fst st') = members (fst st) ++ new
    /\ Forall2 class_reads tables new
    /\ (forallb (fun t => is_Some_b (get t "name")) tables = true ->
        class_map (fst st') !! None = class_map (fst st) !! None).
Proof.
  revert st. induction tables as [|t tables IH]; intros st; cbn [for_each].
  - intros [= <-]. exists []. rewrite app_nil_r.
    split; [reflexivity|]. split; [constructor|reflexivity].
  - destruct (class_of_table st t) as [[b1 k1]|] eqn:E; [|discriminate].
    cbn [rbind]. intros H. destruct st as [b k].
    destruct (class_of_table_reads b b1 k k1 t E) as (c & Hm & Hc & Hmap & _).
    destruct (IH _ H) as (new & Hm' & Hnew & Hnone).
    exists (c :: new). cbn [fst] in *. rewrite Hm', Hm, <- app_assoc.
    split; [reflexivity|]. split; [constructor; assumption|].
    cbn [forallb]. intros Hn. apply andb_true_iff in Hn as [Hn1 Hn2].
    rewrite (Hnone Hn2), Hmap. destruct (get t "name"); [|discriminate].
    apply lookup_insert_ne. discriminate.
Qed.

Lemma assoc_of_fk_adds (m : gmap (option string) string) (tn : option string)
  (st st' : list draft * nat) (fk : elem) :
  assoc_of_fk m tn st fk = Return st' ->
  exists extra : list draft, fst st' = fst st ++ extra /\ Forall assoc_reads extra.
Proof.
  destruct st as [model n]. unfold assoc_of_fk.
  destruct (lookup_truthy m tn) as [sid|];
    [|intros [= <-]; exists []; rewrite app_nil_r; auto].
  destruct (lookup_truthy m (get fk "targetTable")) as [tid|];
    [|intros [= <-]; exists []; rewrite app_nil_r; auto].
  destruct (find fk "reference").
  - unfold ends_xml, lower_opt.
    destruct (get fk "targetTable"); [|discriminate].
    destruct tn; [|discriminate]. cbn [rbind]. intros [= <-].
    eexists. split; [reflexivity|]. constructor; [|constructor].
    unfold assoc_reads. rewrite ok_written. cbn. repeat split.
  - cbn [rbind]. intros [= <-]. eexists. split; [reflexivity|].
    constructor; [|constructor]. unfold assoc_reads. rewrite ok_written. cbn.
    repeat split.
Qed.

Lemma ok_assoc_of_fk (m : gmap (option string) string) (tn : string)
  (st : list draft * nat) (fk : elem) :
  m !! None = None -> ok (assoc_of_fk m (Some tn) st fk) = true.
Proof.
  intros Hm. destruct st as [model n]. unfold assoc_of_fk.
  destruct (lookup_truthy m (Some tn)); [|reflexivity].
  destruct (get fk "targetTable") as [tt|].
  - destruct (lookup_truthy m (Some tt)); [|reflexivity].
    destruct (find fk "reference"); reflexivity.
  - unfold lookup_truthy. rewrite Hm. reflexivity.
Qed.

Lemma for_each_adds {A} (body : list draft * nat -> A -> result (list draft * nat))
  (l : list A) :
  (forall st x st', body st x = Return st' ->
     exists extra, fst st' = fst st ++ extra /\ Forall assoc_reads extra) ->
  forall st st', for_each body l st = Return st' ->
     exists extra, fst st' = fst st ++ extra /\ Forall assoc_reads extra.
Proof.
  intros Hb. induction l as [|x l IH]; intros st st'; cbn [for_each].
  - intros [= <-]. exists []. rewrite app_nil_r. auto.
  - destruct (body st x) as [s1|] eqn:E; [|discriminate]. cbn [rbind]. intros H.
    destruct (Hb _ _ _ E) as (e1 & H1 & F1). destruct (IH _ _ H) as (e2 & H2 & F2).
    exists (e1 ++ e2). rewrite H2, H1, <- app_assoc. split; [reflexivity|].
    apply Forall_app. auto.
Qed.

Lemma second_pass_adds (m : gmap (option string) string) (tables : list elem)
  (st st' : list draft * nat) :
  for_each (assocs_of_table m) tables st = Return st' ->
  exists extra : list draft, fst st' = fst st ++ extra /\ Forall assoc_reads extra.
Proof.
  apply for_each_adds. intros s t s'. unfold assocs_of_table.
  apply for_each_adds. intros s0 fk s0'. apply assoc_of_fk_adds.
Qed.

Lemma ok_second_pass (m : gmap (option string) string) (tables : list elem)
  (st : list draft * nat) :
  m !! None = None ->
  forallb (fun t => is_Some_b (get t "name")) tables = true ->
  ok (for_each (assocs_of_table m) tables st) = true.
Proof.
  intros Hm. revert st. induction tables as [|t tables IH]; intros st; [reflexivity|].
  cbn [forallb for_each]. intros H. apply andb_true_iff in H as [Ht Hts].
  destruct (get t "name") as [tn|] eqn:E; [|discriminate].
  assert (ok (assocs_of_table m st t) = true) as Hok.
  { unfold assocs_of_table. rewrite E.
    rewrite (ok_for_each _ (fun _ => true)); [|intros; apply ok_assoc_of_fk, Hm].
    induction (findall t "foreignKey"); [reflexivity|assumption]. }
  destruct (assocs_of_table m st t); [|discriminate]. cbn [rbind]. apply IH, Hts.
Qed.

Lemma forallb_andb {A} (f g : A -> bool) (l : list A) :
  forallb (fun x => f x && g x) l = forallb f l && forallb g l.
Proof.
  induction l as [|x l IH]; [reflexivity|]. cbn [forallb]. rewrite IH.
  destruct (f x), (g x), (forallb f l), (forallb g l); reflexivity.
Qed.

Lemma schema_readable_split (root : elem) :
  schema_readable root =
  forallb (fun t => forallb (fun c => is_Some_b (get c "type")) (findall t "column"))
          (findall root "table")
  && (forallb (fun t => is_Some_b (get t "name")) (findall root "table")
      && forallb (fun t => forallb (fun c => is_Some_b (get c "name"))
                                   (findall t "column"))
                 (findall root "table")).
Proof.
  unfold schema_readable. rewrite <- !forallb_andb. apply forallb_eq. intros t.
  unfold table_readable, column_readable. rewrite forallb_andb.
  destruct (is_Some_b (get t "name")), (forallb _ (findall t "column")),
    (forallb _ (findall t "column")); reflexivity.
Qed.

Lemma classes_written (tables : list elem) (new : list draft) :
  Forall2 class_reads tables new ->
  forallb (fun c => ok (written c)) new =
  forallb (fun t => is_Some_b (get t "name")) tables
  && forallb (fun t => forallb (fun c => is_Some_b (get c "name")) (findall t "column"))
             tables.
Proof.
  induction 1 as [|t c tables new Hc _ IH]; [reflexivity|].
  cbn [forallb]. rewrite IH. destruct Hc as (_ & _ & _ & _ & ->).
  destruct (is_Some_b (get t "name")), (forallb _ (findall t "column")),
    (forallb _ tables), (forallb _ tables); reflexivity.
Qed.

Lemma assocs_written (extra : list draft) :
  Forall assoc_reads extra -> forallb (fun c => ok (written c)) extra = true.
Proof.
  induction 1 as [|a l Ha _ IH]; [reflexivity|].
  cbn [forallb]. rewrite IH. destruct Ha as (_ & _ & ->). reflexivity.
Qed.

(** The reader of a schema tree, followed by the writing out, succeeds
    exactly on the readable schemas. *)
Lemma ok_uml_of_schema (root : elem) :
  ok (let* model := uml_of_schema root in written model) = schema_readable root.
Proof.
  rewrite schema_readable_split. unfold uml_of_schema. cbv zeta.
  set (tables := findall root "table").
  rewrite <- (ok_for_each class_of_table _ tables ok_class_of_table
                (Build [] empty, 1%nat)).
  destruct (for_each class_of_table tables _) as [st1|] eqn:E1; [|reflexivity].
  cbn [rbind ok andb].
  destruct (first_pass_reads _ _ _ E1) as (new & Hm & Hnew & Hnone).
  cbn [fst members class_map app] in Hm, Hnone. rewrite lookup_empty in Hnone.
  rewrite <- (classes_written _ _ Hnew).
  destruct (for_each (assocs_of_table (class_map (fst st1))) tables
              (members (fst st1), 1%nat)) as [st2|] eqn:E2.
  - cbn [rbind]. destruct (second_pass_adds _ _ _ _ E2) as (extra & He & Hx).
    cbn [fst] in He. rewrite ok_written, He, Hm, forallb_app, (assocs_written _ Hx).
    rewrite andb_true_r. reflexivity.
  - cbn [rbind ok]. symmetry. apply not_true_is_false. intros Hw.
    rewrite (classes_written _ _ Hnew) in Hw. apply andb_true_iff in Hw as [Hn _].
    pose proof (ok_second_pass (class_map (fst st1)) tables (members (fst st1), 1%nat)
                  (Hnone Hn) Hn) as Hok.
    rewrite E2 in Hok. discriminate.
Qed.

(** X6: the conversion of schema markup to exchange markup succeeds
    exactly when the text is read as a tree in which every table has a name
    and every column a name and a type; in every other case it raises and
    gives no text. *)
Theorem schema_reader_succeeds_iff (fromstring : string -> option elem)
  (toprettyxml : elem -> string) (txt : string) :
  ok (generate_uml_from_sql_xml fromstring toprettyxml txt) = true
  <-> exists root : elem, fromstring txt = Some root /\ schema_readable root = true.
Proof.
  unfold generate_uml_from_sql_xml. rewrite uml_of_sql_xml_tree.
  destruct (fromstring txt) as [root|].
  - pose proof (ok_uml_of_schema root) as H.
    destruct (uml_of_schema root) as [model|]; cbn [rbind ok] in *.
    + destruct (written model); cbn [rbind ok] in *.
      * split; [intros _; exists root; auto|reflexivity].
      * split; [discriminate|].
        intros (r0 & [= <-] & Hr). rewrite Hr in H. discriminate.
    + split; [discriminate|].
      intros (r0 & [= <-] & Hr). rewrite Hr in H. discriminate.
  - cbn [rbind ok]. split; [discriminate|intros (? & [=] & _)].
Qed.

Lemma library_schema_is_read :
  ok (generate_uml_from_sql_xml Reader.fromstring Reader.tags library_schema_text) = true
  /\ ok (generate_uml_from_sql_xml Reader.fromstring Reader.tags
           "<database><table name='t'><column name='n'/></table></database>") = false.
Proof. split; vm_compute; reflexivity. Qed.

Lemma uml_of_schema_shape (root : elem) (model : draft) :
  uml_of_schema root = Return model ->
  exists cls assocs : list draft,
    model = Elem "uml:Model" (map (fun '(k, v) => (k, Some v)) model_attrib)
              (cls ++ assocs)
    /\ Forall2 class_reads (findall root "table") cls
    /\ Forall assoc_reads assocs.
Proof.
  unfold uml_of_schema. cbv zeta.
  destruct (for_each class_of_table _ _) as [st1|] eqn:E1; [|discriminate].
  cbn [rbind].
  destruct (for_each (assocs_of_table _) _ _) as [st2|] eqn:E2; [|discriminate].
  cbn [rbind]. intros [= <-].
  destruct (first_pass_reads _ _ _ E1) as (new & Hm & Hnew & _).
  destruct (second_pass_adds _ _ _ _ E2) as (extra & He & Hx).
  cbn [fst members app] in Hm, He. exists new, extra.
  rewrite He, Hm. auto.
Qed.

(** X7: when the conversion of schema markup builds a class model, the
    model starts with one class per table, in document order and with the
    name of the table, whose attributes are the columns of the table in
    order, each with the name of the column and the type its SQL type is
    classified as; every element after the classes is an association. *)
Theorem schema_classes_read (fromstring : string -> option elem) (txt : string)
  (model : draft) :
  uml_of_sql_xml fromstring txt = Return model ->
  exists (root : elem) (cls assocs : list draft),
    fromstring txt = Some root
    /\ model = Elem "uml:Model" (map (fun '(k, v) => (k, Some v)) model_attrib)
                 (cls ++ assocs)
    /\ Forall2 class_reads (findall root "table") cls
    /\ Forall assoc_reads assocs.
Proof.
  rewrite uml_of_sql_xml_tree. destruct (fromstring txt) as [root|]; [|discriminate].
  intros H. destruct (uml_of_schema_shape root model H) as (cls & assocs & Hs).
  exists root, cls, assocs. split; [reflexivity|exact Hs].
Qed.

Lemma schema_classes_read_witness :
  exists (root : elem) (cls assocs : list draft),
    Reader.fromstring library_schema_text = Some root
    /\ model_of_text library_schema_text =
       Elem "uml:Model" (map (fun '(k, v) => (k, Some v)) model_attrib) (cls ++ assocs)
    /\ Forall2 class_reads (findall root "table") cls
    /\ Forall assoc_reads assocs.
Proof.
  apply (schema_classes_read Reader.fromstring library_schema_text
           (model_of_text library_schema_text)).
  vm_compute. reflexivity.
Defined.

(** ** The schema markup of a model, read back *)

Lemma tag_name_SubElement (t x : elem) : tag_name (SubElement t x) = tag_name t.
Proof. destruct t. reflexivity. Qed.

Lemma add_fk_tag_names (T : list elem) (n c r : string) :
  map tag_name (add_fk T n c r) = map tag_name T.
Proof.
  induction T as [|t T IH]; [reflexivity|]. cbn [add_fk].
  destruct (is_table_named n t); cbn [map]; [|rewrite IH; reflexivity].
  rewrite !tag_name_SubElement. reflexivity.
Qed.

Lemma fold_assoc_xml_tag_names (ids : gmap string string) (l : list association)
  (T : list elem) :
  map tag_name (fold_left (assoc_xml ids) l T) =
  map tag_name T ++ map (fun n => ("table", Some n)) (join_table_names ids l).
Proof.
  revert T. induction l as [|a l IH]; intros T; cbn [fold_left join_table_names flat_map].
  - rewrite app_nil_r. reflexivity.
  - rewrite IH. fold (join_table_names ids l). unfold assoc_xml.
    destruct (resolve ids (t1 a)) as [c1|]; [|reflexivity].
    destruct (resolve ids (t2 a)) as [c2|]; [|reflexivity].
    destruct (many_to_many (u1 a) (u2 a)).
    + rewrite map_app, <- app_assoc. reflexivity.
    + destruct (fk_placement _ _ _ _ _ _) as [[ft fc] rt].
      rewrite add_fk_tag_names. reflexivity.
Qed.

Lemma generated_tag_names (p : UMLParser) :
  map tag_name (children (generate_sql_xml p)) =
  map (fun n => ("table", Some n))
      (map fst (classes p) ++ join_table_names (class_ids p) (associations p)).
Proof.
  unfold generate_sql_xml. cbn [children]. rewrite fold_assoc_xml_tag_names, map_app.
  f_equal. rewrite !map_map. apply map_ext. intros [cn rows]. reflexivity.
Qed.

Lemma findall_all_tagged (T : list elem) (names : list string) (tg : string) :
  map tag_name T = map (fun n => (tg, Some n)) names ->
  List.filter (fun c => String.eqb (tag c) tg) T = T.
Proof.
  revert names. induction T as [|t T IH]; intros [|n names]; try discriminate;
    [reflexivity|].
  cbn [map List.filter]. intros [= Ht _ Hrest]. rewrite Ht, String.eqb_refl.
  rewrite (IH names Hrest). reflexivity.
Qed.

Lemma col_ok_readable (c : elem) : col_ok c = true -> column_readable c = true.
Proof.
  unfold col_ok, column_readable.
  destruct c as [tg [|[k1 v1] [|[k2 v2] [|[k3 v3] [|[k4 v4] [|? ?]]]]] [|? ?]];
    try discriminate.
  intros H. repeat (apply andb_true_iff in H as [H ?]).
  apply String.eqb_eq in H as ->.
  match goal with H : String.eqb k2 "type" = true |- _ => apply String.eqb_eq in H as -> end.
  reflexivity.
Qed.

Lemma generated_schema_readable (r : elem) (p : UMLParser) :
  parse_model r = Return p ->
  findall (generate_sql_xml p) "table" = children (generate_sql_xml p)
  /\ schema_readable (generate_sql_xml p) = true.
Proof.
  intros Hp. pose proof (generated_tag_names p) as Hn.
  assert (findall (generate_sql_xml p) "table" = children (generate_sql_xml p)) as Hf
    by (unfold findall; exact (findall_all_tagged _ _ _ Hn)).
  split; [exact Hf|]. unfold schema_readable. rewrite Hf.
  pose proof (generated_columns_ok r p Hp) as Hc.
  revert Hn Hc. generalize (children (generate_sql_xml p)).
  generalize (map fst (classes p) ++ join_table_names (class_ids p) (associations p)).
  intros names T. revert names.
  induction T as [|t T IH]; intros [|n names]; try discriminate; [reflexivity|].
  cbn [map forallb]. intros [= _ Hname Hrest] Hc.
  inversion Hc as [|? ? Ht HT]; subst. rewrite (IH names Hrest HT), andb_true_r.
  unfold table_readable. rewrite Hname. cbn [is_Some_b andb].
  clear -Ht. induction Ht as [|c l Hcok _ IH]; [reflexivity|].
  cbn [forallb]. rewrite (col_ok_readable c Hcok), IH. reflexivity.
Qed.

Lemma classes_names (tables : list elem) (cls : list draft) :
  Forall2 class_reads tables cls ->
  map (fun c => get c "name") cls = map (fun t => Some (get t "name")) tables.
Proof.
  induction 1 as [|t c tables cls Hc _ IH]; [reflexivity|].
  cbn [map]. rewrite IH. destruct Hc as (_ & _ & -> & _). reflexivity.
Qed.

(** X8: the schema markup written for a parsed model is always read back:
    when the reader returns its tree, the conversion to exchange markup
    succeeds, and the classes it builds are, in order, the classes of the
    model followed by the join tables of its many-to-many associations,
    under the same names. *)
Theorem generated_schema_reads_back (fromstring : string -> option elem)
  (toprettyxml : elem -> string) (r : elem) (p : UMLParser) (txt : string) :
  parse_model r = Return p ->
  fromstring txt = Some (generate_sql_xml p) ->
  ok (generate_uml_from_sql_xml fromstring toprettyxml txt) = true
  /\ exists cls assocs : list draft,
       uml_of_sql_xml fromstring txt =
         Return (Elem "uml:Model" (map (fun '(k, v) => (k, Some v)) model_attrib)
                   (cls ++ assocs))
       /\ map (fun c => get c "name") cls =
          map (fun n => Some (Some n))
              (map fst (classes p)
               ++ join_table_names (class_ids p) (associations p))
       /\ Forall assoc_reads assocs.
Proof.
  intros Hp Hr. destruct (generated_schema_readable r p Hp) as [Hf Hsr].
  pose proof (ok_uml_of_schema (generate_sql_xml p)) as Hok. rewrite Hsr in Hok.
  unfold generate_uml_from_sql_xml. rewrite uml_of_sql_xml_tree, Hr.
  destruct (uml_of_schema (generate_sql_xml p)) as [model|] eqn:E;
    cbn [rbind ok] in Hok |- *; [|discriminate].
  split; [destruct (written model); [reflexivity|discriminate]|].
  destruct (uml_of_schema_shape _ _ E) as (cls & assocs & -> & Hcls & Hx).
  exists cls, assocs. split; [reflexivity|]. split; [|exact Hx].
  rewrite (classes_names _ _ Hcls), Hf.
  pose proof (generated_tag_names p) as Hn.
  revert Hn. generalize (children (generate_sql_xml p)).
  generalize (map fst (classes p) ++ join_table_names (class_ids p) (associations p)).
  intros names T. revert names.
  induction T as [|t T IH]; intros [|n names]; try discriminate; [reflexivity|].
  cbn [map]. intros [= _ Hname Hrest]. rewrite Hname, (IH names Hrest). reflexivity.
Qed.

Lemma generated_schema_reads_back_witness :
  ok (generate_uml_from_sql_xml Reader.fromstring Reader.tags keyword_schema_text) = true.
Proof.
  refine (proj1 (generated_schema_reads_back Reader.fromstring Reader.tags
                   keyword_model (parser_of keyword_model) keyword_schema_text _ _)).
  - vm_compute. reflexivity.
  - vm_compute. reflexivity.
Defined.

(** ** Column definitions with parentheses that are not nested *)

Lemma shallow_closes (r : string) :
  (shallow 0 r = true -> closes_first r = false)
  /\ (shallow 1 r = true -> closes_first r = true).
Proof.
  induction r as [|c r [IH0 IH1]]; [split; [reflexivity|discriminate]|].
  cbn [shallow closes_first].
  destruct (Ascii.eqb c "(") eqn:Eo.
  - apply Ascii.eqb_eq in Eo as ->. cbn. split; [reflexivity|discriminate].
  - destruct (Ascii.eqb c ")"); cbn; [split; [discriminate|reflexivity]|].
    split; assumption.
Qed.

Lemma shallow_deep (d : nat) (s : string) : shallow (S (S d)) s = false.
Proof.
  induction s as [|c r IH]; [reflexivity|]. cbn [shallow].
  destruct (Ascii.eqb c "("); [reflexivity|].
  destruct (Ascii.eqb c ")"); [reflexivity|exact IH].
Qed.

Lemma shallow_lstrip (d : nat) (s : string) :
  shallow d (Py.lstrip_by Py.is_space_char s) = shallow d s.
Proof.
  induction s as [|c r IH]; [reflexivity|]. cbn [Py.lstrip_by].
  destruct (Py.is_space_char c) eqn:E; [|reflexivity].
  rewrite IH. cbn [shallow].
  destruct (Ascii.eqb_spec c "(") as [->|_]; [discriminate E|].
  destruct (Ascii.eqb_spec c ")") as [->|_]; [discriminate E|]. reflexivity.
Qed.

Lemma top_level_split_skipping (d : nat) (s : string) :
  top_level_split d true s = top_level_split d false (Py.lstrip_by Py.is_space_char s).
Proof.
  induction s as [|c r IH]; [reflexivity|].
  cbn [Py.lstrip_by top_level_split].
  destruct (Py.is_space_char c); cbn [andb]; [exact IH|reflexivity].
Qed.

Lemma split_go_shallow (fuel : nat) :
  forall (s : string) (d : nat),
    (String.length s <= fuel)%nat -> shallow d s = true ->
    Re.split_go false col_sep_re fuel s = top_level_split d false s.
Proof.
  induction fuel as [|f IH]; intros s d Hlen Hsh.
  - destruct s; [reflexivity|cbn in Hlen; lia].
  - destruct s as [|c r]; [reflexivity|].
    assert (String.length r <= f)%nat as Hr by (cbn in Hlen; lia).
    rewrite col_split_step. cbn [separator_at top_level_split andb].
    cbn [shallow] in Hsh.
    destruct (Ascii.eqb_spec c ",") as [->|Hc].
    + cbn [Ascii.eqb Bool.eqb andb] in Hsh. cbn [andb].
      destruct d as [|[|d]]; [| |rewrite shallow_deep in Hsh; discriminate].
      * rewrite (proj1 (shallow_closes r) Hsh). cbn [negb Nat.eqb].
        rewrite top_level_split_skipping. f_equal. apply IH.
        -- pose proof (lstrip_length Py.is_space_char r). lia.
        -- rewrite shallow_lstrip. exact Hsh.
      * rewrite (proj2 (shallow_closes r) Hsh). cbn [negb Nat.eqb].
        f_equal. apply IH; assumption.
    + cbn [andb]. f_equal. apply IH; [exact Hr|]. unfold depth_after.
      destruct (Ascii.eqb c "(").
      * apply andb_true_iff in Hsh as [Hd Hsh]. apply Nat.eqb_eq in Hd as ->. exact Hsh.
      * destruct (Ascii.eqb c ")"); [|exact Hsh].
        apply andb_true_iff in Hsh as [Hd Hsh]. apply Nat.eqb_eq in Hd as ->. exact Hsh.
Qed.

(** X9: on a body whose parentheses are closed and not nested, the
    splitting pattern of the script reader splits exactly at the commas
    outside parentheses, and drops the whitespace after each of them. *)
Theorem shallow_body_split (s : string) :
  shallow 0 s = true ->
  Re.split false col_sep_re s = top_level_split 0 false s.
Proof. intros H. apply split_go_shallow; [lia|exact H]. Qed.

Lemma shallow_body_split_witness :
  Re.split false col_sep_re "`p` DECIMAL(10,2),  `q` INT"
  = [ "`p` DECIMAL(10,2)"; "`q` INT" ].
Proof.
  refine (eq_trans (shallow_body_split "`p` DECIMAL(10,2),  `q` INT" _) _).
  - vm_compute. reflexivity.
  - vm_compute. reflexivity.
Defined.

(** ** The foreign-key statements of the script, read back *)

Lemma length_app (a b : string) :
  String.length (a +:+ b) = (String.length a + String.length b)%nat.
Proof. induction a as [|c a IH]; [reflexivity|]. rewrite app_cons. cbn. rewrite IH. reflexivity. Qed.

Lemma substring_app (w rest : string) :
  String.substring 0 (String.length w) (w +:+ rest) = w.
Proof.
  induction w as [|c w IH]; [destruct rest; reflexivity|].
  rewrite app_cons. cbn. rewrite IH. reflexivity.
Qed.

Lemma consumed_app (w rest : string) : Re.consumed (w +:+ rest) rest = w.
Proof.
  unfold Re.consumed. rewrite length_app.
  replace (String.length w + String.length rest - String.length rest)%nat
    with (String.length w) by lia.
  apply substring_app.
Qed.

Lemma ltb_length_tail (c : ascii) (s : string) :
  Nat.ltb (String.length s) (String.length (String c s)) = true.
Proof. apply Nat.ltb_lt. cbn. lia. Qed.

Lemma run_cls (ic : bool) (f : ascii -> bool) (s : string) (caps : list string)
  (k : string -> list string -> Re.outcome) :
  Re.run ic (Re.Cls f) s caps k =
  match s with
  | String d t => if f d then k t caps else None
  | EmptyString => None
  end.
Proof. reflexivity. Qed.

(** A greedy loop over a character class takes the whole run of the class
    when the continuation succeeds after it. *)
Lemma star_class_greedy (ic : bool) (f : ascii -> bool)
  (k : string -> list string -> Re.outcome) (x : string * list string)
  (w rest : string) (caps : list string) (n : nat) :
  all_chars f w = true -> starts_outside f rest = true ->
  (String.length (w +:+ rest) <= n)%nat ->
  k rest caps = Some x ->
  Re.star_loop (Re.run ic (Re.Cls f)) k n (w +:+ rest) caps = Some x.
Proof.
  intros Hw Hrest. revert n. induction w as [|c w IH]; intros n Hn Hk.
  - change ("" +:+ rest) with rest. destruct n as [|n]; [exact Hk|].
    cbn [Re.star_loop]. rewrite run_cls. destruct rest as [|d rest']; [exact Hk|].
    cbn [starts_outside] in Hrest. apply negb_true_iff in Hrest. rewrite Hrest.
    exact Hk.
  - rewrite app_cons in *. cbn [all_chars] in Hw. apply andb_true_iff in Hw as [Hc Hw].
    destruct n as [|n]; [cbn in Hn; lia|].
    cbn [Re.star_loop]. rewrite run_cls, Hc, ltb_length_tail.
    rewrite (IH Hw n); [reflexivity| |exact Hk]. cbn in Hn. lia.
Qed.

Lemma run_cat (ic : bool) (a b : Re.re) (s : string) (caps : list string)
  (k : string -> list string -> Re.outcome) :
  Re.run ic (Re.Cat a b) s caps k
  = Re.run ic a s caps (fun s' caps' => Re.run ic b s' caps' k).
Proof. reflexivity. Qed.

Lemma chr_eq_refl (ic : bool) (c : ascii) : Re.chr_eq ic c c = true.
Proof. unfold Re.chr_eq. destruct ic; apply Ascii.eqb_refl. Qed.

Lemma run_lit (ic : bool) (w s : string) (caps : list string)
  (k : string -> list string -> Re.outcome) :
  Re.run ic (Re.Lit w) (w +:+ s) caps k = k s caps.
Proof.
  induction w as [|c w IH]; [reflexivity|].
  rewrite app_cons. cbn [Re.Lit Re.run]. rewrite chr_eq_refl. exact IH.
Qed.

Lemma run_chr (ic : bool) (c : ascii) (s : string) (caps : list string)
  (k : string -> list string -> Re.outcome) :
  Re.run ic (Re.Chr c) (String c s) caps k = k s caps.
Proof. cbn [Re.run]. rewrite chr_eq_refl. reflexivity. Qed.

(** One or more characters of a class, then the continuation. *)
Lemma run_plus_class (ic : bool) (f : ascii -> bool)
  (k : string -> list string -> Re.outcome) (x : string * list string)
  (w rest : string) (caps : list string) :
  Py.truthy w = true -> all_chars f w = true -> starts_outside f rest = true ->
  k rest caps = Some x ->
  Re.run ic (Re.Plus (Re.Cls f)) (w +:+ rest) caps k = Some x.
Proof.
  intros Hne Hw Hrest Hk. destruct w as [|c w]; [discriminate|].
  rewrite app_cons. cbn [all_chars] in Hw. apply andb_true_iff in Hw as [Hc Hw].
  unfold Re.Plus. rewrite run_cat, run_cls, Hc.
  change (Re.run ic (Re.Star (Re.Cls f)) (w +:+ rest) caps k)
    with (Re.star_loop (Re.run ic (Re.Cls f)) k (String.length (w +:+ rest))
            (w +:+ rest) caps).
  apply star_class_greedy; auto.
Qed.

Lemma run_star_none (ic : bool) (f : ascii -> bool)
  (k : string -> list string -> Re.outcome) (x : string * list string)
  (rest : string) (caps : list string) :
  starts_outside f rest = true -> k rest caps = Some x ->
  Re.run ic (Re.Star (Re.Cls f)) rest caps k = Some x.
Proof.
  intros Hrest Hk.
  change (Re.run ic (Re.Star (Re.Cls f)) rest caps k)
    with (Re.star_loop (Re.run ic (Re.Cls f)) k (String.length rest) ("" +:+ rest) caps).
  apply star_class_greedy; auto.
Qed.

Lemma run_quote_opt (K : string -> list string -> Re.outcome)
  (x : string * list string) (s : string) (c : list string) :
  K s c = Some x -> Re.run true quote_opt (String "`" s) c K = Some x.
Proof.
  intros Hs. unfold quote_opt, Re.Opt, Re.one_of.
  change (Re.run true (Re.Alt ?a Re.Eps) ?i c K)
    with (match Re.run true a i c K with
          | Some y => Some y
          | None => Re.run true Re.Eps i c K
          end).
  rewrite run_cls. cbn [existsb Ascii.eqb Bool.eqb orb]. rewrite Hs. reflexivity.
Qed.

(** A back-quoted word, with its group. *)
Lemma run_quoted_name (k : string -> list string -> Re.outcome)
  (x : string * list string) (w rest : string) (caps : list string) :
  is_word w = true ->
  k rest (caps ++ [w]) = Some x ->
  Re.run true quoted_name ("`" +:+ w +:+ "`" +:+ rest) caps k = Some x.
Proof.
  intros Hw Hk. unfold is_word in Hw. apply andb_true_iff in Hw as [Hne Hall].
  unfold quoted_name. rewrite run_cat.
  change ("`" +:+ w +:+ "`" +:+ rest) with (String "`" (w +:+ "`" +:+ rest)).
  apply run_quote_opt. rewrite run_cat.
  change (Re.run true (Re.Grp (Re.Plus Re.word)) (w +:+ "`" +:+ rest) caps ?K)
    with (Re.run true (Re.Plus (Re.Cls Re.is_word_char)) (w +:+ "`" +:+ rest) caps
            (fun s' caps' => K s' (caps' ++ [Re.consumed (w +:+ "`" +:+ rest) s']))).
  apply run_plus_class; [exact Hne|exact Hall|reflexivity|].
  rewrite consumed_app. change ("`" +:+ rest) with (String "`" rest).
  apply run_quote_opt, Hk.
Qed.

Lemma run_spaces (k : string -> list string -> Re.outcome)
  (x : string * list string) (rest : string) (caps : list string) :
  starts_outside Py.is_space_char rest = true ->
  k rest caps = Some x ->
  Re.run true (Re.Plus Re.space) (" " +:+ rest) caps k = Some x.
Proof.
  intros Hrest Hk. unfold Re.space.
  apply run_plus_class; [reflexivity|reflexivity|exact Hrest|exact Hk].
Qed.

(** The pattern of line 221 on a foreign-key statement of the script. *)
Lemma fk_re_match (t c r : string) :
  is_word t = true -> is_word c = true -> is_word r = true ->
  Re.match_at true fk_re
    ("ALTER TABLE `" +:+ t +:+ "` ADD FOREIGN KEY (`" +:+ c
     +:+ "`) REFERENCES `" +:+ r +:+ "`(`id`);")
  = Some (";", [t; c; r; "id"]).
Proof.
  intros Ht Hc Hr. unfold Re.match_at, fk_re.
  change ("ALTER TABLE `" +:+ t +:+ "` ADD FOREIGN KEY (`" +:+ c
          +:+ "`) REFERENCES `" +:+ r +:+ "`(`id`);")
    with ("ALTER TABLE " +:+ ("`" +:+ t +:+ "`" +:+
          (" " +:+ ("ADD FOREIGN KEY" +:+ (" " +:+ String "("
          ("`" +:+ c +:+ "`" +:+ String ")"
          (" " +:+ ("REFERENCES" +:+ (" " +:+
          ("`" +:+ r +:+ "`" +:+ String "("
          ("`" +:+ "id" +:+ "`" +:+ String ")" ";"))))))))))).
  rewrite run_cat, run_lit. cbv beta.
  rewrite run_cat. apply run_quoted_name; [exact Ht|]. cbv beta.
  rewrite run_cat. apply run_spaces; [reflexivity|]. cbv beta.
  rewrite run_cat, run_lit. cbv beta.
  rewrite run_cat. apply run_spaces; [reflexivity|]. cbv beta.
  rewrite run_cat, run_chr. cbv beta.
  rewrite run_cat. apply run_quoted_name; [exact Hc|]. cbv beta.
  rewrite run_cat, run_chr. cbv beta.
  rewrite run_cat. apply run_spaces; [reflexivity|]. cbv beta.
  rewrite run_cat, run_lit. cbv beta.
  rewrite run_cat. apply run_spaces; [reflexivity|]. cbv beta.
  rewrite run_cat. apply run_quoted_name; [exact Hr|]. cbv beta.
  rewrite run_cat. unfold Re.space at 1. apply run_star_none; [reflexivity|]. cbv beta.
  rewrite run_cat, run_chr. cbv beta.
  rewrite run_cat. apply run_quoted_name; [reflexivity|]. cbv beta.
  rewrite run_chr. reflexivity.
Qed.

(** ** The script reader on the foreign-key statements of the script writer *)

Lemma search_match (ic : bool) (r : Re.re) (s rest : string) (caps : list string) :
  Re.match_at ic r s = Some (rest, caps) -> Re.search ic r s = Some caps.
Proof. intros H. destruct s; cbn [Re.search]; rewrite H; reflexivity. Qed.

Lemma prefix_app (sub a b : string) :
  String.prefix sub a = true -> String.prefix sub (a +:+ b) = true.
Proof.
  revert a. induction sub as [|c sub IH]; intros a H;
    [destruct (a +:+ b); reflexivity|].
  destruct a as [|d a]; [discriminate|].
  rewrite app_cons. cbn [String.prefix] in *.
  destruct (ascii_dec c d); [auto|discriminate].
Qed.

Lemma contains_app_l (sub a b : string) :
  Py.contains sub a = true -> Py.contains sub (a +:+ b) = true.
Proof.
  induction a as [|c a IH]; intros H.
  - cbn [Py.contains] in H. rewrite orb_false_r in H.
    destruct sub; [|discriminate]. destruct b; reflexivity.
  - rewrite app_cons. cbn [Py.contains] in *.
    apply orb_true_iff in H. destruct H as [H|H].
    + change (String c (a +:+ b)) with (String c a +:+ b).
      rewrite (prefix_app _ _ _ H). reflexivity.
    + rewrite (IH H). apply orb_true_r.
Qed.

Lemma contains_tail (c : ascii) (sub s : string) :
  Py.contains (String c sub) s = true -> Py.contains sub s = true.
Proof.
  induction s as [|d s IH]; intros H.
  - discriminate.
  - cbn [Py.contains] in H. apply orb_true_iff in H. destruct H as [H|H].
    + cbn [String.prefix] in H. destruct (ascii_dec c d); [|discriminate].
      cbn [Py.contains]. destruct s; cbn [Py.contains]; rewrite H;
        rewrite ?orb_true_r; reflexivity.
    + cbn [Py.contains]. rewrite (IH H). apply orb_true_r.
Qed.

Lemma upper_word_char (c : ascii) :
  Re.is_word_char c = true -> Ascii.eqb (Py.upper_char c) " " = false.
Proof. destruct c as [[] [] [] [] [] [] [] []]; vm_compute; congruence. Qed.

Lemma app_empty (s : string) : "" +:+ s = s.
Proof. reflexivity. Qed.

(** A text that starts with a space is not found inside a word. *)
Lemma contains_skip_word (sub w rest : string) :
  all_chars Re.is_word_char w = true ->
  Py.contains (String " " sub) (Py.upper w +:+ rest)
  = Py.contains (String " " sub) rest.
Proof.
  induction w as [|c w IH]; intros Hw; [reflexivity|].
  cbn [all_chars] in Hw. apply andb_true_iff in Hw. destruct Hw as [Hc Hw].
  unfold Py.upper in *. cbn [Py.smap]. rewrite app_cons.
  cbn [Py.contains String.prefix].
  destruct (ascii_dec " " (Py.upper_char c)) as [E|_].
  - apply upper_word_char in Hc. rewrite <- E in Hc. discriminate.
  - cbn [orb]. exact (IH Hw).
Qed.

Lemma is_word_all (w : string) :
  is_word w = true -> all_chars Re.is_word_char w = true.
Proof. unfold is_word. intros H. apply andb_true_iff in H. tauto. Qed.

(** The statement that adds the column is not a foreign-key statement for
    the test of line 220. *)
Lemma add_column_not_foreign_key (t c : string) :
  is_word t = true -> is_word c = true ->
  Py.contains "FOREIGN KEY"
    (Py.upper ("ALTER TABLE `" +:+ t +:+ "` ADD COLUMN `" +:+ c +:+ "` INT;"))
  = false.
Proof.
  intros Ht Hc. apply is_word_all in Ht, Hc.
  destruct (Py.contains "FOREIGN KEY" _) eqn:E; [|reflexivity].
  do 7 apply contains_tail in E.
  unfold Py.upper in E. rewrite !smap_app in E.
  change (Py.smap Py.upper_char "ALTER TABLE `") with "ALTER TABLE `" in E.
  change (Py.smap Py.upper_char "` ADD COLUMN `") with "` ADD COLUMN `" in E.
  change (Py.smap Py.upper_char "` INT;") with "` INT;" in E.
  rewrite !app_cons in E. cbn [Py.contains String.prefix] in E.
  cbn in E. rewrite !app_empty in E.
  change (Py.smap Py.upper_char t) with (Py.upper t) in E.
  rewrite (contains_skip_word _ _ _ Ht) in E.
  rewrite ?app_cons in E. cbn [Py.contains String.prefix] in E. cbn in E.
  rewrite ?app_empty in E.
  change (Py.smap Py.upper_char c) with (Py.upper c) in E.
  rewrite (contains_skip_word _ _ _ Hc) in E.
  vm_compute in E. discriminate.
Qed.

Lemma foreign_key_statement_guard (t c r : string) :
  let stmt := "ALTER TABLE `" +:+ t +:+ "` ADD FOREIGN KEY (`" +:+ c
              +:+ "`) REFERENCES `" +:+ r +:+ "`(`id`);" in
  Py.contains "FOREIGN KEY" (Py.upper stmt) = true /\
  Py.contains "REFERENCES" (Py.upper stmt) = true.
Proof.
  cbv zeta. unfold Py.upper. rewrite !smap_app. split.
  - do 2 apply contains_app_r. apply contains_app_l. reflexivity.
  - do 4 apply contains_app_r. apply contains_app_l. reflexivity.
Qed.

(** X10: the two statements the script writer adds for a foreign key, read
    by the second loop of the script reader as they stand: when the table
    and column names are words and both tables are known, the statement that
    adds the column changes nothing and the statement that adds the key
    gives one association, whose first end is the referenced table with
    bounds 1..1 and whose second end is the table holding the key with
    bounds 0..-1; the column name is not kept. *)
Theorem foreign_key_statements_read_back (m : gmap string string)
  (model : list elem) (assoc_count : nat) (t c r tid rid : string) :
  is_word t = true -> is_word c = true -> is_word r = true ->
  m !! t = Some tid -> m !! r = Some rid ->
  fold_left (assoc_of_statement m) (alter_sql t c r) (model, assoc_count) =
  (model ++
   [ Elem "packagedElement"
       [ ("xmi:type", "uml:Association");
         ("xmi:id", "assoc_" +:+ str_nat assoc_count) ]
       [ Elem "ownedEnd"
           [ ("xmi:id", "e" +:+ str_nat (S assoc_count) +:+ "a"); ("type", rid);
             ("name", Py.lower r); ("lower", "1"); ("upper", "1") ] [];
         Elem "ownedEnd"
           [ ("xmi:id", "e" +:+ str_nat (S assoc_count) +:+ "b"); ("type", tid);
             ("name", Py.lower t); ("lower", "0"); ("upper", "-1") ] [] ] ],
   S assoc_count).
Proof.
  intros Ht Hc Hr Hmt Hmr. unfold alter_sql. cbn [fold_left].
  assert (H1 : assoc_of_statement m (model, assoc_count)
                 ("ALTER TABLE `" +:+ t +:+ "` ADD COLUMN `" +:+ c +:+ "` INT;")
               = (model, assoc_count)).
  { unfold assoc_of_statement.
    rewrite (add_column_not_foreign_key t c Ht Hc). reflexivity. }
  rewrite H1. unfold assoc_of_statement.
  destruct (foreign_key_statement_guard t c r) as [G1 G2]. cbv zeta in G1, G2.
  rewrite G1, G2. cbn [andb].
  rewrite (search_match _ _ _ _ _ (fk_re_match t c r Ht Hc Hr)).
  rewrite (is_known_true m t tid Hmt), (is_known_true m r rid Hmr).
  cbn [andb]. unfold ends_ddl. rewrite Hmt, Hmr. reflexivity.
Qed.

Lemma foreign_key_statements_read_back_witness :
  fold_left (assoc_of_statement sample_class_map)
    (alter_sql "Book" "ref1_id" "Author") ([], 1%nat) =
  ([ Elem "packagedElement"
       [ ("xmi:type", "uml:Association"); ("xmi:id", "assoc_1") ]
       [ Elem "ownedEnd"
           [ ("xmi:id", "e2a"); ("type", "id_Author");
             ("name", "author"); ("lower", "1"); ("upper", "1") ] [];
         Elem "ownedEnd"
           [ ("xmi:id", "e2b"); ("type", "id_Book");
             ("name", "book"); ("lower", "0"); ("upper", "-1") ] [] ] ],
   2%nat).
Proof.
  refine (foreign_key_statements_read_back sample_class_map [] 1%nat
            "Book" "ref1_id" "Author" "id_Book" "id_Author" _ _ _ _ _);
    vm_compute; reflexivity.
Defined.

(** ** The script and the schema markup of one model *)

Lemma prefix_self_app (a b : string) : String.prefix a (a +:+ b) = true.
Proof.
  induction a as [|c a IH]; [destruct b; reflexivity|].
  rewrite app_cons. cbn [String.prefix].
  destruct (ascii_dec c c); [exact IH|congruence].
Qed.

Lemma append_assoc (a b c : string) : (a +:+ b) +:+ c = a +:+ b +:+ c.
Proof.
  induction a as [|x a IH]; [reflexivity|].
  rewrite !app_cons, IH. reflexivity.
Qed.

Lemma prefix_cancel (a b c : string) :
  String.prefix (a +:+ b) (a +:+ c) = String.prefix b c.
Proof.
  induction a as [|x a IH]; [reflexivity|].
  rewrite !app_cons. cbn [String.prefix].
  destruct (ascii_dec x x); [exact IH|congruence].
Qed.

Lemma create_table_creates (n : string) (attrs : attrs_t) :
  creates (create_table n attrs) n = true /\ is_create (create_table n attrs) = true.
Proof.
  unfold creates, is_create, create_table. cbn [Py.join].
  rewrite !append_assoc. split.
  - rewrite !prefix_cancel. apply prefix_self_app.
  - apply prefix_self_app.
Qed.

Lemma join_table_creates (c1 c2 : string) :
  creates (join_table_sql c1 c2) (c1 +:+ "_" +:+ c2 +:+ "_join") = true
  /\ is_create (join_table_sql c1 c2) = true.
Proof.
  unfold creates, is_create, join_table_sql. cbn [Py.join].
  rewrite !append_assoc. split.
  - rewrite !prefix_cancel. apply prefix_self_app.
  - apply prefix_self_app.
Qed.

Lemma alter_sql_alters (t c r : string) :
  Forall (fun s => is_create s = false /\ is_alter s = true) (alter_sql t c r).
Proof.
  unfold alter_sql, is_create, is_alter.
  repeat constructor; try apply prefix_self_app;
    rewrite !app_cons; reflexivity.
Qed.

Lemma assoc_sql_creates (ids : gmap string string) (a : association) :
  Forall2 (fun s n => creates s n = true)
    (List.filter is_create (assoc_sql ids a)) (join_table_names ids [a])
  /\ Forall (fun s => is_create s = true \/ is_alter s = true) (assoc_sql ids a).
Proof.
  assert (Hal : forall t c r,
             List.filter is_create (alter_sql t c r) = []
             /\ Forall (fun s => is_create s = true \/ is_alter s = true)
                  (alter_sql t c r)).
  { intros t c r. pose proof (alter_sql_alters t c r) as H.
    unfold alter_sql in *. inversion H as [|? ? [H1 H1'] H2]; subst.
    inversion H2 as [|? ? [H3 H3'] _]; subst.
    cbn [List.filter]. rewrite H1, H3. split; [reflexivity|].
    constructor; [right; assumption|].
    constructor; [right; assumption|constructor]. }
  unfold assoc_sql, join_table_names. cbn [flat_map]. rewrite app_nil_r.
  destruct (resolve ids (t1 a)) as [c1|]; [|split; constructor].
  destruct (resolve ids (t2 a)) as [c2|]; [|split; constructor].
  destruct (many_to_many (u1 a) (u2 a)).
  - destruct (join_table_creates c1 c2) as [H1 H2]. cbn [List.filter].
    rewrite H2. split.
    + constructor; [exact H1|constructor].
    + constructor; [left; exact H2|constructor].
  - destruct (one_to_many (u1 a) (u2 a)); [destruct (u1 a =? 1)|];
      match goal with
      | |- context [alter_sql ?t ?c ?r] => destruct (Hal t c r) as [-> H]
      end; (split; [constructor|exact H]).
Qed.

Lemma script_statements (p : UMLParser) :
  Forall2 (fun s n => creates s n = true)
    (List.filter is_create (generate_sql p))
    (map fst (classes p) ++ join_table_names (class_ids p) (associations p))
  /\ Forall (fun s => is_create s = true \/ is_alter s = true) (generate_sql p).
Proof.
  unfold generate_sql. rewrite List.filter_app. split.
  - apply Forall2_app.
    + induction (classes p) as [|[n attrs] l IH]; [constructor|].
      cbn [map List.filter fst]. destruct (create_table_creates n attrs) as [H1 H2].
      rewrite H2. constructor; assumption.
    + induction (associations p) as [|a l IH]; [constructor|].
      cbn [flat_map]. rewrite List.filter_app.
      replace (join_table_names (class_ids p) (a :: l))
        with (join_table_names (class_ids p) [a] ++ join_table_names (class_ids p) l)
        by (unfold join_table_names; cbn [flat_map]; rewrite app_nil_r; reflexivity).
      apply Forall2_app; [apply assoc_sql_creates|exact IH].
  - apply Forall_app. split.
    + induction (classes p) as [|[n attrs] l IH]; [constructor|].
      cbn [map]. constructor; [left; apply create_table_creates|exact IH].
    + induction (associations p) as [|a l IH]; [constructor|].
      cbn [flat_map]. apply Forall_app. split; [apply assoc_sql_creates|exact IH].
Qed.

(** X11: the script and the schema markup written for the same model name
    the same tables in the same order: the statements of the script that
    start with CREATE TABLE correspond one to one to the children of the
    database element, each of which is a table element whose name is the
    one in the statement; every other statement of the script starts with
    ALTER TABLE. *)
Theorem script_creates_schema_tables (p : UMLParser) :
  Forall2 (fun stmt t =>
             tag t = "table"
             /\ exists n, get t "name" = Some n /\ creates stmt n = true)
    (List.filter is_create (generate_sql p)) (children (generate_sql_xml p))
  /\ Forall (fun stmt => is_create stmt = true \/ is_alter stmt = true)
       (generate_sql p).
Proof.
  destruct (script_statements p) as [H1 H2]. split; [|exact H2].
  pose proof (generated_tag_names p) as Hn.
  revert H1 Hn.
  generalize (map fst (classes p)
              ++ join_table_names (class_ids p) (associations p)).
  generalize (children (generate_sql_xml p)).
  generalize (List.filter is_create (generate_sql p)).
  intros stmts T names H. revert T.
  induction H as [|s n stmts names Hs _ IH]; intros T Hn.
  - destruct T; [constructor|discriminate].
  - destruct T as [|t T]; [discriminate|]. cbn [map] in Hn.
    unfold tag_name at 1 in Hn. injection Hn as Htag Hname Hrest.
    constructor; [|exact (IH _ Hrest)].
    split; [exact Htag|]. exists n. split; assumption.
Qed.

(** ** The class model read from a script *)

Lemma class_of_statement_inv (b b' : uml_build string string) (parsed : list token) :
  class_of_statement b parsed = Return b' ->
  Forall is_class_elem (members b) ->
  (forall k v, class_map b !! k = Some v ->
     exists c, In c (members b) /\ get c "xmi:id" = Some v) ->
  Forall is_class_elem (members b') /\
  (forall k v, class_map b' !! k = Some v ->
     exists c, In c (members b') /\ get c "xmi:id" = Some v).
Proof.
  unfold class_of_statement. intros H Hm Hc.
  destruct (Nat.ltb _ 3); [injection H as <-; auto|].
  destruct (is_create_table _); [|injection H as <-; auto].
  destruct (_ !! 2%nat) as [k2|]; [|injection H as <-; auto].
  destruct (tok_name k2) as [nm|]; [|discriminate].
  injection H as <-. cbn [members class_map]. split.
  - apply Forall_app. split; [exact Hm|]. constructor; [|constructor].
    split; reflexivity.
  - intros k v Hk. destruct (decide (Py.strip_chars "`" nm = k)) as [E|E].
    + rewrite E, lookup_insert_eq in Hk. injection Hk as <-.
      eexists. split; [apply in_or_app; right; left; reflexivity|].
      rewrite <- E. reflexivity.
    + rewrite lookup_insert_ne in Hk by exact E.
      destruct (Hc k v Hk) as (c & Hin & Hid).
      exists c. split; [apply in_or_app; left; exact Hin|exact Hid].
Qed.

Lemma first_pass_inv (body : uml_build string string -> string
                              -> result (uml_build string string))
  (l : list string) :
  (forall b stmt b', body b stmt = Return b' ->
     exists parsed, class_of_statement b parsed = Return b') ->
  forall b b', for_each body l b = Return b' ->
  Forall is_class_elem (members b) ->
  (forall k v, class_map b !! k = Some v ->
     exists c, In c (members b) /\ get c "xmi:id" = Some v) ->
  Forall is_class_elem (members b') /\
  (forall k v, class_map b' !! k = Some v ->
     exists c, In c (members b') /\ get c "xmi:id" = Some v).
Proof.
  intros Hbody. induction l as [|stmt l IH]; intros b b'; cbn [for_each].
  - intros [= <-]. auto.
  - destruct (body b stmt) as [b1|] eqn:E; [|discriminate]. cbn [rbind].
    intros H Hm Hc. destruct (Hbody _ _ _ E) as (parsed & Hp).
    destruct (class_of_statement_inv _ _ _ Hp Hm Hc) as [Hm1 Hc1].
    exact (IH _ _ H Hm1 Hc1).
Qed.

Lemma assoc_of_statement_adds (m : gmap string string) (classes : list elem)
  (st : list elem * nat) (stmt : string) :
  (forall k v, m !! k = Some v ->
     exists c, In c classes /\ get c "xmi:id" = Some v) ->
  exists extra, fst (assoc_of_statement m st stmt) = fst st ++ extra
                /\ Forall (is_assoc_elem classes) extra.
Proof.
  intros Hc. destruct st as [model n].
  assert (Hsame : exists extra, model = model ++ extra
                                /\ Forall (is_assoc_elem classes) extra).
  { exists []. rewrite app_nil_r. auto. }
  unfold assoc_of_statement.
  destruct (_ && _); [|exact Hsame].
  destruct (Re.search true fk_re stmt) as [[|src [|col [|ref [|rc [|]]]]]|];
    try exact Hsame.
  unfold is_known.
  destruct (m !! src) as [sid|] eqn:Es;
    [|rewrite bool_decide_eq_false_2 by (apply is_Some_None); exact Hsame].
  destruct (m !! ref) as [rid|] eqn:Er;
    [|rewrite andb_comm, bool_decide_eq_false_2 by (apply is_Some_None); exact Hsame].
  rewrite !bool_decide_eq_true_2 by eauto. cbn [andb fst].
  eexists. split; [reflexivity|]. constructor; [|constructor].
  unfold ends_ddl. rewrite Es, Er. cbn [default].
  destruct (Hc _ _ Es) as (cs & Hins & Hids).
  destruct (Hc _ _ Er) as (cr & Hinr & Hidr).
  split; [reflexivity|]. split; [reflexivity|]. split; [reflexivity|].
  cbn [children]. constructor; [|constructor; [|constructor]].
  - split; [reflexivity|]. exists cr, rid. auto.
  - split; [reflexivity|]. exists cs, sid. auto.
Qed.

Lemma second_pass_script (m : gmap string string) (classes : list elem)
  (l : list string) :
  (forall k v, m !! k = Some v ->
     exists c, In c classes /\ get c "xmi:id" = Some v) ->
  forall st, exists extra,
    fst (fold_left (assoc_of_statement m) l st) = fst st ++ extra
    /\ Forall (is_assoc_elem classes) extra.
Proof.
  intros Hc. induction l as [|stmt l IH]; intros st; cbn [fold_left].
  - exists []. rewrite app_nil_r. auto.
  - destruct (IH (assoc_of_statement m st stmt)) as (e2 & H2 & F2).
    destruct (assoc_of_statement_adds m classes st stmt Hc) as (e1 & H1 & F1).
    exists (e1 ++ e2). rewrite H2, H1, <- app_assoc. split; [reflexivity|].
    apply Forall_app. auto.
Qed.

(** X12: whatever the tokenizer returns, a class model read from a script
    is made of class elements followed by association elements, and each
    association has two ends whose types are the identifiers of class
    elements of that model. *)
Theorem script_model_ends_resolve (sqlparse_format : string -> string)
  (sqlparse_split : string -> list string)
  (sqlparse_parse : string -> list (list token)) (sql_input : string)
  (model : elem) :
  uml_of_sql sqlparse_format sqlparse_split sqlparse_parse sql_input = Return model ->
  exists classes assocs,
    children model = classes ++ assocs
    /\ Forall is_class_elem classes
    /\ Forall (is_assoc_elem classes) assocs.
Proof.
  unfold uml_of_sql. intros H.
  destruct (for_each _ _ _) as [b|] eqn:E1; [|discriminate]. cbn [rbind] in H.
  assert (Hbody : forall b0 stmt b0',
             (let* parsed := parse_first sqlparse_parse stmt in
              class_of_statement b0 parsed) = Return b0' ->
             exists parsed, class_of_statement b0 parsed = Return b0').
  { intros b0 stmt b0' Hb. unfold parse_first in Hb.
    destruct (sqlparse_parse stmt) as [|parsed ?]; cbn [rbind] in Hb;
      [discriminate|exists parsed; exact Hb]. }
  assert (H0 : forall k v, (empty : gmap string string) !! k = Some v ->
             exists c : elem, In c [] /\ get c "xmi:id" = Some v).
  { intros k v Hk. rewrite lookup_empty in Hk. discriminate. }
  destruct (first_pass_inv _ _ Hbody _ _ E1 (List.Forall_nil _) H0) as [Hm Hc].
  destruct (second_pass_script (class_map b) (members b)
              (sqlparse_split (Py.strip (sqlparse_format sql_input))) Hc
              (members b, 1%nat)) as (extra & Hx & Fx).
  destruct (fold_left _ _ _) as [model' n']. cbn [fst] in Hx.
  injection H as <-. cbn [children]. exists (members b), extra. auto.
Qed.

Lemma script_model_ends_resolve_witness :
  exists classes assocs,
    children library_model = classes ++ assocs
    /\ Forall is_class_elem classes
    /\ Forall (is_assoc_elem classes) assocs.
Proof.
  apply (script_model_ends_resolve (fun s => s) (fun _ => library_statements)
           library_tokens (Py.join (Py.nl +:+ Py.nl) library_statements)).
  vm_compute. reflexivity.
Defined.

Example library_model_read :
  children library_model =
  [ Elem "packagedElement"
      [ ("xmi:type", "uml:Class"); ("xmi:id", "id_Author"); ("name", "Author") ]
      [ Elem "ownedAttribute"
          [ ("xmi:id", "id_Author_id"); ("name", "id"); ("type", "Integer") ] [] ];
    Elem "packagedElement"
      [ ("xmi:type", "uml:Class"); ("xmi:id", "id_Book"); ("name", "Book") ]
      [ Elem "ownedAttribute"
          [ ("xmi:id", "id_Book_id"); ("name", "id"); ("type", "Integer") ] [] ];
    Elem "packagedElement"
      [ ("xmi:type", "uml:Association"); ("xmi:id", "assoc_1") ]
      [ Elem "ownedEnd"
          [ ("xmi:id", "e2a"); ("type", "id_Author");
            ("name", "author"); ("lower", "1"); ("upper", "1") ] [];
        Elem "ownedEnd"
          [ ("xmi:id", "e2b"); ("type", "id_Book");
            ("name", "book"); ("lower", "0"); ("upper", "-1") ] [] ] ].
Proof. vm_compute. reflexivity. Qed.

(** ** Columns written by the script writer, read by the script reader *)

Lemma all_chars_impl (f g : ascii -> bool) (s : string) :
  (forall c, f c = true -> g c = true) ->
  all_chars f s = true -> all_chars g s = true.
Proof.
  intros H. induction s as [|c s IH]; [reflexivity|]. cbn [all_chars].
  intros Hs. apply andb_true_iff in Hs as [Hc Hs].
  rewrite (H c Hc), (IH Hs). reflexivity.
Qed.

Lemma all_chars_app (f : ascii -> bool) (a b : string) :
  all_chars f (a +:+ b) = all_chars f a && all_chars f b.
Proof.
  induction a as [|c a IH]; [reflexivity|].
  rewrite app_cons. cbn [all_chars]. rewrite IH, andb_assoc. reflexivity.
Qed.

Lemma word_char_plain (c : ascii) :
  Re.is_word_char c = true ->
  not_comma c && not_paren c && not_backquote c && not_space c = true.
Proof. destruct c as [[] [] [] [] [] [] [] []]; vm_compute; congruence. Qed.

Lemma space_char_plain (c : ascii) :
  Py.is_space_char c = true -> not_comma c && not_paren c = true.
Proof. destruct c as [[] [] [] [] [] [] [] []]; vm_compute; congruence. Qed.

Lemma word_plain (w : string) :
  all_chars Re.is_word_char w = true ->
  all_chars not_comma w = true /\ all_chars not_paren w = true
  /\ all_chars not_backquote w = true /\ all_chars not_space w = true.
Proof.
  intros H. repeat split; revert H; apply all_chars_impl; intros c Hc;
    apply word_char_plain in Hc; repeat (apply andb_true_iff in Hc as [Hc ?]);
    assumption.
Qed.

Lemma space_plain (w : string) :
  all_chars Py.is_space_char w = true ->
  all_chars not_comma w = true /\ all_chars not_paren w = true.
Proof.
  intros H. split; revert H; apply all_chars_impl; intros c Hc;
    apply space_char_plain in Hc; apply andb_true_iff in Hc as [? ?]; assumption.
Qed.

Lemma shallow_app (a b : string) (d : nat) :
  shallow d a = true -> shallow 0 b = true -> shallow d (a +:+ b) = true.
Proof.
  revert d. induction a as [|c a IH]; intros d Ha Hb.
  - cbn [shallow] in Ha. apply Nat.eqb_eq in Ha as ->. exact Hb.
  - rewrite app_cons. cbn [shallow] in *.
    destruct (Ascii.eqb c "(").
    + apply andb_true_iff in Ha as [-> Ha]. rewrite (IH _ Ha Hb). reflexivity.
    + destruct (Ascii.eqb c ")").
      * apply andb_true_iff in Ha as [-> Ha]. rewrite (IH _ Ha Hb). reflexivity.
      * exact (IH _ Ha Hb).
Qed.

Lemma shallow_plain (w : string) :
  all_chars not_paren w = true -> shallow 0 w = true.
Proof.
  induction w as [|c w IH]; [reflexivity|]. cbn [all_chars shallow].
  intros H. apply andb_true_iff in H as [Hc Hw]. unfold not_paren in Hc.
  apply andb_true_iff in Hc as [H1 H2].
  apply negb_true_iff in H1, H2. rewrite H1, H2. exact (IH Hw).
Qed.

Lemma top_level_split_nonempty (s : string) (d : nat) (sk : bool) :
  top_level_split d sk s <> [].
Proof.
  revert d sk. induction s as [|c s IH]; intros d sk; [discriminate|].
  cbn [top_level_split].
  destruct (sk && Py.is_space_char c); [apply IH|].
  destruct (Ascii.eqb c "," && Nat.eqb d 0); [discriminate|].
  destruct (top_level_split _ false s); discriminate.
Qed.

Lemma cons_head_prepend (c : ascii) (a : string) (l : list string) :
  Re.cons_head c (prepend a l) = prepend (String c a) l.
Proof. destruct l; reflexivity. Qed.

(** A run of characters without a comma, whose parentheses are closed and
    not nested, stays in the piece it starts in. *)
Lemma top_level_split_segment (a r : string) (d : nat) :
  shallow d a = true -> all_chars not_comma a = true ->
  top_level_split d false (a +:+ r) = prepend a (top_level_split 0 false r).
Proof.
  revert d. induction a as [|c a IH]; intros d Hsh Hco.
  - cbn [shallow] in Hsh. apply Nat.eqb_eq in Hsh as ->.
    pose proof (top_level_split_nonempty r 0 false) as Hne.
    change ("" +:+ r) with r. destruct (top_level_split 0 false r); [congruence|reflexivity].
  - rewrite app_cons. cbn [all_chars] in Hco. apply andb_true_iff in Hco as [Hc Hco].
    unfold not_comma in Hc. apply negb_true_iff in Hc.
    cbn [top_level_split andb]. rewrite Hc. cbn [andb].
    rewrite <- cons_head_prepend. f_equal. apply IH; [|exact Hco].
    cbn [shallow] in Hsh. unfold depth_after.
    destruct (Ascii.eqb c "(").
    + apply andb_true_iff in Hsh as [Hd Hsh]. apply Nat.eqb_eq in Hd as ->. exact Hsh.
    + destruct (Ascii.eqb c ")"); [|exact Hsh].
      apply andb_true_iff in Hsh as [Hd Hsh]. apply Nat.eqb_eq in Hd as ->. exact Hsh.
Qed.

Lemma lstrip_spaces (ws s : string) :
  all_chars Py.is_space_char ws = true ->
  Py.lstrip_by Py.is_space_char (ws +:+ s) = Py.lstrip_by Py.is_space_char s.
Proof.
  induction ws as [|c ws IH]; [reflexivity|]. cbn [all_chars]. intros H.
  apply andb_true_iff in H as [Hc Hws]. rewrite app_cons. cbn [Py.lstrip_by].
  rewrite Hc. exact (IH Hws).
Qed.

Lemma rstrip_all (f : ascii -> bool) (ws : string) :
  all_chars f ws = true -> Py.rstrip_by f ws = "".
Proof.
  induction ws as [|c ws IH]; [reflexivity|]. cbn [all_chars Py.rstrip_by].
  intros H. apply andb_true_iff in H as [Hc Hws]. rewrite (IH Hws), Hc. reflexivity.
Qed.

Lemma rstrip_app_all (f : ascii -> bool) (a ws : string) :
  all_chars f ws = true -> Py.rstrip_by f (a +:+ ws) = Py.rstrip_by f a.
Proof.
  intros H. induction a as [|c a IH]; [exact (rstrip_all f ws H)|].
  rewrite app_cons. cbn [Py.rstrip_by]. rewrite IH. reflexivity.
Qed.

Lemma rstrip_app_kept (f : ascii -> bool) (a b : string) :
  Py.rstrip_by f b = b -> b <> "" -> Py.rstrip_by f (a +:+ b) = a +:+ b.
Proof.
  intros Hb Hne. induction a as [|c a IH]; [exact Hb|].
  rewrite app_cons. cbn [Py.rstrip_by]. rewrite IH.
  destruct (a +:+ b) eqn:E; [|reflexivity].
  destruct a; [|discriminate]. change ("" +:+ b) with b in E. congruence.
Qed.

Lemma rstrip_none (f : ascii -> bool) (w : string) :
  all_chars (fun c => negb (f c)) w = true -> Py.rstrip_by f w = w.
Proof.
  induction w as [|c w IH]; [reflexivity|]. cbn [all_chars Py.rstrip_by].
  intros H. apply andb_true_iff in H as [Hc Hw]. rewrite (IH Hw).
  apply negb_true_iff in Hc. rewrite Hc. destruct w; reflexivity.
Qed.

Lemma split_go_word (w cur rest : string) :
  all_chars not_space w = true ->
  Py.split_go cur (w +:+ rest) = Py.split_go (cur +:+ w) rest.
Proof.
  revert cur. induction w as [|c w IH]; intros cur H.
  - replace (cur +:+ "") with cur; [reflexivity|].
    clear. induction cur as [|x cur IH]; [reflexivity|]. rewrite app_cons, <- IH. reflexivity.
  - cbn [all_chars] in H. apply andb_true_iff in H as [Hc Hw].
    unfold not_space in Hc. apply negb_true_iff in Hc.
    rewrite app_cons. cbn [Py.split_go]. rewrite Hc, (IH _ Hw), append_assoc.
    reflexivity.
Qed.

Lemma strip_line (pre post n tail : string) :
  all_chars Py.is_space_char pre = true ->
  all_chars Py.is_space_char post = true ->
  Py.rstrip_by Py.is_space_char tail = tail -> tail <> "" ->
  Py.strip (pre +:+ line_core n tail +:+ post) = line_core n tail.
Proof.
  intros Hpre Hpost Ht Hne. unfold Py.strip, Py.strip_by.
  rewrite (lstrip_spaces _ _ Hpre).
  assert (E : Py.lstrip_by Py.is_space_char (line_core n tail +:+ post)
              = line_core n tail +:+ post) by reflexivity.
  rewrite E, (rstrip_app_all _ _ _ Hpost).
  unfold line_core.
  rewrite <- (append_assoc n "` " tail), <- (append_assoc "`" (n +:+ "` ") tail).
  apply rstrip_app_kept; assumption.
Qed.

Lemma split_line (n tail : string) :
  all_chars not_space n = true ->
  Py.split (line_core n tail) = ("`" +:+ n +:+ "`") :: Py.split tail.
Proof.
  intros Hn. unfold Py.split, line_core.
  change (Py.split_go "" ("`" +:+ n +:+ "` " +:+ tail))
    with (Py.split_go "`" (n +:+ "` " +:+ tail)).
  rewrite (split_go_word _ _ _ Hn).
  change (Py.split_go ("`" +:+ n) ("` " +:+ tail))
    with (Py.split_go (("`" +:+ n) +:+ "`") (String " " tail)).
  rewrite append_assoc. reflexivity.
Qed.

Lemma strip_quotes (n : string) :
  is_word n = true -> Py.strip_chars "`" ("`" +:+ n +:+ "`") = n.
Proof.
  unfold is_word. intros H. apply andb_true_iff in H as [Hne Hw].
  destruct (word_plain n Hw) as (_ & _ & Hq & _).
  unfold Py.strip_chars, Py.strip_by.
  change (Py.lstrip_by (fun c => Py.mem_char c "`") ("`" +:+ n +:+ "`"))
    with (Py.lstrip_by (fun c => Py.mem_char c "`") (n +:+ "`")).
  destruct n as [|c n]; [discriminate|].
  cbn [all_chars] in Hq. apply andb_true_iff in Hq as [Hc Hq].
  rewrite app_cons. cbn [Py.lstrip_by].
  unfold not_backquote in Hc. apply negb_true_iff in Hc. rewrite Hc.
  change (String c (n +:+ "`")) with (String c n +:+ "`").
  rewrite rstrip_app_all by reflexivity.
  apply rstrip_none. cbn [all_chars]. rewrite Hc. exact Hq.
Qed.

(** One column definition of the writer, with whitespace around it. *)
Lemma attr_of_col_def_line (tn pre post n tail w1 : string) (ws : list string) :
  is_word n = true ->
  all_chars Py.is_space_char pre = true ->
  all_chars Py.is_space_char post = true ->
  Py.rstrip_by Py.is_space_char tail = tail -> tail <> "" ->
  Py.split tail = w1 :: ws ->
  attr_of_col_def tn (pre +:+ line_core n tail +:+ post) =
  [ Elem "ownedAttribute"
      [ ("xmi:id", "id_" +:+ tn +:+ "_" +:+ n); ("name", n);
        ("type", uml_type_ddl (Py.upper w1)) ] [] ].
Proof.
  intros Hn Hpre Hpost Ht Hne Hsp. unfold attr_of_col_def.
  rewrite (strip_line _ _ _ _ Hpre Hpost Ht Hne).
  pose proof Hn as Hw. apply is_word_all, word_plain in Hw as (_ & _ & _ & Hs).
  rewrite (split_line _ _ Hs), Hsp.
  rewrite (strip_quotes n Hn).
  unfold Py.upper at 1. rewrite app_cons. cbn [Py.smap].
  change (Py.upper_char "`") with "`"%char. reflexivity.
Qed.

Lemma line_core_plain (n tail : string) :
  is_word n = true -> shallow 0 tail = true -> all_chars not_comma tail = true ->
  shallow 0 (line_core n tail) = true /\ all_chars not_comma (line_core n tail) = true.
Proof.
  intros Hn Hsh Hco. apply is_word_all, word_plain in Hn as (Hc & Hp & _ & _).
  unfold line_core. split.
  - change ("`" +:+ n +:+ "` " +:+ tail) with (String "`" (n +:+ "` " +:+ tail)).
    cbn [shallow]. change (Ascii.eqb "`" "(") with false.
    change (Ascii.eqb "`" ")") with false. cbv iota.
    apply shallow_app; [exact (shallow_plain n Hp)|].
    apply (shallow_app "` " tail 0); [reflexivity|exact Hsh].
  - rewrite !all_chars_app, Hc, Hco. reflexivity.
Qed.

Lemma top_level_split_line (sk : bool) (ws n tail rest : string) :
  all_chars Py.is_space_char ws = true -> is_word n = true ->
  shallow 0 tail = true -> all_chars not_comma tail = true ->
  top_level_split 0 sk (ws +:+ line_core n tail +:+ rest) =
  prepend ((if sk then "" else ws) +:+ line_core n tail)
          (top_level_split 0 false rest).
Proof.
  intros Hws Hn Hsh Hco.
  destruct (line_core_plain n tail Hn Hsh Hco) as [Hs Hc].
  destruct sk.
  - rewrite top_level_split_skipping, (lstrip_spaces _ _ Hws).
    assert (E : Py.lstrip_by Py.is_space_char (line_core n tail +:+ rest)
                = line_core n tail +:+ rest) by reflexivity.
    rewrite E. apply top_level_split_segment; assumption.
  - rewrite <- append_assoc. destruct (space_plain ws Hws) as [Hwc Hwp].
    apply top_level_split_segment.
    + apply shallow_app; [exact (shallow_plain ws Hwp)|exact Hs].
    + rewrite all_chars_app, Hwc, Hc. reflexivity.
Qed.

Lemma attr_of_col_def_around (tn pre post : string) (l : string * string) :
  line_ok l ->
  all_chars Py.is_space_char pre = true ->
  all_chars Py.is_space_char post = true ->
  attr_of_col_def tn (pre +:+ line_core (fst l) (snd l) +:+ post)
  = attr_of_col_def tn (line_core (fst l) (snd l)).
Proof.
  intros (Hn & _ & _ & Hr & Hne & w1 & ws & Hsp) Hpre Hpost.
  rewrite (attr_of_col_def_line tn pre post _ _ w1 ws Hn Hpre Hpost Hr Hne Hsp).
  symmetry.
  replace (line_core (fst l) (snd l))
    with ("" +:+ line_core (fst l) (snd l) +:+ "") at 1.
  - apply (attr_of_col_def_line tn "" "" _ _ w1 ws Hn); auto.
  - change ("" +:+ ?x) with x. clear.
    induction (line_core (fst l) (snd l)) as [|c s IH]; [reflexivity|].
    rewrite app_cons, IH. reflexivity.
Qed.

Lemma append_empty_r (s : string) : s +:+ "" = s.
Proof. induction s as [|c s IH]; [reflexivity|]. rewrite app_cons, IH. reflexivity. Qed.

Lemma join_cons (sep p q : string) (r : list string) :
  Py.join sep (p :: q :: r) = p +:+ sep +:+ Py.join sep (q :: r).
Proof. reflexivity. Qed.

(** The column definitions of the writer, one after the other: each piece
    of the split is one definition with whitespace around it. *)
Lemma read_lines (tn : string) (lines : list (string * string)) :
  lines <> [] -> Forall line_ok lines ->
  forall (sk : bool) (pre : string),
    all_chars Py.is_space_char pre = true ->
    flat_map (attr_of_col_def tn)
      (top_level_split 0 sk
         (pre +:+ Py.join ("," +:+ Py.nl)
                    (map (fun l => "  " +:+ line_core (fst l) (snd l)) lines)
          +:+ Py.nl))
    = flat_map (fun l => attr_of_col_def tn (line_core (fst l) (snd l))) lines.
Proof.
  induction lines as [|l lines IH]; [congruence|]. intros _ Hok sk pre Hpre.
  apply Forall_cons in Hok as [Hl Hok].
  pose proof Hl as (Hn & Hsh & Hco & _).
  assert (Hws : all_chars Py.is_space_char (pre +:+ "  ") = true)
    by (rewrite all_chars_app, Hpre; reflexivity).
  assert (Hws' : all_chars Py.is_space_char
                   (if sk then "" else pre +:+ "  ") = true)
    by (destruct sk; [reflexivity|exact Hws]).
  destruct lines as [|l2 lines].
  - cbn [map Py.join flat_map]. rewrite app_nil_r.
    replace (pre +:+ ("  " +:+ line_core (fst l) (snd l)) +:+ Py.nl)
      with ((pre +:+ "  ") +:+ line_core (fst l) (snd l) +:+ Py.nl)
      by (rewrite !append_assoc; reflexivity).
    rewrite (top_level_split_line sk _ _ _ _ Hws Hn Hsh Hco).
    change (top_level_split 0 false Py.nl) with [Py.nl].
    cbn [prepend flat_map]. rewrite app_nil_r, append_assoc.
    apply attr_of_col_def_around; [exact Hl|exact Hws'|reflexivity].
  - remember (l2 :: lines) as rest eqn:Er.
    assert (Hne : rest <> []) by (subst rest; discriminate).
    cbn [map flat_map]. rewrite Er at 1. cbn [map]. rewrite join_cons.
    rewrite <- (map_cons (fun l => "  " +:+ line_core (fst l) (snd l)) l2 lines), <- Er.
    set (J := Py.join ("," +:+ Py.nl)
                (map (fun l => "  " +:+ line_core (fst l) (snd l)) rest)).
    replace (pre +:+ (("  " +:+ line_core (fst l) (snd l)) +:+ ("," +:+ Py.nl) +:+ J)
             +:+ Py.nl)
      with ((pre +:+ "  ") +:+ line_core (fst l) (snd l)
            +:+ String "," (Py.nl +:+ J +:+ Py.nl))
      by (rewrite !append_assoc; reflexivity).
    rewrite (top_level_split_line sk _ _ _ _ Hws Hn Hsh Hco).
    cbn [top_level_split andb].
    change (Ascii.eqb "," "," && Nat.eqb 0 0) with true. cbv iota.
    cbn [prepend flat_map]. rewrite append_empty_r. f_equal.
    + replace ((if sk then "" else pre +:+ "  ") +:+ line_core (fst l) (snd l))
        with ((if sk then "" else pre +:+ "  ") +:+ line_core (fst l) (snd l) +:+ "")
        by (rewrite append_empty_r; reflexivity).
      apply attr_of_col_def_around; [exact Hl|exact Hws'|reflexivity].
    + exact (IH Hne Hok true Py.nl eq_refl).
Qed.

(** The SQL type an attribute type is written as, with the type it is read
    back as. *)
Lemma type_cases (o : option string) :
  In (sql_type_of o, read_back_type o)
     [ ("VARCHAR(255)", "String"); ("INT", "Integer"); ("BOOLEAN", "Boolean");
       ("FLOAT", "Float"); ("DOUBLE", "Float"); ("BIGINT", "Integer");
       ("DATE", "Date") ].
Proof.
  destruct o as [t|]; [|left; reflexivity].
  unfold sql_type_of, read_back_type.
  destruct (Py.truthy t) eqn:Et; [|destruct t; [left; reflexivity|discriminate]].
  unfold TYPE_MAPPING. cbn [dict_get]. clear Et.
  destruct (String.eqb "String" t) eqn:EString;
    [apply String.eqb_eq in EString; subst t; left; reflexivity|].
  destruct (String.eqb "Integer" t) eqn:EInteger;
    [apply String.eqb_eq in EInteger; subst t; right; left; reflexivity|].
  destruct (String.eqb "Boolean" t) eqn:EBoolean;
    [apply String.eqb_eq in EBoolean; subst t; do 2 right; left; reflexivity|].
  destruct (String.eqb "Float" t) eqn:EFloat;
    [apply String.eqb_eq in EFloat; subst t; do 3 right; left; reflexivity|].
  destruct (String.eqb "Double" t) eqn:EDouble;
    [apply String.eqb_eq in EDouble; subst t; do 4 right; left; reflexivity|].
  destruct (String.eqb "Long" t) eqn:ELong;
    [apply String.eqb_eq in ELong; subst t; do 5 right; left; reflexivity|].
  destruct (String.eqb "Date" t) eqn:EDate;
    [apply String.eqb_eq in EDate; subst t; do 6 right; left; reflexivity|].
  left. reflexivity.
Qed.

Lemma spec_line (tn : string) (s : column_spec) :
  is_word (spec_name s) = true ->
  let l := (fst (row_of_spec s), line_tail (snd (row_of_spec s))) in
  line_ok l
  /\ attr_of_col_def tn (line_core (fst l) (snd l)) = [attr_read_back tn s].
Proof.
  destruct s as [[n o] key]. cbn [spec_name fst snd row_of_spec]. intros Hn.
  assert (H : forall ty rb, (ty, rb) = (sql_type_of o, read_back_type o) ->
            forall tail w1 ws,
              line_tail (ty +:+ (if key then " PRIMARY KEY" else "")) = tail ->
              shallow 0 tail = true -> all_chars not_comma tail = true ->
              Py.rstrip_by Py.is_space_char tail = tail -> tail <> "" ->
              Py.split tail = w1 :: ws -> uml_type_ddl (Py.upper w1) = rb ->
              line_ok (n, line_tail (sql_type_of o +:+
                                     (if key then " PRIMARY KEY" else "")))
              /\ attr_of_col_def tn
                   (line_core n (line_tail (sql_type_of o +:+
                                            (if key then " PRIMARY KEY" else ""))))
                 = [attr_read_back tn (n, o, key)]).
  { intros ty rb [= -> ->] tail w1 ws Htail Hsh Hco Hr Hne Hsp Hty. subst tail.
    assert (Hok : line_ok (n, line_tail (sql_type_of o +:+
                                         (if key then " PRIMARY KEY" else "")))).
    { unfold line_ok. cbn [fst snd].
      refine (conj Hn (conj Hsh (conj Hco (conj Hr (conj Hne _))))). eauto. }
    split; [exact Hok|].
    pose proof (attr_of_col_def_around tn "" "" _ Hok eq_refl eq_refl) as Ha.
    cbn [fst snd] in Ha. rewrite <- Ha.
    rewrite (attr_of_col_def_line tn "" "" n _ w1 ws Hn eq_refl eq_refl Hr Hne Hsp).
    rewrite Hty. reflexivity. }
  pose proof (type_cases o) as Hc. cbn [In] in Hc.
  destruct Hc as [Hc|[Hc|[Hc|[Hc|[Hc|[Hc|[Hc|[]]]]]]]]; destruct key;
    (eapply (H _ _ Hc);
     [vm_compute; reflexivity|reflexivity|reflexivity|reflexivity|discriminate
     |vm_compute; reflexivity|reflexivity]).
Qed.

Lemma shallow_join (lines : list (string * string)) :
  Forall line_ok lines ->
  shallow 0 (Py.join ("," +:+ Py.nl)
               (map (fun l => "  " +:+ line_core (fst l) (snd l)) lines)) = true.
Proof.
  induction lines as [|l lines IH]; [reflexivity|]. intros Hok.
  apply Forall_cons in Hok as [(Hn & Hsh & Hco & _) Hok].
  destruct (line_core_plain _ _ Hn Hsh Hco) as [Hs _].
  destruct lines as [|l2 lines]; [exact Hs|].
  cbn [map]. rewrite join_cons.
  apply (shallow_app ("  " +:+ line_core (fst l) (snd l))); [exact Hs|].
  apply (shallow_app ("," +:+ Py.nl)); [reflexivity|]. exact (IH Hok).
Qed.

Lemma strip_parentheses (body : string) :
  Py.strip_chars "()" ("(" +:+ Py.nl +:+ body +:+ Py.nl +:+ ")")
  = Py.nl +:+ body +:+ Py.nl.
Proof.
  unfold Py.strip_chars, Py.strip_by.
  change (Py.lstrip_by (fun c => Py.mem_char c "()")
            ("(" +:+ Py.nl +:+ body +:+ Py.nl +:+ ")"))
    with (Py.nl +:+ body +:+ Py.nl +:+ ")").
  rewrite <- (append_assoc body Py.nl ")"), <- (append_assoc Py.nl (body +:+ Py.nl) ")").
  rewrite rstrip_app_all by reflexivity.
  rewrite <- (append_assoc Py.nl body Py.nl).
  rewrite rstrip_app_kept; [|reflexivity|discriminate].
  rewrite append_assoc. reflexivity.
Qed.

Lemma spec_lines (tn : string) (specs : list column_spec) :
  Forall (fun s => is_word (spec_name s) = true) specs ->
  let lines := map (fun s => (fst (row_of_spec s), line_tail (snd (row_of_spec s))))
                   specs in
  Forall line_ok lines
  /\ flat_map (fun l => attr_of_col_def tn (line_core (fst l) (snd l))) lines
     = map (attr_read_back tn) specs.
Proof.
  cbv zeta. induction specs as [|s specs IH]; intros Hw; [split; [constructor|reflexivity]|].
  apply Forall_cons in Hw as [Hs Hw]. destruct (IH Hw) as [Hok Hfm].
  destruct (spec_line tn s Hs) as [H1 H2]. cbv zeta in H1, H2.
  cbn [map flat_map]. split; [constructor; assumption|].
  rewrite H2, Hfm. reflexivity.
Qed.

(** X13: the parenthesis of a CREATE TABLE statement of the script writer,
    read by the script reader as it stands.  When the column names are
    words, the reader's splitting pattern and its reading of each piece give
    one attribute per column, in order and under the same name; the type
    written for Integer, String, Boolean, Float or Date comes back, Long
    comes back as Integer, Double as Float, and any other type (or none)
    as String.  The key marker of a column changes nothing. *)
Theorem written_columns_read_back (cn tn : string) (specs : list column_spec) :
  Forall (fun s => is_word (spec_name s) = true) specs ->
  create_table cn (map row_of_spec specs)
  = "CREATE TABLE `" +:+ cn +:+ "` " +:+ columns_text (map row_of_spec specs) +:+ ";"
  /\ flat_map (attr_of_col_def tn) (col_defs_of (columns_text (map row_of_spec specs)))
     = map (attr_read_back tn) specs.
Proof.
  intros Hw. split.
  - unfold create_table, columns_text. cbn [Py.join].
    rewrite !append_assoc. reflexivity.
  - destruct (spec_lines tn specs Hw) as [Hok Hfm]. cbv zeta in Hok, Hfm.
    rewrite <- Hfm. unfold col_defs_of, columns_text.
    rewrite strip_parentheses.
    replace (map attr_line (map row_of_spec specs))
      with (map (fun l : string * string => "  " +:+ line_core (fst l) (snd l))
              (map (fun s => (fst (row_of_spec s), line_tail (snd (row_of_spec s))))
                 specs)).
    2:{ rewrite !map_map. apply map_ext. intros s.
        destruct (row_of_spec s) as [n ty]. reflexivity. }
    set (lines := map (fun s => (fst (row_of_spec s), line_tail (snd (row_of_spec s))))
                      specs) in *.
    unfold Re.split. rewrite (split_go_shallow _ _ 0).
    + destruct specs as [|s specs]; [reflexivity|].
      apply (read_lines tn lines); [discriminate|exact Hok|reflexivity].
    + lia.
    + apply (shallow_app Py.nl); [reflexivity|].
      apply shallow_app; [exact (shallow_join lines Hok)|reflexivity].
Qed.

Lemma written_columns_read_back_witness :
  create_table "Item" (map row_of_spec sample_specs)
  = "CREATE TABLE `Item` " +:+ columns_text (map row_of_spec sample_specs) +:+ ";"
  /\ flat_map (attr_of_col_def "Item")
       (col_defs_of (columns_text (map row_of_spec sample_specs)))
     = map (attr_read_back "Item") sample_specs.
Proof.
  apply (written_columns_read_back "Item" "Item" sample_specs).
  repeat constructor.
Defined.

Example sample_columns_written :
  columns_text (map row_of_spec sample_specs)
  = "(" +:+ Py.nl +:+ "  `id` INT PRIMARY KEY," +:+ Py.nl
    +:+ "  `price` DOUBLE NOT NULL," +:+ Py.nl
    +:+ "  `note` VARCHAR(255) NOT NULL" +:+ Py.nl +:+ ")"
  /\ map (attr_read_back "Item") sample_specs
     = [ Elem "ownedAttribute"
           [ ("xmi:id", "id_Item_id"); ("name", "id"); ("type", "Integer") ] [];
         Elem "ownedAttribute"
           [ ("xmi:id", "id_Item_price"); ("name", "price"); ("type", "Float") ] [];
         Elem "ownedAttribute"
           [ ("xmi:id", "id_Item_note"); ("name", "note"); ("type", "String") ] [] ].
Proof. split; vm_compute; reflexivity. Qed.
